(** * decode-example.c: the decode session of the imxvpuapi example

    A shallow embedding of [src/example/decode-example.c].  The program is
    a driver around three external collaborators: the h.264 access-unit
    reader ([h264_utils.h]), the VPU decoder library ([imxvpuapi.h]) and
    the C library (stdio, malloc).  None of them is part of the sources, so
    the embedding keeps them abstract: an environment [Env] fixes what the
    n-th call of each external function answers, and the program is a
    function of that environment which threads its own state ([AppData])
    and produces the list of external calls it makes, in program order.

    Logging ([fprintf (stderr, ...)]) has no influence on control flow and
    is left out of the call list. *)

From Stdlib Require Import ZArith List Bool Lia String Ascii Sorted Permutation.
Import ListNotations.
Open Scope Z_scope.

(** ** Machine integers *)

(** [unsigned int] is 32 bits wide on the i.MX targets of the library;
    arithmetic on it wraps. *)
Definition UINT_MODULUS : Z := 4294967296.

Definition u32 (z : Z) : Z := z mod UINT_MODULUS.

(** ** Types of the example *)

(** [typedef enum { RETVAL_OK = 0, RETVAL_ERROR = 1, RETVAL_EOS = 2 } Retval;] *)
Inductive Retval : Type :=
| RETVAL_OK
| RETVAL_ERROR
| RETVAL_EOS.

Definition Retval_value (r : Retval) : Z :=
  match r with
  | RETVAL_OK => 0
  | RETVAL_ERROR => 1
  | RETVAL_EOS => 2
  end.

Definition Retval_eqb (a b : Retval) : bool :=
  Retval_value a =? Retval_value b.

(** ** Types of [imxvpuapi.h] as far as the example touches them *)

(** Modelled from the spec: the header is not part of the sources.  The
    spec only distinguishes an engine call that succeeds from one that
    "reports a hard failure"; the return code has these two values. *)
Inductive ImxVpuDecReturnCodes : Type :=
| IMX_VPU_DEC_RETURN_CODE_OK
| IMX_VPU_DEC_RETURN_CODE_ERROR.

(** [ImxVpuDMABuffer *]: [None] is the NULL pointer, [Some n] is the buffer
    handed out by the n-th call of [imx_vpu_dma_buffer_allocate]. *)
Definition dma_buffer_ptr : Type := option nat.

(** [ImxVpuEncodedFrame].  [ef_virtual_address] is [None] for NULL and
    [Some off] for [in_buffer + off]; [ef_context] is the [void *] context
    seen as an integer, 0 being NULL. *)
Record ImxVpuEncodedFrame : Type := {
  ef_virtual_address : option Z;
  ef_data_size : Z;
  ef_codec_data : option Z;
  ef_codec_data_size : Z;
  ef_context : Z
}.

Record ImxVpuDecInitialInfo : Type := {
  frame_width : Z;
  frame_height : Z;
  frame_rate_numerator : Z;
  frame_rate_denominator : Z;
  min_num_required_framebuffers : Z;
  interlacing : Z;
  width_height_ratio : Z;
  framebuffer_alignment : Z
}.

Record ImxVpuDecFramebufferSizes : Type := {
  aligned_frame_width : Z;
  aligned_frame_height : Z;
  y_stride : Z;
  cbcr_stride : Z;
  y_size : Z;
  cbcr_size : Z;
  mvcol_size : Z;
  total_size : Z
}.

(** [ImxVpuFramebuffer] after [imx_vpu_dec_fill_framebuffer_params]: the
    DMA buffer behind the slot and the slot's user context. *)
Record ImxVpuFramebuffer : Type := {
  fb_dma_buffer : dma_buffer_ptr;
  fb_context : Z
}.

(** [ImxVpuPicture]: the slot a decoded picture lives in and the context
    of the encoded frame it came from. *)
Record ImxVpuPicture : Type := {
  pic_framebuffer : ImxVpuFramebuffer;
  pic_context : Z
}.

Definition zero_initial_info : ImxVpuDecInitialInfo :=
  {| frame_width := 0; frame_height := 0; frame_rate_numerator := 0;
     frame_rate_denominator := 0; min_num_required_framebuffers := 0;
     interlacing := 0; width_height_ratio := 0; framebuffer_alignment := 0 |}.

Definition zero_sizes : ImxVpuDecFramebufferSizes :=
  {| aligned_frame_width := 0; aligned_frame_height := 0; y_stride := 0;
     cbcr_stride := 0; y_size := 0; cbcr_size := 0; mvcol_size := 0;
     total_size := 0 |}.

(** ** The environment *)

(** What the external functions answer.  Calls of one kind are numbered in
    the order the program makes them; the calls a decode step makes to the
    engine after [imx_vpu_dec_decode] are numbered by that decode call.
    The four output-code masks are constants of [imxvpuapi.h], which is not
    part of the sources: they are parameters of the environment. *)
Record Env : Type := {
  IMX_VPU_DEC_OUTPUT_CODE_INITIAL_INFO_AVAILABLE : Z;
  IMX_VPU_DEC_OUTPUT_CODE_DECODED_PICTURE_AVAILABLE : Z;
  IMX_VPU_DEC_OUTPUT_CODE_DROPPED : Z;
  IMX_VPU_DEC_OUTPUT_CODE_EOS : Z;
  (* successive results of getopt (argc, argv, "i:o:") before it returns -1:
     the option character and optarg *)
  getopt : list (ascii * string);
  (* fopen (infn, "rb") and fopen (outfn, "wb") return non-NULL *)
  fopen_in_ok : bool;
  fopen_out_ok : bool;
  (* n-th h264_ctx_read_access_unit: return value is non-zero, and the
     au_start_offset and au_end_offset it leaves in the context *)
  h264_ctx_read_access_unit : nat -> bool * Z * Z;
  (* imx_vpu_dec_get_bitstream_buffer_info *)
  dec_bitstream_buffer_size : Z;
  dec_bitstream_buffer_alignment : Z;
  (* n-th imx_vpu_dma_buffer_allocate returns non-NULL *)
  dma_buffer_allocate_ok : nat -> bool;
  imx_vpu_dec_open : ImxVpuDecReturnCodes;
  (* n-th imx_vpu_dec_decode: return code and the output code it stores *)
  imx_vpu_dec_decode : nat -> ImxVpuDecReturnCodes * Z;
  imx_vpu_dec_get_initial_info : nat -> ImxVpuDecReturnCodes * ImxVpuDecInitialInfo;
  imx_vpu_dec_calc_framebuffer_sizes : ImxVpuDecInitialInfo -> ImxVpuDecFramebufferSizes;
  imx_vpu_dec_register_framebuffers : nat -> ImxVpuDecReturnCodes;
  imx_vpu_dec_get_decoded_picture : nat -> ImxVpuDecReturnCodes * ImxVpuPicture;
  imx_vpu_dec_mark_framebuffer_as_displayed : nat -> ImxVpuDecReturnCodes;
  imx_vpu_dec_get_dropped_frame_context : nat -> Z
}.

(** [output_code & mask] as a C condition. *)
Definition has_flag (output_code mask : Z) : bool :=
  negb (Z.land output_code mask =? 0).

(** ** External calls *)

Inductive event : Type :=
| E_fopen (for_writing ok : bool)
| E_fclose (for_writing : bool)
| E_set_logging
| E_h264_ctx_init
| E_h264_ctx_cleanup
| E_h264_ctx_read_access_unit (ok : bool) (au_start au_end : Z)
| E_dec_load
| E_dec_unload
| E_dec_get_bitstream_buffer_info
| E_dma_buffer_allocate (size alignment : Z) (result : dma_buffer_ptr)
| E_dma_buffer_deallocate (buffer : dma_buffer_ptr)
| E_dma_buffer_map (buffer : dma_buffer_ptr)
| E_dma_buffer_unmap (buffer : dma_buffer_ptr)
| E_dec_open (ret : ImxVpuDecReturnCodes)
| E_dec_close
| E_dec_enable_drain_mode (enabled : bool)
| E_dec_decode (frame : ImxVpuEncodedFrame) (ret : ImxVpuDecReturnCodes) (output_code : Z)
| E_dec_get_initial_info (ret : ImxVpuDecReturnCodes) (info : ImxVpuDecInitialInfo)
| E_dec_calc_framebuffer_sizes
| E_malloc (count : Z)
| E_free (null : bool)
| E_dec_fill_framebuffer_params (index : Z) (buffer : dma_buffer_ptr) (context : Z)
| E_dec_register_framebuffers (fbs : list ImxVpuFramebuffer) (num : Z) (ret : ImxVpuDecReturnCodes)
| E_dec_get_decoded_picture (ret : ImxVpuDecReturnCodes) (picture : ImxVpuPicture)
| E_fwrite (num_byte : Z)
| E_dec_mark_framebuffer_as_displayed (fb : ImxVpuFramebuffer) (ret : ImxVpuDecReturnCodes)
| E_dec_get_dropped_frame_context (context : Z).

(** ** Program state *)

(** The two fields of [h264_context] the example reads. *)
Record h264_context : Type := {
  au_start_offset : Z;
  au_end_offset : Z
}.

(** [AppData].  Pointers are options ([None] is NULL); the two pool arrays
    are the lists of their elements. *)
Record AppData : Type := {
  infn : option string;
  outfn : option string;
  fin : bool;
  fout : bool;
  h264_ctx : h264_context;
  vpudec : bool;
  bitstream_buffer : dma_buffer_ptr;
  bitstream_buffer_size : Z;
  bitstream_buffer_alignment : Z;
  initial_info : ImxVpuDecInitialInfo;
  framebuffers : option (list ImxVpuFramebuffer);
  fb_dmabuffers : option (list dma_buffer_ptr);
  num_framebuffers : Z;
  calculated_sizes : ImxVpuDecFramebufferSizes;
  frame_id_counter : Z
}.

(** State of the collaborators that the program's calls depend on.
    Modelled from the spec: the decoder's drain flag is what
    [imx_vpu_dec_enable_drain_mode] last set ("enable_drain(handle, bool)"),
    it is off in a freshly opened decoder, and
    [imx_vpu_dec_is_drain_mode_enabled] reads it; the library that
    implements both is not part of the sources. *)
Record World : Type := {
  drain_mode_enabled : bool;
  num_reads : nat;
  num_decodes : nat;
  num_allocs : nat
}.

Record State : Type := {
  app_data : AppData;
  world : World
}.

(** [memset (&app_data, 0, sizeof (AppData))] in a fresh process. *)
Definition zero_app_data : AppData :=
  {| infn := None; outfn := None; fin := false; fout := false;
     h264_ctx := {| au_start_offset := 0; au_end_offset := 0 |};
     vpudec := false; bitstream_buffer := None;
     bitstream_buffer_size := 0; bitstream_buffer_alignment := 0;
     initial_info := zero_initial_info;
     framebuffers := None; fb_dmabuffers := None; num_framebuffers := 0;
     calculated_sizes := zero_sizes; frame_id_counter := 0 |}.

Definition initial_world : World :=
  {| drain_mode_enabled := false; num_reads := 0; num_decodes := 0; num_allocs := 0 |}.

Definition initial_state : State :=
  {| app_data := zero_app_data; world := initial_world |}.

(** Field updates. *)
Definition set_h264_ctx (a : AppData) (c : h264_context) : AppData :=
  {| infn := infn a; outfn := outfn a; fin := fin a; fout := fout a;
     h264_ctx := c;
     vpudec := vpudec a; bitstream_buffer := bitstream_buffer a;
     bitstream_buffer_size := bitstream_buffer_size a;
     bitstream_buffer_alignment := bitstream_buffer_alignment a;
     initial_info := initial_info a;
     framebuffers := framebuffers a; fb_dmabuffers := fb_dmabuffers a;
     num_framebuffers := num_framebuffers a;
     calculated_sizes := calculated_sizes a;
     frame_id_counter := frame_id_counter a |}.

Definition set_pool (a : AppData) (info : ImxVpuDecInitialInfo)
    (sizes : ImxVpuDecFramebufferSizes) (num : Z)
    (fbs : list ImxVpuFramebuffer) (bufs : list dma_buffer_ptr) : AppData :=
  {| infn := infn a; outfn := outfn a; fin := fin a; fout := fout a;
     h264_ctx := h264_ctx a;
     vpudec := vpudec a; bitstream_buffer := bitstream_buffer a;
     bitstream_buffer_size := bitstream_buffer_size a;
     bitstream_buffer_alignment := bitstream_buffer_alignment a;
     initial_info := info;
     framebuffers := Some fbs; fb_dmabuffers := Some bufs;
     num_framebuffers := num;
     calculated_sizes := sizes;
     frame_id_counter := frame_id_counter a |}.

Definition set_frame_id_counter (a : AppData) (c : Z) : AppData :=
  {| infn := infn a; outfn := outfn a; fin := fin a; fout := fout a;
     h264_ctx := h264_ctx a;
     vpudec := vpudec a; bitstream_buffer := bitstream_buffer a;
     bitstream_buffer_size := bitstream_buffer_size a;
     bitstream_buffer_alignment := bitstream_buffer_alignment a;
     initial_info := initial_info a;
     framebuffers := framebuffers a; fb_dmabuffers := fb_dmabuffers a;
     num_framebuffers := num_framebuffers a;
     calculated_sizes := calculated_sizes a;
     frame_id_counter := c |}.

Definition set_files (a : AppData) (i o : option string) (fi fo : bool) : AppData :=
  {| infn := i; outfn := o; fin := fi; fout := fo;
     h264_ctx := h264_ctx a;
     vpudec := vpudec a; bitstream_buffer := bitstream_buffer a;
     bitstream_buffer_size := bitstream_buffer_size a;
     bitstream_buffer_alignment := bitstream_buffer_alignment a;
     initial_info := initial_info a;
     framebuffers := framebuffers a; fb_dmabuffers := fb_dmabuffers a;
     num_framebuffers := num_framebuffers a;
     calculated_sizes := calculated_sizes a;
     frame_id_counter := frame_id_counter a |}.

Definition set_decoder (a : AppData) (size alignment : Z)
    (buf : dma_buffer_ptr) (dec : bool) : AppData :=
  {| infn := infn a; outfn := outfn a; fin := fin a; fout := fout a;
     h264_ctx := h264_ctx a;
     vpudec := dec; bitstream_buffer := buf;
     bitstream_buffer_size := size;
     bitstream_buffer_alignment := alignment;
     initial_info := initial_info a;
     framebuffers := framebuffers a; fb_dmabuffers := fb_dmabuffers a;
     num_framebuffers := num_framebuffers a;
     calculated_sizes := calculated_sizes a;
     frame_id_counter := frame_id_counter a |}.

Definition set_world (st : State) (w : World) : State :=
  {| app_data := app_data st; world := w |}.

Definition set_app (st : State) (a : AppData) : State :=
  {| app_data := a; world := world st |}.

(** ** [parse_args] *)

(** The [while ((opt = getopt (...)) != -1)] loop over the options getopt
    finds; any option other than [-i] and [-o] prints the usage and makes
    [parse_args] return 0. *)
Fixpoint parse_args_options (opts : list (ascii * string)) (i o : option string)
    : bool * option string * option string :=
  match opts with
  | [] => (true, i, o)
  | (opt, optarg) :: rest =>
      if Ascii.eqb opt "i" then parse_args_options rest (Some optarg) o
      else if Ascii.eqb opt "o" then parse_args_options rest i (Some optarg)
      else (false, i, o)
  end.

Definition parse_args (e : Env) (a : AppData) : bool * AppData :=
  let '(ok, i, o) := parse_args_options (getopt e) (infn a) (outfn a) in
  let a' := set_files a i o (fin a) (fout a) in
  if negb ok then (false, a')
  else
    match i with
    | None => (false, a')
    | Some _ =>
        match o with
        | None => (false, a')
        | Some _ => (true, a')
        end
    end.

(** ** [init] *)

Definition init (e : Env) (st : State) : Retval * State * list event :=
  let '(parsed, a0) := parse_args e (app_data st) in
  if negb parsed then (RETVAL_ERROR, set_app st a0, [])
  else if negb (fopen_in_ok e) then
    (RETVAL_ERROR, set_app st a0, [E_fopen false false])
  else
    let a1 := set_files a0 (infn a0) (outfn a0) true (fout a0) in
    if negb (fopen_out_ok e) then
      (RETVAL_ERROR, set_app st a1,
       [E_fopen false true; E_fopen true false; E_fclose false])
    else
      let a2 := set_files a1 (infn a1) (outfn a1) true true in
      let a3 := set_frame_id_counter a2 100 in
      let w := world st in
      let n := num_allocs w in
      let size := dec_bitstream_buffer_size e in
      let alignment := dec_bitstream_buffer_alignment e in
      let buf := if dma_buffer_allocate_ok e n then Some n else None in
      let opened :=
        match imx_vpu_dec_open e with
        | IMX_VPU_DEC_RETURN_CODE_OK => true
        | IMX_VPU_DEC_RETURN_CODE_ERROR => false
        end in
      let a4 := set_decoder a3 size alignment buf opened in
      let w' := {| drain_mode_enabled := drain_mode_enabled w;
                   num_reads := num_reads w;
                   num_decodes := num_decodes w;
                   num_allocs := S n |} in
      (RETVAL_OK, {| app_data := a4; world := w' |},
       [E_fopen false true; E_fopen true true;
        E_set_logging; E_h264_ctx_init;
        E_dec_load; E_dec_get_bitstream_buffer_info;
        E_dma_buffer_allocate size alignment buf;
        E_dec_open (imx_vpu_dec_open e)]).

(** ** [shutdown] *)

(** [for (i = 0; i < num_framebuffers; ++i)
       imx_vpu_dma_buffer_deallocate (fb_dmabuffers[i]);]
    with [k] iterations left.  An index outside the array is read as NULL;
    [pool_length_invariant] below shows the loop never does that. *)
Fixpoint deallocate_framebuffers (bufs : list dma_buffer_ptr) (k i : nat) : list event :=
  match k with
  | O => []
  | S k' => E_dma_buffer_deallocate (nth i bufs None)
            :: deallocate_framebuffers bufs k' (S i)
  end.

Definition pool_array {A : Type} (p : option (list A)) : list A :=
  match p with
  | Some l => l
  | None => []
  end.

Definition is_null {A : Type} (p : option A) : bool :=
  match p with
  | Some _ => false
  | None => true
  end.

Definition shutdown (st : State) : Retval * State * list event :=
  let a := app_data st in
  (RETVAL_OK, st,
   [E_dec_close; E_free (is_null (framebuffers a))]
   ++ deallocate_framebuffers (pool_array (fb_dmabuffers a))
        (Z.to_nat (num_framebuffers a)) 0
   ++ [E_free (is_null (fb_dmabuffers a));
       E_dma_buffer_deallocate (bitstream_buffer a);
       E_dec_unload;
       E_h264_ctx_cleanup]
   ++ (if fout a then [E_fclose true] else [])
   ++ (if fin a then [E_fclose false] else [])).

(** ** [decode_frame] *)

(** The frame submitted in drain mode. *)
Definition drain_frame : ImxVpuEncodedFrame :=
  {| ef_virtual_address := None; ef_data_size := 0;
     ef_codec_data := None; ef_codec_data_size := 0;
     ef_context := 0 |}.

(** The frame submitted for the access unit the reader left in the
    context; its context is the frame id counter. *)
Definition input_frame (c : h264_context) (counter : Z) : ImxVpuEncodedFrame :=
  {| ef_virtual_address := Some (au_start_offset c);
     ef_data_size := u32 (au_end_offset c - au_start_offset c);
     ef_codec_data := None; ef_codec_data_size := 0;
     ef_context := counter |}.

(** The allocation loop of the pool build,
    [for (i = 0; i < num_framebuffers; ++i)], with [k] iterations left,
    the loop variable at [i] and [next] allocations made so far in the
    process.  Returns the two arrays, the allocations made and the calls. *)
Fixpoint allocate_framebuffers (e : Env) (size alignment : Z) (k : nat) (i : Z) (next : nat)
    : list ImxVpuFramebuffer * list dma_buffer_ptr * nat * list event :=
  match k with
  | O => ([], [], next, [])
  | S k' =>
      let buf := if dma_buffer_allocate_ok e next then Some next else None in
      let ctx := u32 (8192 + i) in
      let fb := {| fb_dma_buffer := buf; fb_context := ctx |} in
      let '(fbs, bufs, next', evs) :=
        allocate_framebuffers e size alignment k' (i + 1) (S next) in
      (fb :: fbs, buf :: bufs, next',
       E_dma_buffer_allocate size alignment buf
       :: E_dec_fill_framebuffer_params i buf ctx :: evs)
  end.

(** The body of [if (output_code & ..._INITIAL_INFO_AVAILABLE)]; [d] is the
    number of the decode call of this step. *)
Definition register_pool (e : Env) (st : State) (d : nat) : State * list event :=
  let '(ret, info) := imx_vpu_dec_get_initial_info e d in
  let num := min_num_required_framebuffers info in
  let sizes := imx_vpu_dec_calc_framebuffer_sizes e info in
  let w := world st in
  let '(fbs, bufs, next, evs) :=
    allocate_framebuffers e (total_size sizes) (framebuffer_alignment info)
      (Z.to_nat num) 0 (num_allocs w) in
  let w' := {| drain_mode_enabled := drain_mode_enabled w;
               num_reads := num_reads w;
               num_decodes := num_decodes w;
               num_allocs := next |} in
  ({| app_data := set_pool (app_data st) info sizes num fbs bufs; world := w' |},
   [E_dec_get_initial_info ret info;
    E_dec_calc_framebuffer_sizes;
    E_malloc num; E_malloc num]
   ++ evs
   ++ [E_dec_register_framebuffers fbs num (imx_vpu_dec_register_framebuffers e d)]).

(** The [if (... DECODED_PICTURE_AVAILABLE) ... else if (... DROPPED) ...]
    statement. *)
Definition output_picture (e : Env) (st : State) (d : nat) (output_code : Z) : list event :=
  if has_flag output_code (IMX_VPU_DEC_OUTPUT_CODE_DECODED_PICTURE_AVAILABLE e) then
    let sizes := calculated_sizes (app_data st) in
    let num_out_byte := u32 (y_size sizes + u32 (cbcr_size sizes * 2)) in
    let '(ret, picture) := imx_vpu_dec_get_decoded_picture e d in
    let fb := pic_framebuffer picture in
    [E_dec_get_decoded_picture ret picture;
     E_dma_buffer_map (fb_dma_buffer fb);
     E_fwrite num_out_byte;
     E_dma_buffer_unmap (fb_dma_buffer fb);
     E_dec_mark_framebuffer_as_displayed fb
       (imx_vpu_dec_mark_framebuffer_as_displayed e d)]
  else if has_flag output_code (IMX_VPU_DEC_OUTPUT_CODE_DROPPED e) then
    [E_dec_get_dropped_frame_context (imx_vpu_dec_get_dropped_frame_context e d)]
  else [].

(** [decode_frame] from [imx_vpu_dec_decode] on: [frame] and [ok] are the
    locals [encoded_frame] and [ok] as the first part left them. *)
Definition decode_submit (e : Env) (st : State) (frame : ImxVpuEncodedFrame) (ok : bool)
    : Retval * State * list event :=
  let d := num_decodes (world st) in
  let '(ret, output_code) := imx_vpu_dec_decode e d in
  let '(st1, evs1) :=
    if has_flag output_code (IMX_VPU_DEC_OUTPUT_CODE_INITIAL_INFO_AVAILABLE e)
    then register_pool e st d
    else (st, []) in
  let evs2 := output_picture e st1 d output_code in
  let ok' := if has_flag output_code (IMX_VPU_DEC_OUTPUT_CODE_EOS e) then false else ok in
  let a' := set_frame_id_counter (app_data st1) (u32 (frame_id_counter (app_data st1) + 1)) in
  let w1 := world st1 in
  let w' := {| drain_mode_enabled := drain_mode_enabled w1;
               num_reads := num_reads w1;
               num_decodes := S d;
               num_allocs := num_allocs w1 |} in
  (if ok' then RETVAL_OK else RETVAL_EOS,
   {| app_data := a'; world := w' |},
   E_dec_decode frame ret output_code :: evs1 ++ evs2).

Definition decode_frame (e : Env) (st : State) : Retval * State * list event :=
  if drain_mode_enabled (world st) then
    decode_submit e st drain_frame true
  else
    let w := world st in
    let '(ok, au_start, au_end) := h264_ctx_read_access_unit e (num_reads w) in
    let c := {| au_start_offset := au_start; au_end_offset := au_end |} in
    let w' := {| drain_mode_enabled := drain_mode_enabled w;
                 num_reads := S (num_reads w);
                 num_decodes := num_decodes w;
                 num_allocs := num_allocs w |} in
    let st1 := {| app_data := set_h264_ctx (app_data st) c; world := w' |} in
    let read := E_h264_ctx_read_access_unit ok au_start au_end in
    if au_end <=? au_start then (RETVAL_EOS, st1, [read])
    else
      let '(r, st2, evs) :=
        decode_submit e st1 (input_frame c (frame_id_counter (app_data st1))) ok in
      (r, st2, read :: evs).

(** ** [main] *)

(** [imx_vpu_dec_enable_drain_mode (app_data.vpudec, 1)]. *)
Definition enable_drain_mode (st : State) : State :=
  let w := world st in
  set_world st {| drain_mode_enabled := true;
                  num_reads := num_reads w;
                  num_decodes := num_decodes w;
                  num_allocs := num_allocs w |}.

Section Session.

(** The two [for (;;)] loops of [main] call [decode_frame]; the session
    skeleton is written over the step it calls, so that its reaction to
    each [Retval] can be stated, and [main] instantiates it. *)
Variable step : State -> Retval * State * list event.

(** One [for (;;)] loop.  [None] as result: the loop is still running
    after [fuel] iterations; the calls made so far are returned. *)
Fixpoint decode_loop (fuel : nat) (st : State) : option Retval * State * list event :=
  match fuel with
  | O => (None, st, [])
  | S fuel' =>
      let '(ret, st1, evs) := step st in
      match ret with
      | RETVAL_EOS => (Some RETVAL_EOS, st1, evs)
      | RETVAL_ERROR => (Some RETVAL_ERROR, st1, evs)
      | RETVAL_OK =>
          let '(r, st2, evs') := decode_loop fuel' st1 in
          (r, st2, evs ++ evs')
      end
  end.

(** The part of [main] after a successful [init].  The result is the
    exit code, [None] while a loop is still running. *)
Definition session (fuel : nat) (st : State) : option Z * State * list event :=
  let '(r1, st1, evs1) := decode_loop fuel st in
  match r1 with
  | None => (None, st1, evs1)
  | Some RETVAL_ERROR =>
      let '(_, st2, evs2) := shutdown st1 in
      (Some 1, st2, evs1 ++ evs2)
  | Some _ =>
      let st2 := enable_drain_mode st1 in
      let '(r3, st3, evs3) := decode_loop fuel st2 in
      match r3 with
      | None => (None, st3, evs1 ++ E_dec_enable_drain_mode true :: evs3)
      | Some RETVAL_ERROR =>
          let '(_, st4, evs4) := shutdown st3 in
          (Some 1, st4, evs1 ++ E_dec_enable_drain_mode true :: evs3 ++ evs4)
      | Some _ =>
          let '(r, st4, evs4) := shutdown st3 in
          (Some (Retval_value r), st4,
           evs1 ++ E_dec_enable_drain_mode true :: evs3 ++ evs4)
      end
  end.

Definition main_with (e : Env) (fuel : nat) : option Z * State * list event :=
  let '(r0, st0, evs0) := init e initial_state in
  if Retval_eqb r0 RETVAL_ERROR then (Some 1, st0, evs0)
  else
    let '(code, st1, evs1) := session fuel st0 in
    (code, st1, evs0 ++ evs1).

End Session.

Definition main (e : Env) (fuel : nat) : option Z * State * list event :=
  main_with (decode_frame e) e fuel.

(** ** Reading results and call lists *)

Definition ret_of {R : Type} (x : R * State * list event) : R := fst (fst x).
Definition state_of {R : Type} (x : R * State * list event) : State := snd (fst x).
Definition events_of {R : Type} (x : R * State * list event) : list event := snd x.

Definition count (p : event -> bool) (tr : list event) : nat :=
  List.length (filter p tr).

Definition is_read (ev : event) : bool :=
  match ev with E_h264_ctx_read_access_unit _ _ _ => true | _ => false end.

Definition is_decode (ev : event) : bool :=
  match ev with E_dec_decode _ _ _ => true | _ => false end.

Definition is_allocate (ev : event) : bool :=
  match ev with E_dma_buffer_allocate _ _ _ => true | _ => false end.

Definition is_deallocate (ev : event) : bool :=
  match ev with E_dma_buffer_deallocate _ => true | _ => false end.

Definition is_register (ev : event) : bool :=
  match ev with E_dec_register_framebuffers _ _ _ => true | _ => false end.

Definition is_get_decoded_picture (ev : event) : bool :=
  match ev with E_dec_get_decoded_picture _ _ => true | _ => false end.

Definition is_mark_displayed (ev : event) : bool :=
  match ev with E_dec_mark_framebuffer_as_displayed _ _ => true | _ => false end.

Definition is_get_dropped (ev : event) : bool :=
  match ev with E_dec_get_dropped_frame_context _ => true | _ => false end.

Definition is_enable_drain (ev : event) : bool :=
  match ev with E_dec_enable_drain_mode _ => true | _ => false end.

Definition is_close (ev : event) : bool :=
  match ev with E_dec_close => true | _ => false end.

(** A decode call whose output code has the bits of [mask]. *)
Definition is_decode_with (mask : Z) (ev : event) : bool :=
  match ev with
  | E_dec_decode _ _ output_code => has_flag output_code mask
  | _ => false
  end.

(** An engine call that reported a hard failure. *)
Definition is_hard_failure (ev : event) : bool :=
  match ev with
  | E_dec_open IMX_VPU_DEC_RETURN_CODE_ERROR
  | E_dec_decode _ IMX_VPU_DEC_RETURN_CODE_ERROR _
  | E_dec_get_initial_info IMX_VPU_DEC_RETURN_CODE_ERROR _
  | E_dec_register_framebuffers _ _ IMX_VPU_DEC_RETURN_CODE_ERROR
  | E_dec_get_decoded_picture IMX_VPU_DEC_RETURN_CODE_ERROR _
  | E_dec_mark_framebuffer_as_displayed _ IMX_VPU_DEC_RETURN_CODE_ERROR => true
  | _ => false
  end.

(** A failed allocation. *)
Definition is_failed_allocate (ev : event) : bool :=
  match ev with E_dma_buffer_allocate _ _ None => true | _ => false end.

(** The output code of the decode call in the calls of one step, if the
    step made one. *)
Fixpoint output_code_of (evs : list event) : option Z :=
  match evs with
  | [] => None
  | E_dec_decode _ _ output_code :: _ => Some output_code
  | _ :: evs' => output_code_of evs'
  end.

(** The frame submitted in the calls of one step, if the step made a
    decode call. *)
Fixpoint submitted_frame (evs : list event) : option ImxVpuEncodedFrame :=
  match evs with
  | [] => None
  | E_dec_decode frame _ _ :: _ => Some frame
  | _ :: evs' => submitted_frame evs'
  end.

(** The frames submitted in a call list, each with the drain flag of the
    decoder at the time of the call; [drain] is the flag at the start. *)
Fixpoint submissions (drain : bool) (tr : list event) : list (bool * ImxVpuEncodedFrame) :=
  match tr with
  | [] => []
  | E_dec_enable_drain_mode b :: tr' => submissions b tr'
  | E_dec_decode frame _ _ :: tr' => (drain, frame) :: submissions drain tr'
  | _ :: tr' => submissions drain tr'
  end.

(** The frames submitted in a call list. *)
Fixpoint submitted_frames (tr : list event) : list ImxVpuEncodedFrame :=
  match tr with
  | [] => []
  | E_dec_decode frame _ _ :: tr' => frame :: submitted_frames tr'
  | _ :: tr' => submitted_frames tr'
  end.

(** The contexts attached to the frames submitted outside drain mode. *)
Definition submitted_contexts (tr : list event) : list Z :=
  map (fun s => ef_context (snd s))
      (filter (fun s => negb (fst s)) (submissions false tr)).

Definition ImxVpuFramebuffer_eqb (a b : ImxVpuFramebuffer) : bool :=
  match fb_dma_buffer a, fb_dma_buffer b with
  | Some m, Some n => Nat.eqb m n
  | None, None => true
  | _, _ => false
  end && (fb_context a =? fb_context b).

(** Removes the first occurrence of a slot. *)
Fixpoint remove_slot (fb : ImxVpuFramebuffer) (owned : list ImxVpuFramebuffer)
    : option (list ImxVpuFramebuffer) :=
  match owned with
  | [] => None
  | fb' :: owned' =>
      if ImxVpuFramebuffer_eqb fb fb' then Some owned'
      else option_map (cons fb') (remove_slot fb owned')
  end.

(** Slot ownership along a call list: the consumer owns a slot from the
    [imx_vpu_dec_get_decoded_picture] that delivers it, which it does only
    when it returns OK, to the
    [imx_vpu_dec_mark_framebuffer_as_displayed] that returns it.  [None]:
    some slot was marked displayed while the consumer did not own it. *)
Fixpoint replay_ownership (owned : list ImxVpuFramebuffer) (tr : list event)
    : option (list ImxVpuFramebuffer) :=
  match tr with
  | [] => Some owned
  | E_dec_get_decoded_picture IMX_VPU_DEC_RETURN_CODE_OK picture :: tr' =>
      replay_ownership (pic_framebuffer picture :: owned) tr'
  | E_dec_mark_framebuffer_as_displayed fb _ :: tr' =>
      match remove_slot fb owned with
      | Some owned' => replay_ownership owned' tr'
      | None => None
      end
  | _ :: tr' => replay_ownership owned tr'
  end.

(** The same replay over the slots the fetch calls named, whether or not
    the call succeeded: [fetched] are the slots named by a fetch and not
    yet marked displayed.  [None]: some slot was marked displayed that no
    fetch had named since it was last marked. *)
Fixpoint replay_fetched (fetched : list ImxVpuFramebuffer) (tr : list event)
    : option (list ImxVpuFramebuffer) :=
  match tr with
  | [] => Some fetched
  | E_dec_get_decoded_picture _ picture :: tr' =>
      replay_fetched (pic_framebuffer picture :: fetched) tr'
  | E_dec_mark_framebuffer_as_displayed fb _ :: tr' =>
      match remove_slot fb fetched with
      | Some fetched' => replay_fetched fetched' tr'
      | None => None
      end
  | _ :: tr' => replay_fetched fetched tr'
  end.

(** A fetch of the decoded picture that reported a failure. *)
Definition is_failed_fetch (ev : event) : bool :=
  match ev with
  | E_dec_get_decoded_picture IMX_VPU_DEC_RETURN_CODE_ERROR _ => true
  | _ => false
  end.

(** The reader has nothing more: it left no access unit or returned 0. *)
Definition is_source_exhausted (ev : event) : bool :=
  match ev with
  | E_h264_ctx_read_access_unit ok au_start au_end => negb ok || (au_end <=? au_start)
  | _ => false
  end.

(** A call after which [decode_frame] returns [RETVAL_EOS]. *)
Definition ends_loop (e : Env) (ev : event) : bool :=
  is_source_exhausted ev || is_decode_with (IMX_VPU_DEC_OUTPUT_CODE_EOS e) ev.

(** ** Assumptions on the collaborators used for termination *)

(** The input file is finite: some read leaves no access unit. *)
Definition source_ends (e : Env) : Prop :=
  exists k, let '(_, au_start, au_end) := h264_ctx_read_access_unit e k in
            au_end <= au_start.

(** The engine reports EOS some time after any given decode call. *)
Definition engine_drains (e : Env) : Prop :=
  forall d, exists k,
    has_flag (snd (imx_vpu_dec_decode e (d + k)%nat)) (IMX_VPU_DEC_OUTPUT_CODE_EOS e) = true.

(** The engine never reports that initial info is available. *)
Definition no_initial_info (e : Env) : Prop :=
  forall d,
    has_flag (snd (imx_vpu_dec_decode e d))
             (IMX_VPU_DEC_OUTPUT_CODE_INITIAL_INFO_AVAILABLE e) = false.

(** The part of a call list before, and after, the first
    [imx_vpu_dec_enable_drain_mode]. *)
Fixpoint before_drain (tr : list event) : list event :=
  match tr with
  | [] => []
  | E_dec_enable_drain_mode _ :: _ => []
  | ev :: tr' => ev :: before_drain tr'
  end.

Fixpoint after_drain (tr : list event) : list event :=
  match tr with
  | [] => []
  | E_dec_enable_drain_mode _ :: tr' => tr'
  | _ :: tr' => after_drain tr'
  end.

(** ** Views of one step *)

(** The calls of the pool build. *)
Definition is_pool_call (ev : event) : bool :=
  match ev with
  | E_dec_get_initial_info _ _
  | E_dec_calc_framebuffer_sizes
  | E_malloc _
  | E_dma_buffer_allocate _ _ _
  | E_dec_fill_framebuffer_params _ _ _
  | E_dec_register_framebuffers _ _ _ => true
  | _ => false
  end.

(** The calls of the allocation loop of the pool build. *)
Definition is_allocation_call (ev : event) : bool :=
  match ev with
  | E_dma_buffer_allocate _ _ _
  | E_dec_fill_framebuffer_params _ _ _ => true
  | _ => false
  end.

(** The calls of the picture/dropped statement. *)
Definition is_output_call (ev : event) : bool :=
  match ev with
  | E_dec_get_decoded_picture _ _
  | E_dma_buffer_map _
  | E_fwrite _
  | E_dma_buffer_unmap _
  | E_dec_mark_framebuffer_as_displayed _ _
  | E_dec_get_dropped_frame_context _ => true
  | _ => false
  end.

(** The state and calls of the [INITIAL_INFO_AVAILABLE] statement. *)
Definition initial_info_step (e : Env) (st : State) (d : nat) (output_code : Z)
    : State * list event :=
  if has_flag output_code (IMX_VPU_DEC_OUTPUT_CODE_INITIAL_INFO_AVAILABLE e)
  then register_pool e st d
  else (st, []).

(** The state a non-drain step is in after the reader returned. *)
Definition after_read (e : Env) (st : State) : State :=
  let w := world st in
  let '(_, au_start, au_end) := h264_ctx_read_access_unit e (num_reads w) in
  {| app_data := set_h264_ctx (app_data st) {| au_start_offset := au_start; au_end_offset := au_end |};
     world := {| drain_mode_enabled := drain_mode_enabled w;
                 num_reads := S (num_reads w);
                 num_decodes := num_decodes w;
                 num_allocs := num_allocs w |} |}.

Definition read_ok (e : Env) (st : State) : bool :=
  fst (fst (h264_ctx_read_access_unit e (num_reads (world st)))).

Definition read_event (e : Env) (st : State) : event :=
  let '(ok, au_start, au_end) := h264_ctx_read_access_unit e (num_reads (world st)) in
  E_h264_ctx_read_access_unit ok au_start au_end.

(** The reader left no access unit: [au_end_offset <= au_start_offset]. *)
Definition no_access_unit (e : Env) (st : State) : bool :=
  let '(_, au_start, au_end) := h264_ctx_read_access_unit e (num_reads (world st)) in
  au_end <=? au_start.

(** The calls a decode step can make. *)
Definition is_step_call (ev : event) : bool :=
  is_read ev || is_decode ev || is_pool_call ev || is_output_call ev.

(** The calls of [shutdown]. *)
Definition is_teardown_call (ev : event) : bool :=
  match ev with
  | E_dec_close
  | E_free _
  | E_dma_buffer_deallocate _
  | E_dec_unload
  | E_h264_ctx_cleanup
  | E_fclose _ => true
  | _ => false
  end.

(** The calls of a successful [init]. *)
Definition init_calls (e : Env) : list event :=
  [E_fopen false true; E_fopen true true;
   E_set_logging; E_h264_ctx_init;
   E_dec_load; E_dec_get_bitstream_buffer_info;
   E_dma_buffer_allocate (dec_bitstream_buffer_size e) (dec_bitstream_buffer_alignment e)
     (if dma_buffer_allocate_ok e 0 then Some 0%nat else None);
   E_dec_open (imx_vpu_dec_open e)].

(** The calls of [init], on its successful and on its failing paths. *)
Definition is_init_call (ev : event) : bool :=
  match ev with
  | E_fopen _ _
  | E_set_logging
  | E_h264_ctx_init
  | E_dec_load
  | E_dec_get_bitstream_buffer_info
  | E_dma_buffer_allocate _ _ _
  | E_dec_open _
  | E_fclose _ => true
  | _ => false
  end.

(** [parse_args] succeeds and both files open. *)
Definition init_succeeds (e : Env) : bool :=
  fst (parse_args e zero_app_data) && fopen_in_ok e && fopen_out_ok e.

(** The step reaches [imx_vpu_dec_decode]. *)
Definition submits (e : Env) (st : State) : bool :=
  drain_mode_enabled (world st) || negb (no_access_unit e st).

(** The state in which a step that submits makes its decode call. *)
Definition step_entry (e : Env) (st : State) : State :=
  if drain_mode_enabled (world st) then st else after_read e st.

(** The local [encoded_frame] at the decode call. *)
Definition step_frame (e : Env) (st : State) : ImxVpuEncodedFrame :=
  if drain_mode_enabled (world st) then drain_frame
  else input_frame (h264_ctx (app_data (after_read e st))) (frame_id_counter (app_data st)).

(** The local [ok] at the decode call. *)
Definition step_ok (e : Env) (st : State) : bool :=
  if drain_mode_enabled (world st) then true else read_ok e st.

(** What the decode call of the step returns and stores in [output_code]. *)
Definition step_return_code (e : Env) (st : State) : ImxVpuDecReturnCodes :=
  fst (imx_vpu_dec_decode e (num_decodes (world st))).

Definition step_output_code (e : Env) (st : State) : Z :=
  snd (imx_vpu_dec_decode e (num_decodes (world st))).

(** The calls of the step before its decode call. *)
Definition step_prefix (e : Env) (st : State) : list event :=
  if drain_mode_enabled (world st) then [] else [read_event e st].

(** State after, and calls of, the [INITIAL_INFO_AVAILABLE] statement of
    the step. *)
Definition step_pool_state (e : Env) (st : State) : State :=
  fst (initial_info_step e (step_entry e st) (num_decodes (world st)) (step_output_code e st)).

Definition step_pool_calls (e : Env) (st : State) : list event :=
  snd (initial_info_step e (step_entry e st) (num_decodes (world st)) (step_output_code e st)).

(** ** Views of [main] *)

(** [init (...) == RETVAL_ERROR] in [main]. *)
Definition init_failed (e : Env) : bool :=
  Retval_eqb (ret_of (init e initial_state)) RETVAL_ERROR.

(** The first loop of [main], on live input. *)
Definition first_loop (e : Env) (fuel : nat) : option Retval * State * list event :=
  decode_loop (decode_frame e) fuel (state_of (init e initial_state)).

(** The second loop of [main], in drain mode. *)
Definition drain_loop (e : Env) (fuel : nat) : option Retval * State * list event :=
  decode_loop (decode_frame e) fuel (enable_drain_mode (state_of (first_loop e fuel))).

(** * Concrete environments and claim statements *)

(** An environment for examples: the input and output files open, the
    decoder answers [decodes], every initial info asks for [num_fb]
    framebuffers, and every picture comes in the slot with context 0x2000.
    The output-code masks are four distinct bits. *)
Definition example_env (reads : nat -> bool * Z * Z)
    (decodes : nat -> ImxVpuDecReturnCodes * Z) (num_fb : nat -> Z)
    (alloc_ok : nat -> bool) (opened : ImxVpuDecReturnCodes) : Env :=
  {| IMX_VPU_DEC_OUTPUT_CODE_INITIAL_INFO_AVAILABLE := 64;
     IMX_VPU_DEC_OUTPUT_CODE_DECODED_PICTURE_AVAILABLE := 4;
     IMX_VPU_DEC_OUTPUT_CODE_DROPPED := 8;
     IMX_VPU_DEC_OUTPUT_CODE_EOS := 2;
     getopt := [("i"%char, "in.h264"%string); ("o"%char, "out.yuv"%string)];
     fopen_in_ok := true;
     fopen_out_ok := true;
     h264_ctx_read_access_unit := reads;
     dec_bitstream_buffer_size := 1048576;
     dec_bitstream_buffer_alignment := 8;
     dma_buffer_allocate_ok := alloc_ok;
     imx_vpu_dec_open := opened;
     imx_vpu_dec_decode := decodes;
     imx_vpu_dec_get_initial_info := fun d =>
       (IMX_VPU_DEC_RETURN_CODE_OK,
        {| frame_width := 16; frame_height := 16; frame_rate_numerator := 25;
           frame_rate_denominator := 1; min_num_required_framebuffers := num_fb d;
           interlacing := 0; width_height_ratio := 65536; framebuffer_alignment := 8 |});
     imx_vpu_dec_calc_framebuffer_sizes := fun _ =>
       {| aligned_frame_width := 16; aligned_frame_height := 16; y_stride := 16;
          cbcr_stride := 8; y_size := 256; cbcr_size := 64; mvcol_size := 64;
          total_size := 448 |};
     imx_vpu_dec_register_framebuffers := fun _ => IMX_VPU_DEC_RETURN_CODE_OK;
     imx_vpu_dec_get_decoded_picture := fun d =>
       (IMX_VPU_DEC_RETURN_CODE_OK,
        {| pic_framebuffer := {| fb_dma_buffer := Some 1%nat; fb_context := 8192 |};
           pic_context := 100 + Z.of_nat d |});
     imx_vpu_dec_mark_framebuffer_as_displayed := fun _ => IMX_VPU_DEC_RETURN_CODE_OK;
     imx_vpu_dec_get_dropped_frame_context := fun d => 100 + Z.of_nat d |}.

(** A reader over a file of [n] access units of 10 bytes each: the k-th
    read leaves unit k, and no unit from the n-th read on. *)
Definition access_units (n : nat) (k : nat) : bool * Z * Z :=
  if (k <? n)%nat then (true, Z.of_nat k * 10, Z.of_nat k * 10 + 10)
  else (false, Z.of_nat n * 10, Z.of_nat n * 10).

(** The state [main] enters its first loop in. *)
Definition after_init (e : Env) : State := state_of (init e initial_state).

(** ** Dropped frames *)

(** The statement "a step whose output code has DROPPED set retrieves the
    dropped context, whatever the other flags". *)
Definition dropped_always_retrieved (e : Env) (st : State) : Prop :=
  forall output_code,
    output_code_of (events_of (decode_frame e st)) = Some output_code ->
    has_flag output_code (IMX_VPU_DEC_OUTPUT_CODE_DROPPED e) = true ->
    (0 < count is_get_dropped (events_of (decode_frame e st)))%nat.

(** One access unit; the engine answers it with DECODED_PICTURE_AVAILABLE
    and DROPPED both set (4 + 8). *)
Definition env_picture_and_dropped : Env :=
  example_env (access_units 1) (fun _ => (IMX_VPU_DEC_RETURN_CODE_OK, 12))
    (fun _ => 0) (fun _ => true) IMX_VPU_DEC_RETURN_CODE_OK.

(** One access unit; the engine answers it with DROPPED alone. *)
Definition env_dropped : Env :=
  example_env (access_units 1) (fun _ => (IMX_VPU_DEC_RETURN_CODE_OK, 8))
    (fun _ => 0) (fun _ => true) IMX_VPU_DEC_RETURN_CODE_OK.

(** ** Hard failures *)

(** The statement "a step in which an engine call reports a hard failure
    returns [RETVAL_ERROR]". *)
Definition hard_failure_is_fatal (e : Env) (st : State) : Prop :=
  (0 < count is_hard_failure (events_of (decode_frame e st)))%nat ->
  ret_of (decode_frame e st) = RETVAL_ERROR.

(** One access unit; [imx_vpu_dec_decode] fails on it. *)
Definition env_decode_fails : Env :=
  example_env (access_units 1) (fun _ => (IMX_VPU_DEC_RETURN_CODE_ERROR, 0))
    (fun _ => 0) (fun _ => true) IMX_VPU_DEC_RETURN_CODE_OK.

(** Some step of a session over [step] returns [RETVAL_ERROR]: the first
    loop ends with it, or the first loop ends with [RETVAL_EOS] and the
    drain loop ends with it. *)
Definition fatal_in_session (step : State -> Retval * State * list event)
    (fuel : nat) (st : State) : Prop :=
  ret_of (decode_loop step fuel st) = Some RETVAL_ERROR \/
  (ret_of (decode_loop step fuel st) = Some RETVAL_EOS /\
   ret_of (decode_loop step fuel (enable_drain_mode (state_of (decode_loop step fuel st))))
   = Some RETVAL_ERROR).

(** A step that fails at once, to exercise the error branches of [main]. *)
Definition failing_step (st : State) : Retval * State * list event :=
  (RETVAL_ERROR, st, []).

(** ** Allocation failures *)



(** The initial info the pool build of a step reads. *)
Definition step_initial_info (e : Env) (st : State) : ImxVpuDecInitialInfo :=
  snd (imx_vpu_dec_get_initial_info e (num_decodes (world st))).

(** ** The frame id counter *)

(** The statement "a drain-mode submission does not increment the
    counter". *)
Definition drain_keeps_counter (e : Env) (st : State) : Prop :=
  drain_mode_enabled (world st) = true ->
  frame_id_counter (app_data (state_of (decode_frame e st))) = frame_id_counter (app_data st).

(** An empty input file; the engine reports EOS on the second drain call. *)
Definition env_empty_input : Env :=
  example_env (access_units 0)
    (fun d => (IMX_VPU_DEC_RETURN_CODE_OK, match d with 0%nat => 0 | _ => 2 end))
    (fun _ => 0) (fun _ => true) IMX_VPU_DEC_RETURN_CODE_OK.

(** The state in which [main] enters its drain loop. *)
Definition drain_entry (e : Env) (fuel : nat) : State :=
  enable_drain_mode (state_of (first_loop e fuel)).

(** ** Slot ownership *)

(** The calls that move a slot between the engine and the consumer. *)
Definition is_ownership_call (ev : event) : bool :=
  is_get_decoded_picture ev || is_mark_displayed ev.

(** The statement "mark-displayed is never invoked for a slot the consumer
    does not currently own". *)
Definition marks_only_owned_slots (e : Env) (fuel : nat) : Prop :=
  replay_ownership [] (events_of (main e fuel)) <> None.

(** [e] with every [imx_vpu_dec_get_decoded_picture] reporting a failure;
    the picture is what the call leaves in the caller's record. *)
Definition with_failing_fetch (e : Env) : Env :=
  {| IMX_VPU_DEC_OUTPUT_CODE_INITIAL_INFO_AVAILABLE :=
       IMX_VPU_DEC_OUTPUT_CODE_INITIAL_INFO_AVAILABLE e;
     IMX_VPU_DEC_OUTPUT_CODE_DECODED_PICTURE_AVAILABLE :=
       IMX_VPU_DEC_OUTPUT_CODE_DECODED_PICTURE_AVAILABLE e;
     IMX_VPU_DEC_OUTPUT_CODE_DROPPED := IMX_VPU_DEC_OUTPUT_CODE_DROPPED e;
     IMX_VPU_DEC_OUTPUT_CODE_EOS := IMX_VPU_DEC_OUTPUT_CODE_EOS e;
     getopt := getopt e;
     fopen_in_ok := fopen_in_ok e;
     fopen_out_ok := fopen_out_ok e;
     h264_ctx_read_access_unit := h264_ctx_read_access_unit e;
     dec_bitstream_buffer_size := dec_bitstream_buffer_size e;
     dec_bitstream_buffer_alignment := dec_bitstream_buffer_alignment e;
     dma_buffer_allocate_ok := dma_buffer_allocate_ok e;
     imx_vpu_dec_open := imx_vpu_dec_open e;
     imx_vpu_dec_decode := imx_vpu_dec_decode e;
     imx_vpu_dec_get_initial_info := imx_vpu_dec_get_initial_info e;
     imx_vpu_dec_calc_framebuffer_sizes := imx_vpu_dec_calc_framebuffer_sizes e;
     imx_vpu_dec_register_framebuffers := imx_vpu_dec_register_framebuffers e;
     imx_vpu_dec_get_decoded_picture := fun d =>
       (IMX_VPU_DEC_RETURN_CODE_ERROR, snd (imx_vpu_dec_get_decoded_picture e d));
     imx_vpu_dec_mark_framebuffer_as_displayed :=
       imx_vpu_dec_mark_framebuffer_as_displayed e;
     imx_vpu_dec_get_dropped_frame_context := imx_vpu_dec_get_dropped_frame_context e |}.

(** One access unit, answered with INITIAL_INFO_AVAILABLE (two
    framebuffers) and DECODED_PICTURE_AVAILABLE; the fetch of the picture
    fails; EOS on the first drain call. *)
Definition env_fetch_fails : Env :=
  with_failing_fetch
    (example_env (access_units 1)
       (fun d => (IMX_VPU_DEC_RETURN_CODE_OK, match d with 0%nat => 68 | _ => 2 end))
       (fun _ => 2) (fun _ => true) IMX_VPU_DEC_RETURN_CODE_OK).

(** The scenario of the spec: three access units, initial info after the
    first, a decoded picture after the second and the third, EOS on the
    first drain call. *)
Definition env_three_units : Env :=
  example_env (access_units 3)
    (fun d => (IMX_VPU_DEC_RETURN_CODE_OK,
               match d with 0%nat => 64 | 1%nat => 4 | 2%nat => 4 | _ => 2 end))
    (fun _ => 2) (fun _ => true) IMX_VPU_DEC_RETURN_CODE_OK.

(** ** Drain mode *)

(** The statement "drain mode is entered only after the input source is
    exhausted": when the call list enables drain mode, the reader has
    before that left no access unit or returned 0. *)
Definition drain_only_after_exhaustion (e : Env) (fuel : nat) : Prop :=
  In (E_dec_enable_drain_mode true) (events_of (main e fuel)) ->
  existsb is_source_exhausted (before_drain (events_of (main e fuel))) = true.

(** Two access units; the engine sets EOS in every output code, so
    already in the one for the first unit. *)
Definition env_early_eos : Env :=
  example_env (access_units 2) (fun _ => (IMX_VPU_DEC_RETURN_CODE_OK, 2))
    (fun _ => 0) (fun _ => true) IMX_VPU_DEC_RETURN_CODE_OK.

(** ** Exit codes *)

(** The statement "any fatal error makes the process exit with code 1",
    fatal errors being a failing [init], an engine call reporting a hard
    failure (the engine open among them) and a failed allocation. *)
Definition fatal_errors_exit_1 (e : Env) (fuel : nat) : Prop :=
  forall code,
    ret_of (main e fuel) = Some code ->
    init_succeeds e = false \/
    (0 < count is_hard_failure (events_of (main e fuel)))%nat \/
    (0 < count is_failed_allocate (events_of (main e fuel)))%nat ->
    code = 1.

(** An empty input; [imx_vpu_dec_open] fails; the engine reports EOS on
    the first drain call. *)
Definition env_open_fails : Env :=
  example_env (access_units 0) (fun _ => (IMX_VPU_DEC_RETURN_CODE_OK, 2))
    (fun _ => 0) (fun _ => true) IMX_VPU_DEC_RETURN_CODE_ERROR.

(** [e] with other results of the two [fopen] calls. *)
Definition with_fopen (e : Env) (in_ok out_ok : bool) : Env :=
  {| IMX_VPU_DEC_OUTPUT_CODE_INITIAL_INFO_AVAILABLE :=
       IMX_VPU_DEC_OUTPUT_CODE_INITIAL_INFO_AVAILABLE e;
     IMX_VPU_DEC_OUTPUT_CODE_DECODED_PICTURE_AVAILABLE :=
       IMX_VPU_DEC_OUTPUT_CODE_DECODED_PICTURE_AVAILABLE e;
     IMX_VPU_DEC_OUTPUT_CODE_DROPPED := IMX_VPU_DEC_OUTPUT_CODE_DROPPED e;
     IMX_VPU_DEC_OUTPUT_CODE_EOS := IMX_VPU_DEC_OUTPUT_CODE_EOS e;
     getopt := getopt e;
     fopen_in_ok := in_ok;
     fopen_out_ok := out_ok;
     h264_ctx_read_access_unit := h264_ctx_read_access_unit e;
     dec_bitstream_buffer_size := dec_bitstream_buffer_size e;
     dec_bitstream_buffer_alignment := dec_bitstream_buffer_alignment e;
     dma_buffer_allocate_ok := dma_buffer_allocate_ok e;
     imx_vpu_dec_open := imx_vpu_dec_open e;
     imx_vpu_dec_decode := imx_vpu_dec_decode e;
     imx_vpu_dec_get_initial_info := imx_vpu_dec_get_initial_info e;
     imx_vpu_dec_calc_framebuffer_sizes := imx_vpu_dec_calc_framebuffer_sizes e;
     imx_vpu_dec_register_framebuffers := imx_vpu_dec_register_framebuffers e;
     imx_vpu_dec_get_decoded_picture := imx_vpu_dec_get_decoded_picture e;
     imx_vpu_dec_mark_framebuffer_as_displayed :=
       imx_vpu_dec_mark_framebuffer_as_displayed e;
     imx_vpu_dec_get_dropped_frame_context := imx_vpu_dec_get_dropped_frame_context e |}.

(** The input file cannot be opened. *)
Definition env_no_input_file : Env := with_fopen env_empty_input false true.

(** ** Sessions without initial info *)

(** The pool fields of [AppData] as [memset] left them. *)
Definition zero_pool (a : AppData) : Prop :=
  framebuffers a = None /\ fb_dmabuffers a = None /\ num_framebuffers a = 0.

(** The statement "when the source is exhausted before any
    INITIAL_INFO_AVAILABLE event, no pool is ever built": the calls before
    drain mode show the reader out of input and no decode call with the
    flag, and then nothing is registered and the pool fields stay zero. *)
Definition no_pool_when_exhausted_first (e : Env) (fuel : nat) : Prop :=
  existsb is_source_exhausted (before_drain (events_of (main e fuel))) = true ->
  count (is_decode_with (IMX_VPU_DEC_OUTPUT_CODE_INITIAL_INFO_AVAILABLE e))
    (before_drain (events_of (main e fuel))) = 0%nat ->
  count is_register (events_of (main e fuel)) = 0%nat /\
  zero_pool (app_data (state_of (main e fuel))).

(** One access unit, answered with an empty output code; the engine
    reports initial info (two framebuffers) on the first drain call and EOS
    on the second. *)
Definition env_initial_info_in_drain : Env :=
  example_env (access_units 1)
    (fun d => (IMX_VPU_DEC_RETURN_CODE_OK,
               match d with 0%nat => 0 | 1%nat => 64 | _ => 2 end))
    (fun _ => 2) (fun _ => true) IMX_VPU_DEC_RETURN_CODE_OK.

(** What [imx_vpu_dma_buffer_allocate] returns for the bitstream buffer. *)
Definition bitstream_buffer_of (e : Env) : dma_buffer_ptr :=
  if dma_buffer_allocate_ok e 0 then Some 0%nat else None.

(** The calls of [shutdown] on the zero-initialised pool. *)
Definition shutdown_calls_zero_pool (e : Env) : list event :=
  [E_dec_close; E_free true; E_free true;
   E_dma_buffer_deallocate (bitstream_buffer_of e);
   E_dec_unload; E_h264_ctx_cleanup; E_fclose true; E_fclose false].

(** ** Teardown *)

(** The pool arrays have as many elements as [num_framebuffers] says. *)
Definition pool_length_ok (a : AppData) : Prop :=
  List.length (pool_array (fb_dmabuffers a)) = Z.to_nat (num_framebuffers a).

(** Two access units; the engine reports initial info on both (the second
    time as for a change of resolution), asking for one framebuffer each
    time, and reports EOS on the first drain call. *)
Definition env_two_initial_infos : Env :=
  example_env (access_units 2)
    (fun d => (IMX_VPU_DEC_RETURN_CODE_OK,
               match d with 0%nat => 64 | 1%nat => 64 | _ => 2 end))
    (fun _ => 1) (fun _ => true) IMX_VPU_DEC_RETURN_CODE_OK.

(** ** Frame contexts *)

(** The statement "the contexts of the non-drain submissions of a session
    are strictly increasing, so pairwise distinct, and non-zero". *)
Definition contexts_increasing (e : Env) (fuel : nat) : Prop :=
  StronglySorted Z.lt (submitted_contexts (events_of (main e fuel))) /\
  Forall (fun c => c <> 0) (submitted_contexts (events_of (main e fuel))).

(** The context of the i-th non-drain submission of a session. *)
Definition context_number (i : nat) : Z := u32 (100 + Z.of_nat i).

(** The first [n] reads leave an access unit and return non-zero, and the
    next one leaves none. *)
Definition input_of_length (e : Env) (n : nat) : Prop :=
  (forall k, (k < n)%nat ->
     let '(ok, au_start, au_end) := h264_ctx_read_access_unit e k in
     ok = true /\ au_start < au_end) /\
  (let '(_, au_start, au_end) := h264_ctx_read_access_unit e n in au_end <= au_start).

(** The engine sets EOS in the output code of decode call [n] and of none
    before. *)
Definition eos_at (e : Env) (n : nat) : Prop :=
  (forall d, (d < n)%nat ->
     has_flag (snd (imx_vpu_dec_decode e d)) (IMX_VPU_DEC_OUTPUT_CODE_EOS e) = false) /\
  has_flag (snd (imx_vpu_dec_decode e n)) (IMX_VPU_DEC_OUTPUT_CODE_EOS e) = true.

(** An input file of [n] access units; the engine answers each of them
    with an empty output code and reports EOS on the first drain call. *)
Definition long_input_env (n : nat) : Env :=
  example_env (access_units n)
    (fun d => (IMX_VPU_DEC_RETURN_CODE_OK, if (d <? n)%nat then 0 else 2))
    (fun _ => 0) (fun _ => true) IMX_VPU_DEC_RETURN_CODE_OK.

(** 2^32 - 99 access units: the last one is number 2^32 - 100, counted
    from 0. *)
Definition wrapping_length : nat := Z.to_nat 4294967197.

Definition env_long_input : Env := long_input_env wrapping_length.

(** * Further observers *)

(** ** Command line *)

(** An option [parse_args] knows: [-i] or [-o]. *)
Definition is_known_option (o : ascii * string) : bool :=
  Ascii.eqb (fst o) "i" || Ascii.eqb (fst o) "o".

(** The argument of the last occurrence of option [c]. *)
Fixpoint last_optarg (c : ascii) (opts : list (ascii * string)) : option string :=
  match opts with
  | [] => None
  | (opt, optarg) :: rest =>
      match last_optarg c rest with
      | Some s => Some s
      | None => if Ascii.eqb opt c then Some optarg else None
      end
  end.

(** [e] with another command line. *)
Definition with_getopt (e : Env) (opts : list (ascii * string)) : Env :=
  {| IMX_VPU_DEC_OUTPUT_CODE_INITIAL_INFO_AVAILABLE :=
       IMX_VPU_DEC_OUTPUT_CODE_INITIAL_INFO_AVAILABLE e;
     IMX_VPU_DEC_OUTPUT_CODE_DECODED_PICTURE_AVAILABLE :=
       IMX_VPU_DEC_OUTPUT_CODE_DECODED_PICTURE_AVAILABLE e;
     IMX_VPU_DEC_OUTPUT_CODE_DROPPED := IMX_VPU_DEC_OUTPUT_CODE_DROPPED e;
     IMX_VPU_DEC_OUTPUT_CODE_EOS := IMX_VPU_DEC_OUTPUT_CODE_EOS e;
     getopt := opts;
     fopen_in_ok := fopen_in_ok e;
     fopen_out_ok := fopen_out_ok e;
     h264_ctx_read_access_unit := h264_ctx_read_access_unit e;
     dec_bitstream_buffer_size := dec_bitstream_buffer_size e;
     dec_bitstream_buffer_alignment := dec_bitstream_buffer_alignment e;
     dma_buffer_allocate_ok := dma_buffer_allocate_ok e;
     imx_vpu_dec_open := imx_vpu_dec_open e;
     imx_vpu_dec_decode := imx_vpu_dec_decode e;
     imx_vpu_dec_get_initial_info := imx_vpu_dec_get_initial_info e;
     imx_vpu_dec_calc_framebuffer_sizes := imx_vpu_dec_calc_framebuffer_sizes e;
     imx_vpu_dec_register_framebuffers := imx_vpu_dec_register_framebuffers e;
     imx_vpu_dec_get_decoded_picture := imx_vpu_dec_get_decoded_picture e;
     imx_vpu_dec_mark_framebuffer_as_displayed :=
       imx_vpu_dec_mark_framebuffer_as_displayed e;
     imx_vpu_dec_get_dropped_frame_context := imx_vpu_dec_get_dropped_frame_context e |}.

(** [-i a -o b -i c]: the input file is named twice. *)
Definition env_input_named_twice : Env :=
  with_getopt env_empty_input
    [("i"%char, "a.h264"%string); ("o"%char, "b.yuv"%string); ("i"%char, "c.h264"%string)].

(** The output file cannot be opened. *)
Definition env_no_output_file : Env := with_fopen env_empty_input true false.

(** ** Files and engine *)

(** The files opened with success, in order: [true] is the output file,
    [false] the input file. *)
Fixpoint opened_files (tr : list event) : list bool :=
  match tr with
  | [] => []
  | E_fopen for_writing true :: tr' => for_writing :: opened_files tr'
  | _ :: tr' => opened_files tr'
  end.

(** The files closed, in order. *)
Fixpoint closed_files (tr : list event) : list bool :=
  match tr with
  | [] => []
  | E_fclose for_writing :: tr' => for_writing :: closed_files tr'
  | _ :: tr' => closed_files tr'
  end.

(** A call into the decoder library or its allocator. *)
Definition is_vpu_call (ev : event) : bool :=
  match ev with
  | E_fopen _ _ | E_fclose _ | E_h264_ctx_init | E_h264_ctx_cleanup
  | E_h264_ctx_read_access_unit _ _ _ | E_malloc _ | E_free _ | E_fwrite _ => false
  | _ => true
  end.

(** ** Pool builds *)

(** What the k-th call of [imx_vpu_dma_buffer_allocate] returns. *)
Definition allocation_result (e : Env) (k : nat) : dma_buffer_ptr :=
  if dma_buffer_allocate_ok e k then Some k else None.

(** The slot filled in iteration [j] of an allocation loop that starts
    with the loop variable at [i] after [first] allocations. *)
Definition pool_slot (e : Env) (first : nat) (i : Z) (j : nat) : ImxVpuFramebuffer :=
  {| fb_dma_buffer := allocation_result e (first + j);
     fb_context := u32 (8192 + (i + Z.of_nat j)) |}.

(** The two calls of that iteration. *)
Definition pool_slot_calls (e : Env) (size alignment : Z) (first : nat) (i : Z) (j : nat)
    : list event :=
  [E_dma_buffer_allocate size alignment (allocation_result e (first + j));
   E_dec_fill_framebuffer_params (i + Z.of_nat j) (allocation_result e (first + j))
     (u32 (8192 + (i + Z.of_nat j)))].

Definition is_get_initial_info (ev : event) : bool :=
  match ev with E_dec_get_initial_info _ _ => true | _ => false end.

Definition is_malloc (ev : event) : bool :=
  match ev with E_malloc _ => true | _ => false end.

(** ** Delivery of a picture *)

Definition is_fwrite (ev : event) : bool :=
  match ev with E_fwrite _ => true | _ => false end.

Definition dma_buffer_ptr_eqb (a b : dma_buffer_ptr) : bool :=
  match a, b with
  | Some m, Some n => Nat.eqb m n
  | None, None => true
  | _, _ => false
  end.

(** The calls that [replay_delivery] looks at. *)
Definition is_delivery_call (ev : event) : bool :=
  match ev with
  | E_dec_get_decoded_picture _ _
  | E_dma_buffer_map _ | E_dma_buffer_unmap _ | E_fwrite _
  | E_dec_mark_framebuffer_as_displayed _ _ => true
  | _ => false
  end.

(** How far the delivery of a picture has got: no picture in hand, or the
    slot of the picture fetched, with its buffer not yet mapped, mapped,
    mapped and written out, or unmapped again. *)
Inductive delivery : Type :=
| Idle
| Fetched (fb : ImxVpuFramebuffer)
| Mapped (fb : ImxVpuFramebuffer)
| Written (fb : ImxVpuFramebuffer)
| Unmapped (fb : ImxVpuFramebuffer).

(** The delivery of pictures along a call list.  A picture is fetched
    while none is in hand; then the DMA buffer of its slot, and no other,
    is mapped; the output is written once; that buffer is unmapped; and
    that slot is marked displayed.  [None]: a call came out of this order
    or named another buffer or slot. *)
Fixpoint replay_delivery (s : delivery) (tr : list event) : option delivery :=
  match tr with
  | [] => Some s
  | E_dec_get_decoded_picture _ picture :: tr' =>
      match s with
      | Idle => replay_delivery (Fetched (pic_framebuffer picture)) tr'
      | _ => None
      end
  | E_dma_buffer_map b :: tr' =>
      match s with
      | Fetched fb =>
          if dma_buffer_ptr_eqb b (fb_dma_buffer fb)
          then replay_delivery (Mapped fb) tr' else None
      | _ => None
      end
  | E_fwrite _ :: tr' =>
      match s with
      | Mapped fb => replay_delivery (Written fb) tr'
      | _ => None
      end
  | E_dma_buffer_unmap b :: tr' =>
      match s with
      | Written fb =>
          if dma_buffer_ptr_eqb b (fb_dma_buffer fb)
          then replay_delivery (Unmapped fb) tr' else None
      | _ => None
      end
  | E_dec_mark_framebuffer_as_displayed fb' _ :: tr' =>
      match s with
      | Unmapped fb =>
          if ImxVpuFramebuffer_eqb fb' fb then replay_delivery Idle tr' else None
      | _ => None
      end
  | _ :: tr' => replay_delivery s tr'
  end.

(** ** Access units *)

(** The access units the reader delivered, as offset into the input
    buffer and size, in the order read. *)
Fixpoint units_read (tr : list event) : list (Z * Z) :=
  match tr with
  | [] => []
  | E_h264_ctx_read_access_unit _ au_start au_end :: tr' =>
      if au_end <=? au_start then units_read tr'
      else (au_start, u32 (au_end - au_start)) :: units_read tr'
  | _ :: tr' => units_read tr'
  end.

(** The data, as offset and size, of the frames submitted with data. *)
Fixpoint units_submitted (tr : list event) : list (Z * Z) :=
  match tr with
  | [] => []
  | E_dec_decode frame _ _ :: tr' =>
      match ef_virtual_address frame with
      | Some offset => (offset, ef_data_size frame) :: units_submitted tr'
      | None => units_submitted tr'
      end
  | _ :: tr' => units_submitted tr'
  end.

(** ** DMA buffers *)

(** The buffers the allocator handed out, in order; failed allocations
    hand out none. *)
Fixpoint allocated (tr : list event) : list nat :=
  match tr with
  | [] => []
  | E_dma_buffer_allocate _ _ (Some n) :: tr' => n :: allocated tr'
  | _ :: tr' => allocated tr'
  end.

(** The buffers given back to the allocator, in order; deallocations of
    the NULL pointer give back none. *)
Fixpoint deallocated (tr : list event) : list nat :=
  match tr with
  | [] => []
  | E_dma_buffer_deallocate (Some n) :: tr' => n :: deallocated tr'
  | _ :: tr' => deallocated tr'
  end.

(** The calls number [first] to [first + n - 1] of the allocator that
    succeed. *)
Definition granted (e : Env) (first n : nat) : list nat :=
  filter (dma_buffer_allocate_ok e) (seq first n).

(** The step reports initial info. *)
Definition reports_initial_info (e : Env) (st : State) : bool :=
  submits e st
  && has_flag (step_output_code e st) (IMX_VPU_DEC_OUTPUT_CODE_INITIAL_INFO_AVAILABLE e).

(** What a session knows of its DMA buffers before [shutdown]: the
    buffers handed out are the successful ones among the [num_allocs]
    calls made, none has been given back, the bitstream buffer is the
    result of call 0, and the pool [AppData] holds is the result of
    [num_framebuffers] consecutive calls from some call [first] on; with no
    initial info so far there is no pool, and with one so far the pool is
    all there is besides the bitstream buffer. *)
Definition buffers_accounted (e : Env) (st : State) (tr : list event) : Prop :=
  allocated tr = granted e 0 (num_allocs (world st)) /\
  deallocated tr = [] /\
  bitstream_buffer (app_data st) = allocation_result e 0 /\
  fin (app_data st) = true /\ fout (app_data st) = true /\
  exists first,
    (1 <= first)%nat /\
    (first + Z.to_nat (num_framebuffers (app_data st)) <= num_allocs (world st))%nat /\
    pool_array (fb_dmabuffers (app_data st))
      = map (allocation_result e)
            (seq first (Z.to_nat (num_framebuffers (app_data st)))) /\
    (count (is_decode_with (IMX_VPU_DEC_OUTPUT_CODE_INITIAL_INFO_AVAILABLE e)) tr = 0%nat ->
     num_allocs (world st) = 1%nat /\ Z.to_nat (num_framebuffers (app_data st)) = 0%nat) /\
    (count (is_decode_with (IMX_VPU_DEC_OUTPUT_CODE_INITIAL_INFO_AVAILABLE e)) tr = 1%nat ->
     first = 1%nat /\
     num_allocs (world st) = (1 + Z.to_nat (num_framebuffers (app_data st)))%nat).

(** ** Order of the flag tests *)

(** One access unit, answered with INITIAL_INFO_AVAILABLE and
    DECODED_PICTURE_AVAILABLE in the same output code (64 + 4). *)
Definition env_info_and_picture : Env :=
  example_env (access_units 1) (fun _ => (IMX_VPU_DEC_RETURN_CODE_OK, 68))
    (fun _ => 2) (fun _ => true) IMX_VPU_DEC_RETURN_CODE_OK.

(** The number of bytes of an I420 picture of the given sizes, as
    [decode_frame] computes it in [unsigned int]. *)
Definition output_size (sizes : ImxVpuDecFramebufferSizes) : Z :=
  u32 (y_size sizes + u32 (cbcr_size sizes * 2)).

(** * Basic facts *)

(** Closes a goal [forall ev, p ev = true -> q ev = b] on kinds of calls. *)
Ltac by_kind :=
  let ev := fresh "ev" in
  intros ev; destruct ev; unfold is_ownership_call, is_step_call; simpl; congruence.

Lemma count_app (p : event -> bool) (a b : list event) :
  count p (a ++ b) = (count p a + count p b)%nat.
Proof.
  unfold count. rewrite filter_app, length_app. reflexivity.
Qed.

Lemma count_cons (p : event -> bool) (ev : event) (tr : list event) :
  count p (ev :: tr) = ((if p ev then 1 else 0) + count p tr)%nat.
Proof.
  unfold count. simpl. destruct (p ev); reflexivity.
Qed.

Lemma count_nil (p : event -> bool) : count p [] = 0%nat.
Proof. reflexivity. Qed.

(** Calls of one family never satisfy a test that is false on the family. *)
Lemma count_disjoint (q p : event -> bool) (tr : list event) :
  Forall (fun ev => q ev = true) tr ->
  (forall ev, q ev = true -> p ev = false) ->
  count p tr = 0%nat.
Proof.
  intros Hall Hdisj. induction Hall as [|ev tr Hq _ IH].
  - reflexivity.
  - rewrite count_cons, (Hdisj ev Hq), IH. reflexivity.
Qed.

Lemma count_zero_not_In (p : event -> bool) (tr : list event) (ev : event) :
  count p tr = 0%nat -> p ev = true -> ~ In ev tr.
Proof.
  intros Hc Hp Hin. induction tr as [|x tr IH].
  - contradiction.
  - rewrite count_cons in Hc. destruct Hin as [-> | Hin].
    + rewrite Hp in Hc. discriminate.
    + apply IH; [lia | exact Hin].
Qed.

Lemma u32_range (z : Z) : 0 <= u32 z < UINT_MODULUS.
Proof.
  unfold u32, UINT_MODULUS. apply Z.mod_pos_bound. lia.
Qed.

Lemma u32_small (z : Z) : 0 <= z < UINT_MODULUS -> u32 z = z.
Proof.
  intros H. unfold u32. apply Z.mod_small. exact H.
Qed.

(** ** The pool build *)

Lemma allocate_framebuffers_spec (e : Env) (size alignment : Z) (k : nat) :
  forall (i : Z) (next : nat),
    let r := allocate_framebuffers e size alignment k i next in
    let fbs := fst (fst (fst r)) in
    let bufs := snd (fst (fst r)) in
    let next' := snd (fst r) in
    let evs := snd r in
    List.length fbs = k /\ List.length bufs = k /\ next' = (next + k)%nat /\
    map fb_dma_buffer fbs = bufs /\
    Forall (fun ev => is_allocation_call ev = true) evs /\
    count is_allocate evs = k /\
    filter is_allocate evs = map (E_dma_buffer_allocate size alignment) bufs.
Proof.
  induction k as [|k IH]; intros i next; simpl.
  - repeat split; try constructor; lia.
  - specialize (IH (i + 1) (S next)). simpl in IH.
    destruct (allocate_framebuffers e size alignment k (i + 1) (S next))
      as [[[fbs bufs] next'] evs] eqn:E.
    simpl in *. destruct IH as (Hf & Hb & Hn & Hm & Hall & Hc & Hfil).
    repeat split.
    + now rewrite Hf.
    + now rewrite Hb.
    + lia.
    + now rewrite Hm.
    + repeat constructor. exact Hall.
    + rewrite !count_cons. simpl. now rewrite Hc.
    + now rewrite Hfil.
Qed.

Lemma register_pool_calls (e : Env) (st : State) (d : nat) :
  Forall (fun ev => is_pool_call ev = true) (snd (register_pool e st d)).
Proof.
  unfold register_pool.
  destruct (imx_vpu_dec_get_initial_info e d) as [ret info].
  pose proof (allocate_framebuffers_spec e
    (total_size (imx_vpu_dec_calc_framebuffer_sizes e info))
    (framebuffer_alignment info)
    (Z.to_nat (min_num_required_framebuffers info)) 0
    (num_allocs (world st))) as H.
  destruct (allocate_framebuffers _ _ _ _ _ _) as [[[fbs bufs] next] evs].
  simpl in *. destruct H as (_ & _ & _ & _ & Hall & _).
  repeat constructor. apply Forall_app. split.
  - eapply Forall_impl; [|exact Hall]. by_kind.
  - repeat constructor.
Qed.

Lemma output_picture_calls (e : Env) (st : State) (d : nat) (output_code : Z) :
  Forall (fun ev => is_output_call ev = true) (output_picture e st d output_code).
Proof.
  unfold output_picture.
  destruct (has_flag output_code _).
  - destruct (imx_vpu_dec_get_decoded_picture e d). repeat constructor.
  - destruct (has_flag output_code _); repeat constructor.
Qed.

(** ** Shape of one step *)

Lemma decode_submit_shape (e : Env) (st : State) (frame : ImxVpuEncodedFrame) (ok : bool) :
  let d := num_decodes (world st) in
  let ret := fst (imx_vpu_dec_decode e d) in
  let output_code := snd (imx_vpu_dec_decode e d) in
  let p := initial_info_step e st d output_code in
  decode_submit e st frame ok =
    (if (if has_flag output_code (IMX_VPU_DEC_OUTPUT_CODE_EOS e) then false else ok)
     then RETVAL_OK else RETVAL_EOS,
     {| app_data := set_frame_id_counter (app_data (fst p))
                 (u32 (frame_id_counter (app_data (fst p)) + 1));
        world := {| drain_mode_enabled := drain_mode_enabled (world (fst p));
                    num_reads := num_reads (world (fst p));
                    num_decodes := S d;
                    num_allocs := num_allocs (world (fst p)) |} |},
     E_dec_decode frame ret output_code
     :: snd p ++ output_picture e (fst p) d output_code).
Proof.
  unfold decode_submit, initial_info_step.
  destruct (imx_vpu_dec_decode e (num_decodes (world st))) as [ret oc]. simpl.
  destruct (has_flag oc (IMX_VPU_DEC_OUTPUT_CODE_INITIAL_INFO_AVAILABLE e)).
  - destruct (register_pool e st (num_decodes (world st))). reflexivity.
  - reflexivity.
Qed.

Lemma decode_frame_shape (e : Env) (st : State) :
  decode_frame e st =
    if drain_mode_enabled (world st) then decode_submit e st drain_frame true
    else if no_access_unit e st then (RETVAL_EOS, after_read e st, [read_event e st])
    else
      (ret_of (decode_submit e (after_read e st)
                 (input_frame (h264_ctx (app_data (after_read e st))) (frame_id_counter (app_data st)))
                 (read_ok e st)),
       state_of (decode_submit e (after_read e st)
                 (input_frame (h264_ctx (app_data (after_read e st))) (frame_id_counter (app_data st)))
                 (read_ok e st)),
       read_event e st ::
       events_of (decode_submit e (after_read e st)
                 (input_frame (h264_ctx (app_data (after_read e st))) (frame_id_counter (app_data st)))
                 (read_ok e st))).
Proof.
  unfold decode_frame, no_access_unit, after_read, read_event, read_ok.
  destruct (drain_mode_enabled (world st)); [reflexivity|].
  destruct (h264_ctx_read_access_unit e (num_reads (world st))) as [[ok s] en].
  simpl. destruct (en <=? s); [reflexivity|].
  destruct (decode_submit _ _ _ _) as [[r st2] evs]. reflexivity.
Qed.

Lemma after_read_world (e : Env) (st : State) :
  drain_mode_enabled (world (after_read e st)) = drain_mode_enabled (world st) /\
  num_reads (world (after_read e st)) = S (num_reads (world st)) /\
  num_decodes (world (after_read e st)) = num_decodes (world st) /\
  num_allocs (world (after_read e st)) = num_allocs (world st).
Proof.
  unfold after_read.
  destruct (h264_ctx_read_access_unit e (num_reads (world st))) as [[ok s] en].
  simpl. repeat split.
Qed.

Lemma after_read_app (e : Env) (st : State) :
  frame_id_counter (app_data (after_read e st)) = frame_id_counter (app_data st) /\
  framebuffers (app_data (after_read e st)) = framebuffers (app_data st) /\
  fb_dmabuffers (app_data (after_read e st)) = fb_dmabuffers (app_data st) /\
  num_framebuffers (app_data (after_read e st)) = num_framebuffers (app_data st) /\
  bitstream_buffer (app_data (after_read e st)) = bitstream_buffer (app_data st) /\
  fin (app_data (after_read e st)) = fin (app_data st) /\
  fout (app_data (after_read e st)) = fout (app_data st).
Proof.
  unfold after_read.
  destruct (h264_ctx_read_access_unit e (num_reads (world st))) as [[ok s] en].
  simpl. repeat split.
Qed.

(** A step that does not submit: the reader left no access unit. *)
Lemma decode_frame_no_unit (e : Env) (st : State) :
  submits e st = false ->
  decode_frame e st = (RETVAL_EOS, after_read e st, [read_event e st]).
Proof.
  unfold submits. intros H. apply orb_false_elim in H. destruct H as [Hd Hn].
  apply negb_false_iff in Hn.
  rewrite decode_frame_shape, Hd, Hn. reflexivity.
Qed.

(** A step that submits: its result, state and calls. *)
Lemma decode_frame_submits (e : Env) (st : State) :
  submits e st = true ->
  decode_frame e st =
    (if (if has_flag (step_output_code e st) (IMX_VPU_DEC_OUTPUT_CODE_EOS e)
         then false else step_ok e st)
     then RETVAL_OK else RETVAL_EOS,
     {| app_data := set_frame_id_counter (app_data (step_pool_state e st))
                 (u32 (frame_id_counter (app_data (step_pool_state e st)) + 1));
        world := {| drain_mode_enabled := drain_mode_enabled (world (step_pool_state e st));
                    num_reads := num_reads (world (step_pool_state e st));
                    num_decodes := S (num_decodes (world st));
                    num_allocs := num_allocs (world (step_pool_state e st)) |} |},
     step_prefix e st
     ++ E_dec_decode (step_frame e st) (step_return_code e st) (step_output_code e st)
     :: step_pool_calls e st
     ++ output_picture e (step_pool_state e st) (num_decodes (world st)) (step_output_code e st)).
Proof.
  unfold submits, step_pool_state, step_pool_calls, step_prefix, step_frame, step_ok,
    step_entry, step_output_code, step_return_code.
  intros H. rewrite decode_frame_shape.
  destruct (drain_mode_enabled (world st)).
  - rewrite decode_submit_shape. reflexivity.
  - simpl in H. apply negb_true_iff in H. rewrite H.
    rewrite decode_submit_shape. unfold ret_of, state_of, events_of. cbn [fst snd].
    destruct (after_read_world e st) as (_ & _ & -> & _).
    reflexivity.
Qed.

(** ** A step never reports an error *)

Lemma decode_submit_not_error (e : Env) (st : State) (frame : ImxVpuEncodedFrame) (ok : bool) :
  ret_of (decode_submit e st frame ok) <> RETVAL_ERROR.
Proof.
  rewrite decode_submit_shape. unfold ret_of. simpl.
  destruct (if has_flag _ _ then false else ok); discriminate.
Qed.

Lemma decode_frame_not_error (e : Env) (st : State) :
  ret_of (decode_frame e st) <> RETVAL_ERROR.
Proof.
  rewrite decode_frame_shape.
  destruct (drain_mode_enabled (world st)).
  - apply decode_submit_not_error.
  - destruct (no_access_unit e st).
    + discriminate.
    + apply decode_submit_not_error.
Qed.

(** ** The loops *)

Lemma decode_loop_unfold (step : State -> Retval * State * list event) (fuel : nat) (st : State) :
  decode_loop step (S fuel) st =
    match ret_of (step st) with
    | RETVAL_EOS => (Some RETVAL_EOS, state_of (step st), events_of (step st))
    | RETVAL_ERROR => (Some RETVAL_ERROR, state_of (step st), events_of (step st))
    | RETVAL_OK =>
        (ret_of (decode_loop step fuel (state_of (step st))),
         state_of (decode_loop step fuel (state_of (step st))),
         events_of (step st) ++ events_of (decode_loop step fuel (state_of (step st))))
    end.
Proof.
  simpl. destruct (step st) as [[r st1] evs]. unfold ret_of, state_of, events_of. simpl.
  destruct r; try reflexivity.
  destruct (decode_loop step fuel st1) as [[r' st2] evs']. reflexivity.
Qed.

Lemma decode_loop_result (e : Env) (fuel : nat) (st : State) :
  ret_of (decode_loop (decode_frame e) fuel st) = None \/
  ret_of (decode_loop (decode_frame e) fuel st) = Some RETVAL_EOS.
Proof.
  revert st. induction fuel as [|fuel IH]; intros st.
  - left. reflexivity.
  - rewrite decode_loop_unfold.
    pose proof (decode_frame_not_error e st) as Hne.
    destruct (ret_of (decode_frame e st)).
    + apply IH.
    + contradiction.
    + right. reflexivity.
Qed.

Lemma ret_of_tuple {R : Type} (r : R) (st : State) (evs : list event) :
  ret_of (r, st, evs) = r.
Proof. reflexivity. Qed.

Lemma state_of_tuple {R : Type} (r : R) (st : State) (evs : list event) :
  state_of (r, st, evs) = st.
Proof. reflexivity. Qed.

Lemma events_of_tuple {R : Type} (r : R) (st : State) (evs : list event) :
  events_of (r, st, evs) = evs.
Proof. reflexivity. Qed.

Ltac tuples := rewrite ?ret_of_tuple, ?state_of_tuple, ?events_of_tuple.

(** One more iteration of a loop over [decode_frame]: the step returns
    [RETVAL_OK] and the loop goes on, or it returns [RETVAL_EOS] and the
    loop ends. *)
Lemma decode_loop_step (e : Env) (fuel : nat) (st : State) :
  (ret_of (decode_frame e st) = RETVAL_OK /\
   decode_loop (decode_frame e) (S fuel) st =
     (ret_of (decode_loop (decode_frame e) fuel (state_of (decode_frame e st))),
      state_of (decode_loop (decode_frame e) fuel (state_of (decode_frame e st))),
      events_of (decode_frame e st)
      ++ events_of (decode_loop (decode_frame e) fuel (state_of (decode_frame e st)))))
  \/
  (ret_of (decode_frame e st) = RETVAL_EOS /\
   decode_loop (decode_frame e) (S fuel) st =
     (Some RETVAL_EOS, state_of (decode_frame e st), events_of (decode_frame e st))).
Proof.
  rewrite decode_loop_unfold.
  pose proof (decode_frame_not_error e st) as Hne.
  destruct (ret_of (decode_frame e st)).
  - left. split; reflexivity.
  - contradiction.
  - right. split; reflexivity.
Qed.

(** More fuel does not change the result of a loop that has ended. *)
Lemma decode_loop_more_fuel (step : State -> Retval * State * list event)
    (fuel fuel' : nat) (st : State) :
  (fuel <= fuel')%nat ->
  ret_of (decode_loop step fuel st) <> None ->
  decode_loop step fuel' st = decode_loop step fuel st.
Proof.
  revert fuel' st. induction fuel as [|fuel IH]; intros fuel' st Hle Hret.
  - exfalso. apply Hret. reflexivity.
  - destruct fuel' as [|fuel']; [lia|].
    rewrite decode_loop_unfold in Hret. rewrite !decode_loop_unfold.
    destruct (ret_of (step st)); try reflexivity.
    unfold ret_of at 1 in Hret. simpl in Hret.
    rewrite (IH fuel' (state_of (step st))); [reflexivity | lia | exact Hret].
Qed.

(** An invariant relating the state to the calls made so far, kept by
    every step, is kept by a loop. *)
Lemma decode_loop_invariant (step : State -> Retval * State * list event)
    (J : State -> list event -> Prop) :
  (forall st tr, J st tr -> J (state_of (step st)) (tr ++ events_of (step st))) ->
  forall fuel st tr,
    J st tr ->
    J (state_of (decode_loop step fuel st)) (tr ++ events_of (decode_loop step fuel st)).
Proof.
  intros Hstep. induction fuel as [|fuel IH]; intros st tr HJ.
  - simpl. unfold state_of, events_of. simpl. rewrite app_nil_r. exact HJ.
  - rewrite decode_loop_unfold.
    destruct (ret_of (step st)); unfold state_of at 1, events_of at 1; simpl;
      try (apply Hstep; exact HJ).
    rewrite app_assoc. apply IH. apply Hstep. exact HJ.
Qed.

(** ** Normal form of [main] *)

Lemma main_normal_form (e : Env) (fuel : nat) :
  main e fuel =
    if init_failed e then
      (Some 1, state_of (init e initial_state), events_of (init e initial_state))
    else
      match ret_of (first_loop e fuel) with
      | None =>
          (None, state_of (first_loop e fuel),
           events_of (init e initial_state) ++ events_of (first_loop e fuel))
      | Some _ =>
          match ret_of (drain_loop e fuel) with
          | None =>
              (None, state_of (drain_loop e fuel),
               events_of (init e initial_state) ++ events_of (first_loop e fuel)
               ++ E_dec_enable_drain_mode true :: events_of (drain_loop e fuel))
          | Some _ =>
              (Some 0, state_of (drain_loop e fuel),
               events_of (init e initial_state) ++ events_of (first_loop e fuel)
               ++ E_dec_enable_drain_mode true :: events_of (drain_loop e fuel)
               ++ events_of (shutdown (state_of (drain_loop e fuel))))
          end
      end.
Proof.
  unfold main, main_with, init_failed, drain_loop, first_loop, ret_of, state_of, events_of.
  destruct (init e initial_state) as [[r0 st0] evs0]. cbn [fst snd].
  destruct (Retval_eqb r0 RETVAL_ERROR); [reflexivity|].
  unfold session.
  pose proof (decode_loop_result e fuel st0) as H1. unfold ret_of in H1.
  destruct (decode_loop (decode_frame e) fuel st0) as [[r1 st1] evs1].
  cbn [fst snd] in *.
  destruct H1 as [-> | ->]; [reflexivity|].
  pose proof (decode_loop_result e fuel (enable_drain_mode st1)) as H2. unfold ret_of in H2.
  destruct (decode_loop (decode_frame e) fuel (enable_drain_mode st1)) as [[r3 st3] evs3].
  cbn [fst snd] in *.
  destruct H2 as [-> | ->]; reflexivity.
Qed.

(** ** Calls of one step *)

Lemma read_event_is_read (e : Env) (st : State) : is_read (read_event e st) = true.
Proof.
  unfold read_event.
  destruct (h264_ctx_read_access_unit e (num_reads (world st))) as [[ok s] en].
  reflexivity.
Qed.

Lemma step_prefix_reads (e : Env) (st : State) :
  Forall (fun ev => is_read ev = true) (step_prefix e st).
Proof.
  unfold step_prefix. destruct (drain_mode_enabled (world st)).
  - constructor.
  - constructor; [apply read_event_is_read | constructor].
Qed.

Lemma step_pool_calls_pool (e : Env) (st : State) :
  Forall (fun ev => is_pool_call ev = true) (step_pool_calls e st).
Proof.
  unfold step_pool_calls, initial_info_step.
  destruct (has_flag _ _).
  - apply register_pool_calls.
  - constructor.
Qed.

Lemma output_code_of_skip_reads (pre rest : list event) :
  Forall (fun ev => is_read ev = true) pre ->
  output_code_of (pre ++ rest) = output_code_of rest.
Proof.
  intros H. induction H as [|ev pre Hev _ IH]; [reflexivity|].
  destruct ev; try discriminate. exact IH.
Qed.

Lemma submitted_frame_skip_reads (pre rest : list event) :
  Forall (fun ev => is_read ev = true) pre ->
  submitted_frame (pre ++ rest) = submitted_frame rest.
Proof.
  intros H. induction H as [|ev pre Hev _ IH]; [reflexivity|].
  destruct ev; try discriminate. exact IH.
Qed.

(** The output code seen in the calls of a step is the one its decode call
    stored; a step that does not submit shows none. *)
Lemma output_code_of_step (e : Env) (st : State) :
  output_code_of (events_of (decode_frame e st)) =
    if submits e st then Some (step_output_code e st) else None.
Proof.
  destruct (submits e st) eqn:Hs.
  - rewrite (decode_frame_submits e st Hs). unfold events_of. cbn [snd].
    rewrite output_code_of_skip_reads by apply step_prefix_reads. reflexivity.
  - rewrite (decode_frame_no_unit e st Hs). unfold events_of. cbn [snd].
    pose proof (read_event_is_read e st) as H.
    destruct (read_event e st); try discriminate. reflexivity.
Qed.

Lemma submitted_frame_of_step (e : Env) (st : State) :
  submitted_frame (events_of (decode_frame e st)) =
    if submits e st then Some (step_frame e st) else None.
Proof.
  destruct (submits e st) eqn:Hs.
  - rewrite (decode_frame_submits e st Hs). unfold events_of. cbn [snd].
    rewrite submitted_frame_skip_reads by apply step_prefix_reads. reflexivity.
  - rewrite (decode_frame_no_unit e st Hs). unfold events_of. cbn [snd].
    pose proof (read_event_is_read e st) as H.
    destruct (read_event e st); try discriminate. reflexivity.
Qed.

(** Counting, in the calls of a step, a kind of call that only the
    picture/dropped statement makes. *)
Lemma count_output_call_step (p : event -> bool) (e : Env) (st : State) :
  (forall ev, is_read ev = true -> p ev = false) ->
  (forall ev, is_decode ev = true -> p ev = false) ->
  (forall ev, is_pool_call ev = true -> p ev = false) ->
  count p (events_of (decode_frame e st)) =
    if submits e st
    then count p (output_picture e (step_pool_state e st) (num_decodes (world st))
                    (step_output_code e st))
    else 0%nat.
Proof.
  intros Hr Hd Hp. destruct (submits e st) eqn:Hs.
  - rewrite (decode_frame_submits e st Hs). unfold events_of. cbn [snd].
    rewrite count_app, count_cons, count_app.
    rewrite (count_disjoint is_read p _ (step_prefix_reads e st) Hr).
    rewrite (count_disjoint is_pool_call p _ (step_pool_calls_pool e st) Hp).
    rewrite (Hd (E_dec_decode _ _ _) eq_refl). reflexivity.
  - rewrite (decode_frame_no_unit e st Hs). unfold events_of. cbn [snd].
    rewrite count_cons, (Hr _ (read_event_is_read e st)). reflexivity.
Qed.


(** * The dropped flag *)

(** C1, as amended: a decode step whose output code has DROPPED set and
    DECODED_PICTURE_AVAILABLE clear retrieves the dropped frame's context,
    exactly once, whatever INITIAL_INFO_AVAILABLE and EOS are; the DROPPED
    test is the [else] branch of the DECODED_PICTURE_AVAILABLE test, so a
    step with both flags set does not retrieve it, and neither does a step
    without DROPPED. *)
Theorem dropped_context_retrieved_once (e : Env) (st : State) (output_code : Z) :
  output_code_of (events_of (decode_frame e st)) = Some output_code ->
  count is_get_dropped (events_of (decode_frame e st)) =
    if has_flag output_code (IMX_VPU_DEC_OUTPUT_CODE_DROPPED e)
       && negb (has_flag output_code (IMX_VPU_DEC_OUTPUT_CODE_DECODED_PICTURE_AVAILABLE e))
    then 1%nat else 0%nat.
Proof.
  rewrite output_code_of_step.
  rewrite (count_output_call_step is_get_dropped) by by_kind.
  destruct (submits e st); [|discriminate].
  intros H. injection H as <-.
  unfold output_picture.
  destruct (has_flag (step_output_code e st)
              (IMX_VPU_DEC_OUTPUT_CODE_DECODED_PICTURE_AVAILABLE e)).
  - destruct (imx_vpu_dec_get_decoded_picture e _). rewrite andb_false_r. reflexivity.
  - rewrite andb_true_r.
    destruct (has_flag (step_output_code e st) (IMX_VPU_DEC_OUTPUT_CODE_DROPPED e));
      reflexivity.
Qed.

Lemma dropped_context_retrieved_once_witness :
  output_code_of (events_of (decode_frame env_dropped (after_init env_dropped))) = Some 8 /\
  count is_get_dropped (events_of (decode_frame env_dropped (after_init env_dropped))) = 1%nat.
Proof.
  split.
  - reflexivity.
  - exact (dropped_context_retrieved_once env_dropped (after_init env_dropped) 8 eq_refl).
Defined.

(** C1, as stated, fails: with DECODED_PICTURE_AVAILABLE and DROPPED both
    set the step takes the picture branch and never asks for the dropped
    context. *)
Lemma dropped_with_picture_not_retrieved :
  ~ dropped_always_retrieved env_picture_and_dropped (after_init env_picture_and_dropped).
Proof.
  intros H. specialize (H 12 eq_refl eq_refl). vm_compute in H. lia.
Qed.

(** * Hard failures *)

Lemma session_fatal (step : State -> Retval * State * list event) (fuel : nat) (st : State) :
  fatal_in_session step fuel st ->
  ret_of (session step fuel st) = Some 1 /\
  exists tr,
    events_of (session step fuel st) =
      tr ++ events_of (shutdown (state_of (session step fuel st))).
Proof.
  unfold fatal_in_session, session, ret_of, state_of, events_of.
  destruct (decode_loop step fuel st) as [[r1 st1] evs1]. cbn [fst snd].
  intros [H | [H1 H2]].
  - rewrite H. cbn. split; [reflexivity|]. eexists. reflexivity.
  - rewrite H1.
    destruct (decode_loop step fuel (enable_drain_mode st1)) as [[r3 st3] evs3].
    cbn [fst snd] in *. rewrite H2. cbn [shutdown fst snd]. split; [reflexivity|].
    exists (evs1 ++ E_dec_enable_drain_mode true :: evs3).
    rewrite <- app_assoc. reflexivity.
Qed.

(** C3, as amended: a decode step never returns FATAL ([RETVAL_ERROR]),
    whatever the engine calls made during it report: their return codes are
    not inspected, so neither a hard failure nor a dropped frame makes the
    step fatal.  The session loop does answer a FATAL step result with
    teardown and exit code 1, but [decode_frame] produces none. *)
Theorem decode_step_never_fatal :
  (forall e st, ret_of (decode_frame e st) <> RETVAL_ERROR) /\
  (forall step fuel st,
     fatal_in_session step fuel st ->
     ret_of (session step fuel st) = Some 1 /\
     exists tr,
       events_of (session step fuel st) =
         tr ++ events_of (shutdown (state_of (session step fuel st)))).
Proof.
  split.
  - exact decode_frame_not_error.
  - exact session_fatal.
Qed.

Lemma decode_step_never_fatal_witness :
  fatal_in_session failing_step 1 initial_state /\
  ret_of (session failing_step 1 initial_state) = Some 1.
Proof.
  assert (H : fatal_in_session failing_step 1 initial_state) by (left; reflexivity).
  split.
  - exact H.
  - exact (proj1 (proj2 decode_step_never_fatal failing_step 1%nat initial_state H)).
Defined.

(** C3, as stated, fails: the decode call reports a hard failure and the
    step returns [RETVAL_OK]. *)
Lemma failed_decode_not_fatal :
  ~ hard_failure_is_fatal env_decode_fails (after_init env_decode_fails).
Proof.
  intros H. assert (Hc : (0 < count is_hard_failure
    (events_of (decode_frame env_decode_fails (after_init env_decode_fails))))%nat)
    by (vm_compute; lia).
  specialize (H Hc). vm_compute in H. discriminate.
Qed.

(** * The pool build *)

Lemma register_pool_spec (e : Env) (st : State) (d : nat) :
  let info := snd (imx_vpu_dec_get_initial_info e d) in
  let sizes := imx_vpu_dec_calc_framebuffer_sizes e info in
  let num := min_num_required_framebuffers info in
  exists fbs bufs evs,
    List.length fbs = Z.to_nat num /\
    List.length bufs = Z.to_nat num /\
    map fb_dma_buffer fbs = bufs /\
    filter is_allocate evs
      = map (E_dma_buffer_allocate (total_size sizes) (framebuffer_alignment info)) bufs /\
    Forall (fun ev => is_pool_call ev = true) evs /\
    count is_register evs = 0%nat /\
    register_pool e st d =
      ({| app_data := set_pool (app_data st) info sizes num fbs bufs;
          world := {| drain_mode_enabled := drain_mode_enabled (world st);
                      num_reads := num_reads (world st);
                      num_decodes := num_decodes (world st);
                      num_allocs := (num_allocs (world st) + Z.to_nat num)%nat |} |},
       [E_dec_get_initial_info (fst (imx_vpu_dec_get_initial_info e d)) info;
        E_dec_calc_framebuffer_sizes; E_malloc num; E_malloc num]
       ++ evs
       ++ [E_dec_register_framebuffers fbs num (imx_vpu_dec_register_framebuffers e d)]).
Proof.
  unfold register_pool.
  destruct (imx_vpu_dec_get_initial_info e d) as [ret info]. cbn [fst snd].
  pose proof (allocate_framebuffers_spec e
    (total_size (imx_vpu_dec_calc_framebuffer_sizes e info))
    (framebuffer_alignment info)
    (Z.to_nat (min_num_required_framebuffers info)) 0
    (num_allocs (world st))) as H.
  destruct (allocate_framebuffers _ _ _ _ _ _) as [[[fbs bufs] next] evs].
  cbn [fst snd] in H. destruct H as (Hf & Hb & Hn & Hm & Hall & Hc & Hfil).
  exists fbs, bufs, evs. repeat split; try assumption.
  - eapply Forall_impl; [|exact Hall]. by_kind.
  - apply (count_disjoint is_allocation_call); [exact Hall | by_kind].
  - rewrite Hn. reflexivity.
Qed.

Lemma filter_disjoint (q p : event -> bool) (tr : list event) :
  Forall (fun ev => q ev = true) tr ->
  (forall ev, q ev = true -> p ev = false) ->
  filter p tr = [].
Proof.
  intros Hall Hdisj. induction Hall as [|ev tr Hq _ IH].
  - reflexivity.
  - simpl. rewrite (Hdisj ev Hq). exact IH.
Qed.




(** * The frame id counter *)

Lemma initial_info_step_keeps (e : Env) (st : State) (d : nat) (output_code : Z) :
  let st' := fst (initial_info_step e st d output_code) in
  frame_id_counter (app_data st') = frame_id_counter (app_data st) /\
  bitstream_buffer (app_data st') = bitstream_buffer (app_data st) /\
  fin (app_data st') = fin (app_data st) /\
  fout (app_data st') = fout (app_data st) /\
  drain_mode_enabled (world st') = drain_mode_enabled (world st) /\
  num_reads (world st') = num_reads (world st) /\
  num_decodes (world st') = num_decodes (world st).
Proof.
  unfold initial_info_step. destruct (has_flag _ _).
  - destruct (register_pool_spec e st d) as (fbs & bufs & evs & _ & _ & _ & _ & _ & _ & Heq).
    rewrite Heq. cbn. repeat split.
  - cbn. repeat split.
Qed.

Lemma step_entry_keeps (e : Env) (st : State) :
  frame_id_counter (app_data (step_entry e st)) = frame_id_counter (app_data st) /\
  bitstream_buffer (app_data (step_entry e st)) = bitstream_buffer (app_data st) /\
  fin (app_data (step_entry e st)) = fin (app_data st) /\
  fout (app_data (step_entry e st)) = fout (app_data st) /\
  drain_mode_enabled (world (step_entry e st)) = drain_mode_enabled (world st) /\
  num_decodes (world (step_entry e st)) = num_decodes (world st).
Proof.
  unfold step_entry. destruct (drain_mode_enabled (world st)) eqn:Hd.
  - repeat split. exact Hd.
  - destruct (after_read_world e st) as (H1 & _ & H3 & _).
    destruct (after_read_app e st) as (A1 & _ & _ & _ & A5 & A6 & A7).
    repeat split; try assumption. congruence.
Qed.

Lemma step_pool_state_keeps (e : Env) (st : State) :
  frame_id_counter (app_data (step_pool_state e st)) = frame_id_counter (app_data st) /\
  bitstream_buffer (app_data (step_pool_state e st)) = bitstream_buffer (app_data st) /\
  fin (app_data (step_pool_state e st)) = fin (app_data st) /\
  fout (app_data (step_pool_state e st)) = fout (app_data st) /\
  drain_mode_enabled (world (step_pool_state e st)) = drain_mode_enabled (world st).
Proof.
  unfold step_pool_state.
  destruct (initial_info_step_keeps e (step_entry e st) (num_decodes (world st))
              (step_output_code e st)) as (H1 & H2 & H3 & H4 & H5 & _).
  destruct (step_entry_keeps e st) as (E1 & E2 & E3 & E4 & E5 & _).
  repeat split; congruence.
Qed.

(** The counter after a step: one more, modulo 2^32, if the step reached
    the decode call, unchanged otherwise. *)
Lemma decode_frame_counter (e : Env) (st : State) :
  frame_id_counter (app_data (state_of (decode_frame e st))) =
    if submits e st then u32 (frame_id_counter (app_data st) + 1)
    else frame_id_counter (app_data st).
Proof.
  destruct (submits e st) eqn:Hs.
  - rewrite (decode_frame_submits e st Hs). unfold state_of. cbn.
    destruct (step_pool_state_keeps e st) as (-> & _). reflexivity.
  - rewrite (decode_frame_no_unit e st Hs). unfold state_of. cbn [fst snd].
    apply after_read_app.
Qed.

Lemma count_decode_step (e : Env) (st : State) :
  count is_decode (events_of (decode_frame e st)) = if submits e st then 1%nat else 0%nat.
Proof.
  destruct (submits e st) eqn:Hs.
  - rewrite (decode_frame_submits e st Hs). unfold events_of. cbn [snd].
    rewrite count_app, count_cons, count_app.
    rewrite (count_disjoint is_read is_decode _ (step_prefix_reads e st)) by by_kind.
    rewrite (count_disjoint is_pool_call is_decode _ (step_pool_calls_pool e st)) by by_kind.
    rewrite (count_disjoint is_output_call is_decode _ (output_picture_calls _ _ _ _))
      by by_kind.
    reflexivity.
  - rewrite (decode_frame_no_unit e st Hs). unfold events_of. cbn [snd].
    rewrite count_cons, count_nil.
    pose proof (read_event_is_read e st) as H.
    destruct (read_event e st); try discriminate. reflexivity.
Qed.

(** ** [init] and [shutdown] *)

Lemma init_failed_iff (e : Env) : init_failed e = negb (init_succeeds e).
Proof.
  unfold init_failed, init_succeeds, init, initial_state, ret_of. cbn [app_data].
  destruct (parse_args e zero_app_data) as [parsed a0]. cbn [fst].
  destruct parsed; cbn; [|reflexivity].
  destruct (fopen_in_ok e); cbn; [|reflexivity].
  destruct (fopen_out_ok e); reflexivity.
Qed.

Lemma parse_args_keeps (e : Env) (a : AppData) :
  let a' := snd (parse_args e a) in
  fin a' = fin a /\ fout a' = fout a /\
  framebuffers a' = framebuffers a /\ fb_dmabuffers a' = fb_dmabuffers a /\
  num_framebuffers a' = num_framebuffers a /\
  frame_id_counter a' = frame_id_counter a.
Proof.
  unfold parse_args.
  destruct (parse_args_options (getopt e) (infn a) (outfn a)) as [[ok i] o].
  destruct ok; cbn; [|repeat split].
  destruct i; cbn; [|repeat split].
  destruct o; cbn; repeat split.
Qed.

(** A successful [init]: its calls and the state it leaves. *)
Lemma init_ok (e : Env) :
  init_failed e = false ->
  events_of (init e initial_state) = init_calls e /\
  frame_id_counter (app_data (after_init e)) = 100 /\
  world (after_init e) =
    {| drain_mode_enabled := false; num_reads := 0; num_decodes := 0; num_allocs := 1 |} /\
  framebuffers (app_data (after_init e)) = None /\
  fb_dmabuffers (app_data (after_init e)) = None /\
  num_framebuffers (app_data (after_init e)) = 0 /\
  bitstream_buffer (app_data (after_init e)) =
    (if dma_buffer_allocate_ok e 0 then Some 0%nat else None) /\
  fin (app_data (after_init e)) = true /\
  fout (app_data (after_init e)) = true.
Proof.
  unfold init_failed, after_init, init, initial_state, init_calls,
    ret_of, state_of, events_of. cbn [app_data world].
  pose proof (parse_args_keeps e zero_app_data) as Hk. cbv zeta in Hk.
  destruct (parse_args e zero_app_data) as [parsed a0]. cbn [fst snd] in *.
  destruct Hk as (K1 & K2 & K3 & K4 & K5 & K6).
  destruct parsed; cbn; [|discriminate].
  destruct (fopen_in_ok e); cbn; [|discriminate].
  destruct (fopen_out_ok e); cbn; [|discriminate].
  intros _. repeat split; assumption.
Qed.

Lemma shutdown_calls (st : State) :
  Forall (fun ev => is_teardown_call ev = true) (events_of (shutdown st)).
Proof.
  unfold shutdown, events_of. cbn [snd].
  repeat (apply Forall_cons; [reflexivity|]).
  apply Forall_app. split.
  - generalize (pool_array (fb_dmabuffers (app_data st))) as bufs.
    generalize 0%nat as i.
    induction (Z.to_nat (num_framebuffers (app_data st))) as [|k IH]; intros i bufs; simpl.
    + constructor.
    + constructor; [reflexivity | apply IH].
  - repeat (apply Forall_cons; [reflexivity|]).
    apply Forall_app. split.
    + destruct (fout (app_data st)); repeat constructor.
    + destruct (fin (app_data st)); repeat constructor.
Qed.

Lemma init_calls_init (e : Env) :
  Forall (fun ev => is_init_call ev = true) (init_calls e).
Proof.
  unfold init_calls. repeat constructor.
Qed.

Lemma main_init_failed (e : Env) (fuel : nat) :
  init_failed e = true ->
  main e fuel = (Some 1, state_of (init e initial_state), events_of (init e initial_state)).
Proof.
  intros H. rewrite main_normal_form, H. reflexivity.
Qed.

(** ** Invariants of a session *)

(** A relation between the state and the calls made so far that holds
    after [init] and is kept by a decode step, by entering drain mode and
    by [shutdown], holds at the end of [main], and whenever [main] is
    observed while still looping. *)
Lemma main_invariant (e : Env) (J : State -> list event -> Prop) :
  (forall st tr, J st tr ->
     J (state_of (decode_frame e st)) (tr ++ events_of (decode_frame e st))) ->
  (forall st tr, J st tr ->
     J (enable_drain_mode st) (tr ++ [E_dec_enable_drain_mode true])) ->
  (forall st tr, J st tr -> J st (tr ++ events_of (shutdown st))) ->
  J (after_init e) (events_of (init e initial_state)) ->
  forall fuel,
    init_failed e = false ->
    J (state_of (main e fuel)) (events_of (main e fuel)).
Proof.
  intros Hstep Hdrain Hshut Hinit fuel Hok.
  rewrite main_normal_form, Hok.
  pose proof (decode_loop_invariant (decode_frame e) J Hstep fuel _ _ Hinit) as H1.
  fold (after_init e) in H1. fold (first_loop e fuel) in H1.
  destruct (ret_of (first_loop e fuel)).
  - pose proof (decode_loop_invariant (decode_frame e) J Hstep fuel _ _
                  (Hdrain _ _ H1)) as H2.
    fold (drain_loop e fuel) in H2.
    rewrite <- !app_assoc in H2. cbn [List.app] in H2.
    destruct (ret_of (drain_loop e fuel)).
    + unfold state_of at 1, events_of at 1. cbn [fst snd].
      apply Hshut in H2. rewrite <- !app_assoc in H2. cbn [List.app] in H2.
      exact H2.
    + exact H2.
  - exact H1.
Qed.

Lemma u32_succ (z : Z) : u32 (u32 z + 1) = u32 (z + 1).
Proof.
  unfold u32. rewrite Z.add_mod_idemp_l; [reflexivity | discriminate].
Qed.

(** C4, as amended: the frame id counter is incremented (modulo 2^32)
    exactly once by every decode step that submits to the engine, drain
    mode or not, and by nothing else; it is attached as context only to
    non-drain submissions (a drain submission carries the NULL context);
    a step that ends without submitting leaves it alone.  It is never
    reset: at any point of a session it is 100 plus the number of decode
    calls made, modulo 2^32. *)
Theorem frame_id_counter_counts_submissions :
  (forall e st,
     match submitted_frame (events_of (decode_frame e st)) with
     | Some frame =>
         frame_id_counter (app_data (state_of (decode_frame e st)))
           = u32 (frame_id_counter (app_data st) + 1) /\
         ef_context frame
           = (if drain_mode_enabled (world st) then 0 else frame_id_counter (app_data st))
     | None =>
         frame_id_counter (app_data (state_of (decode_frame e st))) = frame_id_counter (app_data st)
     end) /\
  (forall e fuel,
     init_failed e = false ->
     frame_id_counter (app_data (state_of (main e fuel)))
       = u32 (100 + Z.of_nat (count is_decode (events_of (main e fuel))))).
Proof.
  split.
  - intros e st. rewrite submitted_frame_of_step, decode_frame_counter.
    destruct (submits e st); [|reflexivity].
    split; [reflexivity|].
    unfold step_frame. destruct (drain_mode_enabled (world st)); reflexivity.
  - intros e fuel Hok.
    apply (main_invariant e
      (fun st tr => frame_id_counter (app_data st) = u32 (100 + Z.of_nat (count is_decode tr)))).
    + intros st tr HJ. rewrite decode_frame_counter, count_app, count_decode_step.
      destruct (submits e st).
      * rewrite HJ, u32_succ. f_equal. lia.
      * rewrite HJ. f_equal. lia.
    + intros st tr HJ. rewrite count_app, count_cons, count_nil.
      change (frame_id_counter (app_data (enable_drain_mode st)))
        with (frame_id_counter (app_data st)).
      rewrite HJ. f_equal. cbn [is_decode]. lia.
    + intros st tr HJ. rewrite count_app.
      rewrite (count_disjoint is_teardown_call is_decode _ (shutdown_calls st)) by by_kind.
      rewrite HJ. f_equal. lia.
    + destruct (init_ok e Hok) as (-> & -> & _).
      rewrite (count_disjoint is_init_call is_decode _ (init_calls_init e)) by by_kind.
      reflexivity.
    + exact Hok.
Qed.

Lemma frame_id_counter_counts_submissions_witness :
  init_failed env_empty_input = false /\
  frame_id_counter (app_data (state_of (main env_empty_input 3))) = 102.
Proof.
  split.
  - reflexivity.
  - exact (proj2 frame_id_counter_counts_submissions env_empty_input 3%nat eq_refl).
Defined.

(** C4, as stated, fails: the first drain submission of a session on an
    empty input finds the counter at 100 and leaves it at 101. *)
Lemma drain_submission_increments_counter :
  ~ drain_keeps_counter env_empty_input (drain_entry env_empty_input 1).
Proof.
  intros H. specialize (H eq_refl). vm_compute in H. discriminate.
Qed.

(** * Slot ownership *)

Lemma init_events_init (e : Env) :
  Forall (fun ev => is_init_call ev = true) (events_of (init e initial_state)).
Proof.
  unfold init, events_of.
  destruct (parse_args e (app_data initial_state)) as [parsed a0].
  destruct parsed; cbn; [|constructor].
  destruct (fopen_in_ok e); cbn; [|repeat constructor].
  destruct (fopen_out_ok e); cbn; repeat constructor.
Qed.

Lemma ImxVpuFramebuffer_eqb_refl (fb : ImxVpuFramebuffer) :
  ImxVpuFramebuffer_eqb fb fb = true.
Proof.
  unfold ImxVpuFramebuffer_eqb. rewrite Z.eqb_refl, andb_true_r.
  destruct (fb_dma_buffer fb); [apply Nat.eqb_refl | reflexivity].
Qed.

Lemma replay_fetched_app (owned : list ImxVpuFramebuffer) (a b : list event) :
  replay_fetched owned (a ++ b) =
    match replay_fetched owned a with
    | Some owned' => replay_fetched owned' b
    | None => None
    end.
Proof.
  revert owned. induction a as [|ev a IH]; intros owned; [reflexivity|].
  destruct ev; simpl; try apply IH.
  destruct (remove_slot fb owned); [apply IH | reflexivity].
Qed.

Lemma replay_fetched_skip (q : event -> bool) (owned : list ImxVpuFramebuffer)
    (tr : list event) :
  Forall (fun ev => q ev = true) tr ->
  (forall ev, q ev = true -> is_ownership_call ev = false) ->
  replay_fetched owned tr = Some owned.
Proof.
  intros Hall Hq. induction Hall as [|ev tr Hev _ IH]; [reflexivity|].
  specialize (Hq ev Hev). destruct ev; simpl in *; try exact IH; discriminate.
Qed.

(** The picture/dropped statement takes a slot and gives it back. *)
Lemma replay_fetched_output_picture (e : Env) (st : State) (d : nat) (output_code : Z)
    (owned : list ImxVpuFramebuffer) :
  replay_fetched owned (output_picture e st d output_code) = Some owned.
Proof.
  unfold output_picture. destruct (has_flag output_code _).
  - destruct (imx_vpu_dec_get_decoded_picture e d) as [ret picture]. simpl.
    rewrite ImxVpuFramebuffer_eqb_refl. reflexivity.
  - destruct (has_flag output_code _); reflexivity.
Qed.

Lemma replay_fetched_step (e : Env) (st : State) (owned : list ImxVpuFramebuffer) :
  replay_fetched owned (events_of (decode_frame e st)) = Some owned.
Proof.
  destruct (submits e st) eqn:Hs.
  - rewrite (decode_frame_submits e st Hs). unfold events_of. cbn [snd].
    rewrite replay_fetched_app.
    rewrite (replay_fetched_skip is_read _ _ (step_prefix_reads e st)) by by_kind.
    cbn [replay_fetched]. rewrite replay_fetched_app.
    rewrite (replay_fetched_skip is_pool_call _ _ (step_pool_calls_pool e st)) by by_kind.
    apply replay_fetched_output_picture.
  - rewrite (decode_frame_no_unit e st Hs). unfold events_of. cbn [snd].
    apply (replay_fetched_skip is_read); [|by_kind].
    constructor; [apply read_event_is_read | constructor].
Qed.

(** As long as no fetch failed, the slots the fetch calls named are the
    slots the consumer owns. *)
Lemma replay_ownership_fetched (owned : list ImxVpuFramebuffer) (tr : list event) :
  count is_failed_fetch tr = 0%nat ->
  replay_ownership owned tr = replay_fetched owned tr.
Proof.
  revert owned. induction tr as [|ev tr IH]; intros owned H; [reflexivity|].
  rewrite count_cons in H.
  destruct ev; simpl in *; try (apply IH; lia).
  - destruct ret; simpl in *; [apply IH; lia | lia].
  - destruct (remove_slot fb owned); [apply IH; lia | reflexivity].
Qed.

Lemma count_output_picture (e : Env) (st : State) (d : nat) (output_code : Z) :
  let evs := output_picture e st d output_code in
  let n := if has_flag output_code (IMX_VPU_DEC_OUTPUT_CODE_DECODED_PICTURE_AVAILABLE e)
           then 1%nat else 0%nat in
  count is_get_decoded_picture evs = n /\ count is_mark_displayed evs = n.
Proof.
  unfold output_picture. destruct (has_flag output_code _).
  - destruct (imx_vpu_dec_get_decoded_picture e d). split; reflexivity.
  - destruct (has_flag output_code _); split; reflexivity.
Qed.

(** In one step: as many fetches and as many mark-displayed calls as
    DECODED_PICTURE_AVAILABLE events, which is one or none. *)
Lemma count_picture_calls_step (e : Env) (st : State) :
  let evs := events_of (decode_frame e st) in
  let n := count (is_decode_with (IMX_VPU_DEC_OUTPUT_CODE_DECODED_PICTURE_AVAILABLE e)) evs in
  count is_get_decoded_picture evs = n /\ count is_mark_displayed evs = n /\ (n <= 1)%nat.
Proof.
  cbv zeta.
  rewrite (count_output_call_step is_get_decoded_picture) by by_kind.
  rewrite (count_output_call_step is_mark_displayed) by by_kind.
  destruct (submits e st) eqn:Hs.
  - rewrite (decode_frame_submits e st Hs). unfold events_of. cbn [snd].
    rewrite count_app, count_cons, count_app.
    rewrite (count_disjoint is_read _ _ (step_prefix_reads e st)) by by_kind.
    rewrite (count_disjoint is_pool_call _ _ (step_pool_calls_pool e st)) by by_kind.
    rewrite (count_disjoint is_output_call (is_decode_with _) _
               (output_picture_calls _ _ _ _)) by by_kind.
    cbn [is_decode_with].
    destruct (count_output_picture e (step_pool_state e st) (num_decodes (world st))
                (step_output_code e st)) as [-> ->].
    destruct (has_flag (step_output_code e st) _); repeat split; lia.
  - rewrite (decode_frame_no_unit e st Hs). unfold events_of. cbn [snd].
    rewrite count_cons, count_nil.
    pose proof (read_event_is_read e st) as H.
    destruct (read_event e st); try discriminate. repeat split; cbn; lia.
Qed.

(** C8, as amended: in every session run, observed at its end or while it
    is still looping, there are no more mark-displayed calls than
    DECODED_PICTURE_AVAILABLE events; a step fetches the decoded picture
    at most once; and mark-displayed is invoked once after each fetch, for
    the slot that fetch named, without a look at what the fetch
    returned.  So as long as every fetch has succeeded, no slot is marked
    displayed unless the consumer holds it, having been delivered it and
    not yet returned it. *)
Theorem mark_displayed_follows_fetch (e : Env) (fuel : nat) :
  (count is_mark_displayed (events_of (main e fuel))
   <= count (is_decode_with (IMX_VPU_DEC_OUTPUT_CODE_DECODED_PICTURE_AVAILABLE e))
        (events_of (main e fuel)))%nat /\
  replay_fetched [] (events_of (main e fuel)) = Some [] /\
  (count is_failed_fetch (events_of (main e fuel)) = 0%nat ->
   replay_ownership [] (events_of (main e fuel)) = Some []) /\
  (forall st, (count is_get_decoded_picture (events_of (decode_frame e st)) <= 1)%nat).
Proof.
  assert (Hmain :
    (count is_mark_displayed (events_of (main e fuel))
     <= count (is_decode_with (IMX_VPU_DEC_OUTPUT_CODE_DECODED_PICTURE_AVAILABLE e))
          (events_of (main e fuel)))%nat /\
    replay_fetched [] (events_of (main e fuel)) = Some []).
  { destruct (init_failed e) eqn:Hok.
    - rewrite (main_init_failed e fuel Hok). unfold events_of at 1 2 3. cbn [snd].
      fold (events_of (init e initial_state)).
      pose proof (init_events_init e) as Hi. split.
      + rewrite (count_disjoint is_init_call is_mark_displayed _ Hi) by by_kind. lia.
      + apply (replay_fetched_skip is_init_call _ _ Hi). by_kind.
    - apply (main_invariant e (fun _ tr =>
        (count is_mark_displayed tr
         <= count (is_decode_with (IMX_VPU_DEC_OUTPUT_CODE_DECODED_PICTURE_AVAILABLE e)) tr)%nat
        /\ replay_fetched [] tr = Some [])); [| | | |exact Hok].
      + intros st tr [Hc Hr]. split.
        * rewrite !count_app.
          destruct (count_picture_calls_step e st) as (_ & -> & _). lia.
        * rewrite replay_fetched_app, Hr. apply replay_fetched_step.
      + intros st tr [Hc Hr]. split.
        * rewrite !count_app. cbn. lia.
        * rewrite replay_fetched_app, Hr. reflexivity.
      + intros st tr [Hc Hr]. split.
        * rewrite !count_app.
          rewrite (count_disjoint is_teardown_call is_mark_displayed _ (shutdown_calls st))
            by by_kind. lia.
        * rewrite replay_fetched_app, Hr.
          apply (replay_fetched_skip is_teardown_call _ _ (shutdown_calls st)). by_kind.
      + pose proof (init_events_init e) as Hi. split.
        * rewrite (count_disjoint is_init_call is_mark_displayed _ Hi) by by_kind. lia.
        * apply (replay_fetched_skip is_init_call _ _ Hi). by_kind. }
  destruct Hmain as [H1 H2].
  split; [exact H1|]. split; [exact H2|]. split.
  - intros Hnone. rewrite (replay_ownership_fetched _ _ Hnone). exact H2.
  - intros st. destruct (count_picture_calls_step e st) as (-> & _ & H). exact H.
Qed.

Lemma mark_displayed_follows_fetch_witness :
  count is_failed_fetch (events_of (main env_three_units 5)) = 0%nat /\
  replay_ownership [] (events_of (main env_three_units 5)) = Some [].
Proof.
  split; [reflexivity|].
  exact (proj1 (proj2 (proj2 (mark_displayed_follows_fetch env_three_units 5))) eq_refl).
Defined.

(** C8, as stated, fails: the engine reports a decoded picture, the fetch
    of the picture fails, and the step goes on to mark displayed the slot
    found in its picture record, a slot of the pool that was never
    delivered to the consumer. *)
Lemma undelivered_slot_marked_displayed :
  ~ marks_only_owned_slots env_fetch_fails 2.
Proof.
  intros H. apply H. reflexivity.
Qed.

(** * Drain mode *)

Lemma step_calls (e : Env) (st : State) :
  Forall (fun ev => is_step_call ev = true) (events_of (decode_frame e st)).
Proof.
  destruct (submits e st) eqn:Hs.
  - rewrite (decode_frame_submits e st Hs). unfold events_of. cbn [snd].
    apply Forall_app. split.
    + eapply Forall_impl; [|apply step_prefix_reads]. by_kind.
    + constructor; [reflexivity|]. apply Forall_app. split.
      * eapply Forall_impl; [|apply step_pool_calls_pool].
        intros ev H. unfold is_step_call. rewrite H. apply orb_true_iff.
        left. apply orb_true_r.
      * eapply Forall_impl; [|apply output_picture_calls].
        intros ev H. unfold is_step_call. rewrite H. apply orb_true_r.
  - rewrite (decode_frame_no_unit e st Hs). unfold events_of. cbn [snd].
    constructor; [|constructor].
    unfold is_step_call. rewrite read_event_is_read. reflexivity.
Qed.

Lemma decode_frame_drain_flag (e : Env) (st : State) :
  drain_mode_enabled (world (state_of (decode_frame e st))) = drain_mode_enabled (world st).
Proof.
  destruct (submits e st) eqn:Hs.
  - rewrite (decode_frame_submits e st Hs). unfold state_of. cbn.
    apply step_pool_state_keeps.
  - rewrite (decode_frame_no_unit e st Hs). unfold state_of. cbn [fst snd].
    apply after_read_world.
Qed.

Lemma submitted_frames_app (a b : list event) :
  submitted_frames (a ++ b) = submitted_frames a ++ submitted_frames b.
Proof.
  induction a as [|ev a IH]; [reflexivity|].
  destruct ev; simpl; rewrite ?IH; reflexivity.
Qed.

Lemma submitted_frames_none (q : event -> bool) (tr : list event) :
  Forall (fun ev => q ev = true) tr ->
  (forall ev, q ev = true -> is_decode ev = false) ->
  submitted_frames tr = [].
Proof.
  intros Hall Hq. induction Hall as [|ev tr Hev _ IH]; [reflexivity|].
  specialize (Hq ev Hev). destruct ev; simpl in *; try exact IH. discriminate.
Qed.

Lemma submitted_frames_step (e : Env) (st : State) :
  submitted_frames (events_of (decode_frame e st)) =
    if submits e st then [step_frame e st] else [].
Proof.
  destruct (submits e st) eqn:Hs.
  - rewrite (decode_frame_submits e st Hs). unfold events_of. cbn [snd].
    rewrite submitted_frames_app.
    rewrite (submitted_frames_none is_read _ (step_prefix_reads e st)) by by_kind.
    cbn [List.app submitted_frames]. rewrite submitted_frames_app.
    rewrite (submitted_frames_none is_pool_call _ (step_pool_calls_pool e st)) by by_kind.
    rewrite (submitted_frames_none is_output_call _ (output_picture_calls _ _ _ _))
      by by_kind.
    reflexivity.
  - rewrite (decode_frame_no_unit e st Hs). unfold events_of. cbn [snd].
    apply (submitted_frames_none is_read); [|by_kind].
    constructor; [apply read_event_is_read | constructor].
Qed.

Lemma submissions_no_enable (b : bool) (tr : list event) :
  count is_enable_drain tr = 0%nat ->
  submissions b tr = map (pair b) (submitted_frames tr).
Proof.
  induction tr as [|ev tr IH]; intros H; [reflexivity|].
  rewrite count_cons in H.
  destruct ev; simpl in *; try (apply IH; lia); try lia.
  f_equal. apply IH. lia.
Qed.

Lemma submissions_app (b : bool) (a c : list event) :
  count is_enable_drain a = 0%nat ->
  submissions b (a ++ c) = submissions b a ++ submissions b c.
Proof.
  induction a as [|ev a IH]; intros H; [reflexivity|].
  rewrite count_cons in H.
  destruct ev; simpl in *; try (apply IH; lia); try lia.
  f_equal. apply IH. lia.
Qed.

Lemma before_drain_app (a c : list event) (b : bool) :
  count is_enable_drain a = 0%nat ->
  before_drain (a ++ E_dec_enable_drain_mode b :: c) = a.
Proof.
  induction a as [|ev a IH]; intros H; [reflexivity|].
  rewrite count_cons in H.
  destruct ev; simpl in *; try (f_equal; apply IH; lia). lia.
Qed.

Lemma after_drain_app (a c : list event) (b : bool) :
  count is_enable_drain a = 0%nat ->
  after_drain (a ++ E_dec_enable_drain_mode b :: c) = c.
Proof.
  induction a as [|ev a IH]; intros H; [reflexivity|].
  rewrite count_cons in H.
  destruct ev; simpl in *; try (apply IH; lia). lia.
Qed.

Lemma after_drain_none (tr : list event) :
  count is_enable_drain tr = 0%nat -> after_drain tr = [].
Proof.
  induction tr as [|ev tr IH]; intros H; [reflexivity|].
  rewrite count_cons in H.
  destruct ev; simpl in *; try (apply IH; lia). lia.
Qed.

(** A step outside drain mode that returns [RETVAL_EOS] shows why in its
    calls: the reader left no unit or returned 0, or the engine set EOS. *)
Lemma live_step_eos (e : Env) (st : State) :
  drain_mode_enabled (world st) = false ->
  ret_of (decode_frame e st) = RETVAL_EOS ->
  existsb (ends_loop e) (events_of (decode_frame e st)) = true.
Proof.
  intros Hd Hret. destruct (submits e st) eqn:Hs.
  - rewrite (decode_frame_submits e st Hs) in *. rewrite ret_of_tuple in Hret.
    rewrite events_of_tuple.
    rewrite existsb_app. cbn [existsb].
    unfold step_prefix, step_ok in *. rewrite Hd in *.
    cbn [existsb]. unfold ends_loop at 1 2. cbn [is_source_exhausted is_decode_with].
    destruct (has_flag (step_output_code e st) (IMX_VPU_DEC_OUTPUT_CODE_EOS e)).
    + rewrite !orb_true_r. reflexivity.
    + unfold read_ok, read_event in *.
      destruct (h264_ctx_read_access_unit e (num_reads (world st))) as [[ok s] en].
      cbn [fst] in Hret. destruct ok; [discriminate|]. reflexivity.
  - rewrite (decode_frame_no_unit e st Hs). rewrite events_of_tuple. cbn [existsb].
    unfold submits in Hs. rewrite Hd in Hs. cbn in Hs.
    apply negb_false_iff in Hs. unfold no_access_unit, read_event, ends_loop in *.
    destruct (h264_ctx_read_access_unit e (num_reads (world st))) as [[ok s] en].
    cbn [is_source_exhausted]. rewrite Hs, !orb_true_r. reflexivity.
Qed.

Lemma drain_step (e : Env) (st : State) :
  drain_mode_enabled (world st) = true ->
  count is_read (events_of (decode_frame e st)) = 0%nat /\
  submitted_frames (events_of (decode_frame e st)) = [drain_frame].
Proof.
  intros Hd.
  assert (Hs : submits e st = true) by (unfold submits; rewrite Hd; reflexivity).
  split.
  - rewrite (decode_frame_submits e st Hs). rewrite events_of_tuple.
    unfold step_prefix. rewrite Hd. cbn [List.app]. rewrite count_cons, count_app.
    rewrite (count_disjoint is_pool_call is_read _ (step_pool_calls_pool e st)) by by_kind.
    rewrite (count_disjoint is_output_call is_read _ (output_picture_calls _ _ _ _))
      by by_kind.
    reflexivity.
  - rewrite submitted_frames_step, Hs. unfold step_frame. rewrite Hd. reflexivity.
Qed.

(** A loop started outside drain mode stays outside, never touches the
    drain flag, and if it ends, the reader or the engine has ended it. *)
Lemma live_loop (e : Env) (fuel : nat) :
  forall st,
    drain_mode_enabled (world st) = false ->
    drain_mode_enabled (world (state_of (decode_loop (decode_frame e) fuel st))) = false /\
    Forall (fun ev => is_step_call ev = true)
      (events_of (decode_loop (decode_frame e) fuel st)) /\
    (ret_of (decode_loop (decode_frame e) fuel st) <> None ->
     existsb (ends_loop e) (events_of (decode_loop (decode_frame e) fuel st)) = true).
Proof.
  induction fuel as [|fuel IH]; intros st Hd.
  - simpl. tuples. repeat split; try assumption.
    + constructor.
    + intros H. contradiction.
  - pose proof (step_calls e st) as Hcalls.
    pose proof (decode_frame_drain_flag e st) as Hflag.
    destruct (decode_loop_step e fuel st) as [[Hret ->] | [Hret ->]]; tuples.
    + destruct (IH (state_of (decode_frame e st))) as (I1 & I2 & I3); [congruence|].
      repeat split.
      * exact I1.
      * apply Forall_app. split; assumption.
      * intros H. rewrite existsb_app, (I3 H). apply orb_true_r.
    + repeat split.
      * congruence.
      * exact Hcalls.
      * intros _. apply live_step_eos; assumption.
Qed.

(** A loop started in drain mode stays there, reads no input and submits
    only the empty frame. *)
Lemma draining_loop (e : Env) (fuel : nat) :
  forall st,
    drain_mode_enabled (world st) = true ->
    drain_mode_enabled (world (state_of (decode_loop (decode_frame e) fuel st))) = true /\
    Forall (fun ev => is_step_call ev = true)
      (events_of (decode_loop (decode_frame e) fuel st)) /\
    count is_read (events_of (decode_loop (decode_frame e) fuel st)) = 0%nat /\
    Forall (fun frame => frame = drain_frame)
      (submitted_frames (events_of (decode_loop (decode_frame e) fuel st))).
Proof.
  induction fuel as [|fuel IH]; intros st Hd.
  - simpl. tuples. repeat split; try assumption; constructor.
  - pose proof (step_calls e st) as Hcalls.
    pose proof (decode_frame_drain_flag e st) as Hflag.
    destruct (drain_step e st Hd) as [Hreads Hframes].
    destruct (decode_loop_step e fuel st) as [[Hret ->] | [Hret ->]]; tuples.
    + destruct (IH (state_of (decode_frame e st))) as (I1 & I2 & I3 & I4); [congruence|].
      repeat split.
      * exact I1.
      * apply Forall_app. split; assumption.
      * rewrite count_app, Hreads, I3. reflexivity.
      * rewrite submitted_frames_app, Hframes. constructor; [reflexivity | exact I4].
    + repeat split.
      * congruence.
      * exact Hcalls.
      * exact Hreads.
      * rewrite Hframes. repeat constructor.
Qed.

(** The calls of a session whose [init] succeeded: the calls of [init],
    the calls of the first loop, and, once that loop has ended, the call
    that enables drain mode, the calls of the drain loop and, once that has
    ended too, the calls of [shutdown]. *)
Lemma main_events (e : Env) (fuel : nat) :
  init_failed e = false ->
  exists (live draining shut : list event) (entered : bool),
    events_of (main e fuel) =
      (init_calls e ++ live)
      ++ (if entered then E_dec_enable_drain_mode true :: draining ++ shut else []) /\
    live = events_of (first_loop e fuel) /\
    Forall (fun ev => is_step_call ev = true) live /\
    Forall (fun ev => is_step_call ev = true) draining /\
    Forall (fun ev => is_teardown_call ev = true) shut /\
    count is_read draining = 0%nat /\
    Forall (fun frame => frame = drain_frame) (submitted_frames draining) /\
    (entered = true -> existsb (ends_loop e) live = true).
Proof.
  intros Hok. rewrite main_normal_form, Hok.
  destruct (init_ok e Hok) as (Hev & _ & Hw & _).
  assert (Hd : drain_mode_enabled (world (after_init e)) = false) by (rewrite Hw; reflexivity).
  destruct (live_loop e fuel (after_init e) Hd) as (L1 & L2 & L3).
  change (decode_loop (decode_frame e) fuel (after_init e))
    with (first_loop e fuel) in L1, L2, L3.
  rewrite Hev.
  destruct (ret_of (first_loop e fuel)) eqn:Hr1.
  - assert (Hd2 : drain_mode_enabled (world (enable_drain_mode (state_of (first_loop e fuel))))
                  = true) by reflexivity.
    destruct (draining_loop e fuel _ Hd2) as (D1 & D2 & D3 & D4).
    change (decode_loop (decode_frame e) fuel
              (enable_drain_mode (state_of (first_loop e fuel))))
      with (drain_loop e fuel) in D1, D2, D3, D4.
    assert (Hends : existsb (ends_loop e) (events_of (first_loop e fuel)) = true)
      by (apply L3; discriminate).
    destruct (ret_of (drain_loop e fuel)).
    + exists (events_of (first_loop e fuel)), (events_of (drain_loop e fuel)),
        (events_of (shutdown (state_of (drain_loop e fuel)))), true.
      rewrite events_of_tuple, <- app_assoc.
      repeat split; try assumption; [apply shutdown_calls | intros _; exact Hends].
    + exists (events_of (first_loop e fuel)), (events_of (drain_loop e fuel)), [], true.
      rewrite events_of_tuple, <- app_assoc, app_nil_r.
      repeat split; try assumption; [constructor | intros _; exact Hends].
  - exists (events_of (first_loop e fuel)), [], [], false.
    rewrite events_of_tuple, app_nil_r.
    repeat split; try assumption; try constructor. discriminate.
Qed.

Lemma Forall_submissions_live (tr : list event) :
  count is_enable_drain tr = 0%nat ->
  Forall (fun s : bool * ImxVpuEncodedFrame => fst s = true -> snd s = drain_frame)
    (submissions false tr).
Proof.
  intros H. rewrite (submissions_no_enable false tr H).
  apply Forall_forall. intros s Hin. apply in_map_iff in Hin.
  destruct Hin as (frame & <- & _). discriminate.
Qed.

(** C7, as amended: in every session run, (1) every submission made while
    drain mode is active is the empty frame: no data, no codec data, no
    context; (2) drain mode is enabled only after a decode step has
    returned end-of-input, that is after the reader left no access unit or
    returned 0, or the engine set EOS in an output code, and not
    necessarily after the input source is exhausted; (3) drain mode is
    enabled at most once and never disabled, and no input is read after
    it. *)
Theorem drain_mode_discipline (e : Env) (fuel : nat) :
  Forall (fun s : bool * ImxVpuEncodedFrame => fst s = true -> snd s = drain_frame)
    (submissions false (events_of (main e fuel))) /\
  (In (E_dec_enable_drain_mode true) (events_of (main e fuel)) ->
   existsb (ends_loop e) (before_drain (events_of (main e fuel))) = true) /\
  ~ In (E_dec_enable_drain_mode false) (events_of (main e fuel)) /\
  (count is_enable_drain (events_of (main e fuel)) <= 1)%nat /\
  count is_read (after_drain (events_of (main e fuel))) = 0%nat.
Proof.
  destruct (init_failed e) eqn:Hok.
  - rewrite (main_init_failed e fuel Hok), events_of_tuple.
    pose proof (init_events_init e) as Hi.
    assert (Hn : count is_enable_drain (events_of (init e initial_state)) = 0%nat)
      by (apply (count_disjoint is_init_call _ _ Hi); by_kind).
    split; [apply Forall_submissions_live; exact Hn|].
    split; [intros Hin; exfalso; revert Hin; apply (count_zero_not_In _ _ _ Hn); reflexivity|].
    split; [apply (count_zero_not_In _ _ _ Hn); reflexivity|].
    split; [lia|].
    rewrite (after_drain_none _ Hn). reflexivity.
  - destruct (main_events e fuel Hok)
      as (live & draining & shut & entered & -> & _ & Hl & Hdr & Hs & Hreads & Hframes
          & Hends).
    assert (Hn : count is_enable_drain (init_calls e ++ live) = 0%nat).
    { rewrite count_app.
      rewrite (count_disjoint is_init_call _ _ (init_calls_init e)) by by_kind.
      rewrite (count_disjoint is_step_call _ _ Hl) by by_kind. reflexivity. }
    assert (Hnd : count is_enable_drain (draining ++ shut) = 0%nat).
    { rewrite count_app.
      rewrite (count_disjoint is_step_call _ _ Hdr) by by_kind.
      rewrite (count_disjoint is_teardown_call _ _ Hs) by by_kind. reflexivity. }
    destruct entered.
    + split; [|split; [|split; [|split]]].
      * rewrite (submissions_app _ _ _ Hn). apply Forall_app. split.
        -- apply Forall_submissions_live. exact Hn.
        -- cbn [submissions]. rewrite (submissions_no_enable _ _ Hnd).
           rewrite submitted_frames_app.
           rewrite (submitted_frames_none is_teardown_call shut Hs) by by_kind.
           rewrite app_nil_r. apply Forall_forall. intros s Hin.
           apply in_map_iff in Hin. destruct Hin as (frame & <- & Hin).
           intros _. cbn [snd]. rewrite Forall_forall in Hframes. apply Hframes. exact Hin.
      * intros _. rewrite (before_drain_app _ _ _ Hn), existsb_app, (Hends eq_refl).
        apply orb_true_r.
      * intros Hin. apply in_app_or in Hin. destruct Hin as [Hin | [Hin | Hin]].
        -- revert Hin. apply (count_zero_not_In _ _ _ Hn). reflexivity.
        -- discriminate.
        -- revert Hin. apply (count_zero_not_In _ _ _ Hnd). reflexivity.
      * rewrite count_app, count_cons, Hn, Hnd. cbn. lia.
      * rewrite (after_drain_app _ _ _ Hn), count_app, Hreads.
        rewrite (count_disjoint is_teardown_call _ _ Hs) by by_kind. reflexivity.
    + rewrite app_nil_r.
      split; [apply Forall_submissions_live; exact Hn|].
      split; [intros Hin; exfalso; revert Hin; apply (count_zero_not_In _ _ _ Hn); reflexivity|].
      split; [apply (count_zero_not_In _ _ _ Hn); reflexivity|].
      split; [lia|].
      rewrite (after_drain_none _ Hn). reflexivity.
Qed.

Lemma drain_mode_discipline_witness :
  In (E_dec_enable_drain_mode true) (events_of (main env_three_units 5)) /\
  existsb (ends_loop env_three_units) (before_drain (events_of (main env_three_units 5)))
    = true.
Proof.
  assert (H : In (E_dec_enable_drain_mode true) (events_of (main env_three_units 5))).
  { vm_compute. repeat (try (left; reflexivity); right). }
  split.
  - exact H.
  - exact (proj1 (proj2 (drain_mode_discipline env_three_units 5)) H).
Defined.

(** C7, as stated, fails: the engine sets EOS in the output code for the
    first of two access units; the first loop ends, and drain mode is
    enabled while the second unit has not been read: the reader never
    reported the end of input. *)
Lemma drain_entered_before_exhaustion :
  ~ drain_only_after_exhaustion env_early_eos 2.
Proof.
  intros H.
  assert (Hin : In (E_dec_enable_drain_mode true) (events_of (main env_early_eos 2))).
  { vm_compute. repeat (try (left; reflexivity); right). }
  specialize (H Hin). vm_compute in H. discriminate.
Qed.

(** * Termination *)

(** The reader and decode call counters after a step. *)
Lemma decode_frame_world (e : Env) (st : State) :
  num_reads (world (state_of (decode_frame e st))) =
    (if drain_mode_enabled (world st) then num_reads (world st)
     else S (num_reads (world st))) /\
  num_decodes (world (state_of (decode_frame e st))) =
    (if submits e st then S (num_decodes (world st)) else num_decodes (world st)).
Proof.
  destruct (submits e st) eqn:Hs.
  - rewrite (decode_frame_submits e st Hs), state_of_tuple. cbn. split; [|reflexivity].
    unfold step_pool_state.
    destruct (initial_info_step_keeps e (step_entry e st) (num_decodes (world st))
                (step_output_code e st)) as (_ & _ & _ & _ & _ & -> & _).
    unfold step_entry. destruct (drain_mode_enabled (world st)); [reflexivity|].
    apply after_read_world.
  - rewrite (decode_frame_no_unit e st Hs), state_of_tuple.
    unfold submits in Hs. apply orb_false_elim in Hs. destruct Hs as [-> _].
    destruct (after_read_world e st) as (_ & -> & -> & _). split; reflexivity.
Qed.

(** The first loop ends once the reader leaves no access unit. *)
Lemma live_loop_terminates (e : Env) (k : nat) :
  forall st,
    drain_mode_enabled (world st) = false ->
    (let '(_, au_start, au_end) :=
       h264_ctx_read_access_unit e (num_reads (world st) + k) in
     au_end <= au_start) ->
    exists fuel, ret_of (decode_loop (decode_frame e) fuel st) = Some RETVAL_EOS.
Proof.
  induction k as [|k IH]; intros st Hd Hend.
  - exists 1%nat. rewrite Nat.add_0_r in Hend.
    assert (Hs : submits e st = false).
    { unfold submits, no_access_unit. rewrite Hd.
      destruct (h264_ctx_read_access_unit e (num_reads (world st))) as [[ok s] en].
      apply Z.leb_le in Hend. rewrite Hend. reflexivity. }
    rewrite decode_loop_unfold, (decode_frame_no_unit e st Hs). reflexivity.
  - destruct (decode_loop_step e 0 st) as [[Hret _] | [Hret H1]].
    + destruct (decode_frame_world e st) as [Hreads _]. rewrite Hd in Hreads.
      destruct (IH (state_of (decode_frame e st))) as [fuel Hfuel].
      * rewrite decode_frame_drain_flag. exact Hd.
      * rewrite Hreads. replace (S (num_reads (world st)) + k)%nat
          with (num_reads (world st) + S k)%nat by lia. exact Hend.
      * exists (S fuel).
        destruct (decode_loop_step e fuel st) as [[_ ->] | [Hret' _]]; [|congruence].
        rewrite ret_of_tuple. exact Hfuel.
    + exists 1%nat. rewrite H1. reflexivity.
Qed.

(** The drain loop ends once the engine sets EOS. *)
Lemma draining_loop_terminates (e : Env) (k : nat) :
  forall st,
    drain_mode_enabled (world st) = true ->
    has_flag (snd (imx_vpu_dec_decode e (num_decodes (world st) + k)))
             (IMX_VPU_DEC_OUTPUT_CODE_EOS e) = true ->
    exists fuel, ret_of (decode_loop (decode_frame e) fuel st) = Some RETVAL_EOS.
Proof.
  induction k as [|k IH]; intros st Hd Hend.
  - exists 1%nat. rewrite Nat.add_0_r in Hend.
    assert (Hs : submits e st = true) by (unfold submits; rewrite Hd; reflexivity).
    rewrite decode_loop_unfold, (decode_frame_submits e st Hs), ret_of_tuple.
    unfold step_output_code. rewrite Hend. reflexivity.
  - destruct (decode_loop_step e 0 st) as [[Hret _] | [Hret H1]].
    + destruct (decode_frame_world e st) as [_ Hdec].
      assert (Hs : submits e st = true) by (unfold submits; rewrite Hd; reflexivity).
      rewrite Hs in Hdec.
      destruct (IH (state_of (decode_frame e st))) as [fuel Hfuel].
      * rewrite decode_frame_drain_flag. exact Hd.
      * rewrite Hdec. replace (S (num_decodes (world st)) + k)%nat
          with (num_decodes (world st) + S k)%nat by lia. exact Hend.
      * exists (S fuel).
        destruct (decode_loop_step e fuel st) as [[_ ->] | [Hret' _]]; [|congruence].
        rewrite ret_of_tuple. exact Hfuel.
    + exists 1%nat. rewrite H1. reflexivity.
Qed.

(** With a finite input and an engine that reports EOS when drained, a
    session whose [init] succeeded runs to its end and returns 0. *)
Lemma main_terminates (e : Env) :
  init_failed e = false ->
  source_ends e ->
  engine_drains e ->
  exists fuel, ret_of (main e fuel) = Some 0.
Proof.
  intros Hok [k Hk] Hdrains.
  destruct (init_ok e Hok) as (_ & _ & Hw & _).
  destruct (live_loop_terminates e k (after_init e)) as [fuel1 H1].
  { rewrite Hw. reflexivity. }
  { rewrite Hw. exact Hk. }
  change (decode_loop (decode_frame e) fuel1 (after_init e)) with (first_loop e fuel1) in H1.
  destruct (Hdrains (num_decodes (world (drain_entry e fuel1)))) as [j Hj].
  destruct (draining_loop_terminates e j (drain_entry e fuel1) eq_refl Hj) as [fuel2 H2].
  exists (Nat.max fuel1 fuel2).
  assert (E1 : first_loop e (Nat.max fuel1 fuel2) = first_loop e fuel1).
  { unfold first_loop. apply decode_loop_more_fuel; [lia|].
    change (decode_loop (decode_frame e) fuel1 (state_of (init e initial_state)))
      with (first_loop e fuel1). rewrite H1. discriminate. }
  unfold drain_entry in H2.
  assert (E2 : drain_loop e (Nat.max fuel1 fuel2)
               = decode_loop (decode_frame e) fuel2
                   (enable_drain_mode (state_of (first_loop e fuel1)))).
  { unfold drain_loop. rewrite E1. apply decode_loop_more_fuel; [lia|].
    rewrite H2. discriminate. }
  rewrite main_normal_form, Hok, E1, H1, E2, H2. reflexivity.
Qed.

(** A session that has returned: it returned 0, both loops ended, and its
    calls end with those of [shutdown]. *)
Lemma main_finished (e : Env) (fuel : nat) (code : Z) :
  init_failed e = false ->
  ret_of (main e fuel) = Some code ->
  code = 0 /\
  state_of (main e fuel) = state_of (drain_loop e fuel) /\
  events_of (main e fuel) =
    init_calls e ++ events_of (first_loop e fuel) ++
    E_dec_enable_drain_mode true :: events_of (drain_loop e fuel) ++
    events_of (shutdown (state_of (drain_loop e fuel))).
Proof.
  intros Hok. rewrite main_normal_form, Hok.
  destruct (init_ok e Hok) as (-> & _).
  destruct (ret_of (first_loop e fuel)); tuples; [|discriminate].
  destruct (ret_of (drain_loop e fuel)); tuples; [|discriminate].
  intros H. injection H as <-. repeat split.
Qed.

(** * Exit codes *)

(** C9, as amended: the process exits with code 1 exactly when [init]
    fails, that is when the arguments do not parse or the input or the
    output file cannot be opened; otherwise, whatever the engine open call
    and the buffer allocations returned, it exits with no other code than
    0, and does exit with 0 when the input is finite and the engine
    reports EOS when drained.  Engine open failure and allocation failure
    are not detected and do not lead to exit code 1. *)
Theorem exit_code_of_main (e : Env) :
  (init_succeeds e = false -> forall fuel, ret_of (main e fuel) = Some 1) /\
  (init_succeeds e = true ->
   (forall fuel code, ret_of (main e fuel) = Some code -> code = 0) /\
   (source_ends e -> engine_drains e -> exists fuel, ret_of (main e fuel) = Some 0)).
Proof.
  pose proof (init_failed_iff e) as Hiff. split.
  - intros H fuel. rewrite H in Hiff. rewrite (main_init_failed e fuel Hiff). reflexivity.
  - intros H. rewrite H in Hiff. split.
    + intros fuel code Hret. apply (main_finished e fuel code Hiff Hret).
    + intros Hs Hd. apply main_terminates; assumption.
Qed.

Lemma exit_code_of_main_witness :
  (init_succeeds env_no_input_file = false /\
   ret_of (main env_no_input_file 1) = Some 1) /\
  (init_succeeds env_open_fails = true /\ source_ends env_open_fails /\
   engine_drains env_open_fails /\
   exists fuel, ret_of (main env_open_fails fuel) = Some 0).
Proof.
  assert (Hs : source_ends env_open_fails) by (exists 0%nat; simpl; lia).
  assert (Hd : engine_drains env_open_fails) by (intros d; exists 0%nat; reflexivity).
  split.
  - split; [reflexivity|].
    exact (proj1 (exit_code_of_main env_no_input_file) eq_refl 1%nat).
  - split; [reflexivity|]. split; [exact Hs|]. split; [exact Hd|].
    exact (proj2 (proj2 (exit_code_of_main env_open_fails) eq_refl) Hs Hd).
Defined.

(** C9, as stated, fails: [imx_vpu_dec_open] reports a failure, the
    session goes on and the process exits with code 0. *)
Lemma engine_open_failure_exits_0 :
  ~ fatal_errors_exit_1 env_open_fails 1.
Proof.
  intros H. specialize (H 0 eq_refl).
  assert (Hc : (0 < count is_hard_failure (events_of (main env_open_fails 1)))%nat)
    by (vm_compute; lia).
  specialize (H (or_intror (or_introl Hc))). discriminate.
Qed.

(** * Sessions without initial info *)

(** A relation between the state and the calls made so far that holds
    after [init] and is kept by a decode step and by entering drain mode
    holds when [main] calls [shutdown]. *)
Lemma main_invariant_at_shutdown (e : Env) (J : State -> list event -> Prop) :
  (forall st tr, J st tr ->
     J (state_of (decode_frame e st)) (tr ++ events_of (decode_frame e st))) ->
  (forall st tr, J st tr ->
     J (enable_drain_mode st) (tr ++ [E_dec_enable_drain_mode true])) ->
  J (after_init e) (init_calls e) ->
  forall fuel code,
    init_failed e = false ->
    ret_of (main e fuel) = Some code ->
    exists pre,
      events_of (main e fuel) = pre ++ events_of (shutdown (state_of (main e fuel))) /\
      J (state_of (main e fuel)) pre.
Proof.
  intros Hstep Hdrain Hinit fuel code Hok Hret.
  destruct (main_finished e fuel code Hok Hret) as (_ & -> & ->).
  rewrite main_normal_form, Hok in Hret.
  pose proof (decode_loop_invariant (decode_frame e) J Hstep fuel _ _ Hinit) as H1.
  change (decode_loop (decode_frame e) fuel (after_init e)) with (first_loop e fuel) in H1.
  destruct (ret_of (first_loop e fuel)); [|discriminate].
  pose proof (decode_loop_invariant (decode_frame e) J Hstep fuel _ _ (Hdrain _ _ H1)) as H2.
  change (decode_loop (decode_frame e) fuel
            (enable_drain_mode (state_of (first_loop e fuel))))
    with (drain_loop e fuel) in H2.
  eexists. split; [|exact H2].
  rewrite <- !app_assoc. reflexivity.
Qed.

(** A step whose decode call does not report initial info leaves the pool
    fields alone and makes no call of the pool build. *)
Lemma step_without_initial_info (e : Env) (st : State) :
  has_flag (step_output_code e st)
           (IMX_VPU_DEC_OUTPUT_CODE_INITIAL_INFO_AVAILABLE e) = false ->
  framebuffers (app_data (state_of (decode_frame e st))) = framebuffers (app_data st) /\
  fb_dmabuffers (app_data (state_of (decode_frame e st))) = fb_dmabuffers (app_data st) /\
  num_framebuffers (app_data (state_of (decode_frame e st)))
    = num_framebuffers (app_data st) /\
  filter is_pool_call (events_of (decode_frame e st)) = [].
Proof.
  intros Hno.
  assert (Hentry :
    framebuffers (app_data (step_entry e st)) = framebuffers (app_data st) /\
    fb_dmabuffers (app_data (step_entry e st)) = fb_dmabuffers (app_data st) /\
    num_framebuffers (app_data (step_entry e st)) = num_framebuffers (app_data st)).
  { unfold step_entry. destruct (drain_mode_enabled (world st)).
    - repeat split.
    - destruct (after_read_app e st) as (_ & A2 & A3 & A4 & _). repeat split; assumption. }
  destruct (submits e st) eqn:Hs.
  - rewrite (decode_frame_submits e st Hs). tuples.
    unfold step_pool_state, step_pool_calls, initial_info_step. rewrite Hno.
    cbn [fst snd app_data set_frame_id_counter framebuffers fb_dmabuffers num_framebuffers].
    destruct Hentry as (E1 & E2 & E3). repeat split; try assumption.
    rewrite filter_app. cbn [filter is_pool_call List.app].
    rewrite (filter_disjoint is_read is_pool_call _ (step_prefix_reads e st)) by by_kind.
    apply (filter_disjoint is_output_call is_pool_call _ (output_picture_calls _ _ _ _)).
    by_kind.
  - rewrite (decode_frame_no_unit e st Hs). tuples.
    destruct (after_read_app e st) as (_ & A2 & A3 & A4 & _).
    repeat split; try assumption.
    apply (filter_disjoint is_read); [|by_kind].
    constructor; [apply read_event_is_read | constructor].
Qed.

Lemma decode_frame_keeps (e : Env) (st : State) :
  bitstream_buffer (app_data (state_of (decode_frame e st))) = bitstream_buffer (app_data st) /\
  fin (app_data (state_of (decode_frame e st))) = fin (app_data st) /\
  fout (app_data (state_of (decode_frame e st))) = fout (app_data st).
Proof.
  destruct (submits e st) eqn:Hs.
  - rewrite (decode_frame_submits e st Hs). tuples.
    cbn [app_data set_frame_id_counter bitstream_buffer fin fout].
    destruct (step_pool_state_keeps e st) as (_ & K2 & K3 & K4 & _).
    repeat split; assumption.
  - rewrite (decode_frame_no_unit e st Hs). tuples.
    destruct (after_read_app e st) as (_ & _ & _ & _ & A5 & A6 & A7).
    repeat split; assumption.
Qed.

(** [shutdown] on the zero-initialised pool: nothing to free, no
    framebuffer to deallocate. *)
Lemma shutdown_zero_pool (e : Env) (st : State) :
  zero_pool (app_data st) ->
  bitstream_buffer (app_data st) = bitstream_buffer_of e ->
  fin (app_data st) = true ->
  fout (app_data st) = true ->
  events_of (shutdown st) = shutdown_calls_zero_pool e.
Proof.
  intros (Hf & Hb & Hn) Hbuf Hin Hout.
  unfold shutdown, shutdown_calls_zero_pool. tuples.
  rewrite Hf, Hb, Hn, Hbuf, Hin, Hout. reflexivity.
Qed.

(** * Teardown *)

Lemma deallocate_framebuffers_all (bufs : list dma_buffer_ptr) :
  deallocate_framebuffers bufs (List.length bufs) 0 = map E_dma_buffer_deallocate bufs.
Proof.
  assert (H : forall pre rest,
    deallocate_framebuffers (pre ++ rest) (List.length rest) (List.length pre)
    = map E_dma_buffer_deallocate rest).
  { intros pre rest. revert pre. induction rest as [|b rest IH]; intros pre; [reflexivity|].
    simpl. f_equal.
    - rewrite app_nth2 by lia. rewrite Nat.sub_diag. reflexivity.
    - specialize (IH (pre ++ [b])). rewrite <- app_assoc, length_app in IH.
      simpl in IH. rewrite Nat.add_1_r in IH. exact IH. }
  exact (H [] bufs).
Qed.

(** The loop of [shutdown] never reads outside [fb_dmabuffers]: the array
    has [num_framebuffers] elements after [init] and after every step. *)
Lemma pool_length_invariant (e : Env) (st : State) :
  pool_length_ok (app_data st) ->
  pool_length_ok (app_data (state_of (decode_frame e st))).
Proof.
  unfold pool_length_ok. intros H.
  destruct (has_flag (step_output_code e st)
              (IMX_VPU_DEC_OUTPUT_CODE_INITIAL_INFO_AVAILABLE e)) eqn:Hinit.
  - destruct (submits e st) eqn:Hs.
    + rewrite (decode_frame_submits e st Hs). tuples.
      unfold step_pool_state, initial_info_step. rewrite Hinit.
      destruct (register_pool_spec e (step_entry e st) (num_decodes (world st)))
        as (fbs & bufs & evs & _ & Hb & _ & _ & _ & _ & ->).
      cbn. exact Hb.
    + rewrite (decode_frame_no_unit e st Hs). tuples.
      destruct (after_read_app e st) as (_ & _ & -> & -> & _). exact H.
  - destruct (step_without_initial_info e st Hinit) as (_ & -> & -> & _). exact H.
Qed.

(** X3: a session that returns has called [shutdown] once, at its end, and
    [shutdown] works in a fixed order: engine close, the pool (the
    framebuffer array, each DMA buffer of the pool [AppData] holds, the
    buffer array), the bitstream buffer, engine unload, then the reader and
    the files. *)
Theorem teardown_once_in_order (e : Env) (fuel : nat) (code : Z) :
  init_failed e = false ->
  ret_of (main e fuel) = Some code ->
  exists pre,
    count is_teardown_call pre = 0%nat /\
    events_of (main e fuel) =
      pre
      ++ [E_dec_close;
          E_free (is_null (framebuffers (app_data (state_of (main e fuel)))))]
      ++ map E_dma_buffer_deallocate
           (pool_array (fb_dmabuffers (app_data (state_of (main e fuel)))))
      ++ [E_free (is_null (fb_dmabuffers (app_data (state_of (main e fuel)))));
          E_dma_buffer_deallocate (bitstream_buffer_of e);
          E_dec_unload; E_h264_ctx_cleanup; E_fclose true; E_fclose false].
Proof.
  intros Hok Hret.
  destruct (main_invariant_at_shutdown e
    (fun st tr =>
       pool_length_ok (app_data st) /\
       bitstream_buffer (app_data st) = bitstream_buffer_of e /\
       fin (app_data st) = true /\ fout (app_data st) = true /\
       count is_teardown_call tr = 0%nat))
    with (fuel := fuel) (code := code) as (pre & Hev & HJ); try assumption.
  - intros st tr (Hlen & Hbuf & Hin & Hout & Hc).
    destruct (decode_frame_keeps e st) as (K1 & K2 & K3).
    rewrite K1, K2, K3, count_app, Hc.
    rewrite (count_disjoint is_step_call is_teardown_call _ (step_calls e st)) by by_kind.
    repeat split; try assumption. apply pool_length_invariant. exact Hlen.
  - intros st tr (Hlen & Hbuf & Hin & Hout & Hc).
    rewrite count_app, Hc. repeat split; assumption.
  - destruct (init_ok e Hok) as (_ & _ & _ & I1 & I2 & I3 & I4 & I5 & I6).
    unfold pool_length_ok. rewrite I2, I3. repeat split; assumption.
  - destruct HJ as (Hlen & Hbuf & Hin & Hout & Hc).
    exists pre. split; [exact Hc|]. rewrite Hev. f_equal.
    unfold shutdown. tuples. unfold pool_length_ok in Hlen.
    rewrite <- Hlen, deallocate_framebuffers_all, Hbuf, Hin, Hout. reflexivity.
Qed.

(** C5 fails on the code when initial info is reported twice: the second
    pool build overwrites the pool pointers in [AppData] without releasing
    the first pool, so [shutdown], which runs once and in the fixed
    order, deallocates the second pool's buffer (2) and the bitstream
    buffer (0) but never the first pool's buffer (1). *)
Theorem first_pool_never_released :
  ret_of (main env_two_initial_infos 3) = Some 0 /\
  count is_close (events_of (main env_two_initial_infos 3)) = 1%nat /\
  filter is_allocate (events_of (main env_two_initial_infos 3)) =
    [E_dma_buffer_allocate 1048576 8 (Some 0%nat);
     E_dma_buffer_allocate 448 8 (Some 1%nat);
     E_dma_buffer_allocate 448 8 (Some 2%nat)] /\
  filter is_deallocate (events_of (main env_two_initial_infos 3)) =
    [E_dma_buffer_deallocate (Some 2%nat);
     E_dma_buffer_deallocate (Some 0%nat)] /\
  count is_register (events_of (main env_two_initial_infos 3)) = 2%nat.
Proof.
  repeat split; vm_compute; reflexivity.
Qed.

(** * Frame contexts *)

Lemma submitted_contexts_live (tr : list event) :
  count is_enable_drain tr = 0%nat ->
  submitted_contexts tr = map ef_context (submitted_frames tr).
Proof.
  intros H. unfold submitted_contexts. rewrite (submissions_no_enable false tr H).
  induction (submitted_frames tr) as [|frame frames IH]; [reflexivity|].
  simpl. rewrite IH. reflexivity.
Qed.

Lemma submitted_contexts_drained (tr : list event) :
  count is_enable_drain tr = 0%nat ->
  map (fun s : bool * ImxVpuEncodedFrame => ef_context (snd s))
    (filter (fun s => negb (fst s)) (submissions true tr)) = [].
Proof.
  intros H. rewrite (submissions_no_enable true tr H).
  induction (submitted_frames tr) as [|frame frames IH]; [reflexivity|].
  simpl. exact IH.
Qed.

(** The contexts of the non-drain submissions of a session are those of
    the frames its first loop submits. *)
Lemma main_contexts (e : Env) (fuel : nat) :
  init_failed e = false ->
  submitted_contexts (events_of (main e fuel)) =
    map ef_context (submitted_frames (events_of (first_loop e fuel))).
Proof.
  intros Hok.
  destruct (main_events e fuel Hok)
    as (live & draining & shut & entered & -> & <- & Hl & Hdr & Hs & _).
  assert (Hn : count is_enable_drain (init_calls e ++ live) = 0%nat).
  { rewrite count_app.
    rewrite (count_disjoint is_init_call _ _ (init_calls_init e)) by by_kind.
    rewrite (count_disjoint is_step_call _ _ Hl) by by_kind. reflexivity. }
  assert (Hnd : count is_enable_drain (draining ++ shut) = 0%nat).
  { rewrite count_app.
    rewrite (count_disjoint is_step_call _ _ Hdr) by by_kind.
    rewrite (count_disjoint is_teardown_call _ _ Hs) by by_kind. reflexivity. }
  assert (Hlive : submitted_contexts (init_calls e ++ live)
                  = map ef_context (submitted_frames live)).
  { rewrite (submitted_contexts_live _ Hn), submitted_frames_app.
    rewrite (submitted_frames_none is_init_call _ (init_calls_init e)) by by_kind.
    reflexivity. }
  destruct entered.
  - unfold submitted_contexts in *.
    rewrite (submissions_app _ _ _ Hn), filter_app, map_app, Hlive.
    cbn [submissions]. rewrite (submitted_contexts_drained _ Hnd). apply app_nil_r.
  - rewrite app_nil_r. exact Hlive.
Qed.

Lemma context_number_succ (n : nat) :
  u32 (context_number n + 1) = context_number (S n).
Proof.
  unfold context_number. rewrite u32_succ. f_equal. lia.
Qed.

(** The frames the first loop submits carry the contexts 100, 101, ...
    modulo 2^32, in this order. *)
Lemma first_loop_contexts (e : Env) (fuel : nat) :
  init_failed e = false ->
  map ef_context (submitted_frames (events_of (first_loop e fuel))) =
    map context_number
        (seq 0 (List.length (submitted_frames (events_of (first_loop e fuel))))).
Proof.
  intros Hok.
  pose proof (decode_loop_invariant (decode_frame e)
    (fun st tr =>
       drain_mode_enabled (world st) = false /\
       frame_id_counter (app_data st) = context_number (List.length (submitted_frames tr)) /\
       map ef_context (submitted_frames tr) =
         map context_number (seq 0 (List.length (submitted_frames tr))))) as Hinv.
  destruct (init_ok e Hok) as (_ & Hc & Hw & _).
  destruct (Hinv) with (fuel := fuel) (st := after_init e) (tr := @nil event)
    as (_ & _ & H).
  - intros st tr (Hd & Hcount & Hctx).
    rewrite decode_frame_drain_flag, decode_frame_counter, submitted_frames_app,
      submitted_frames_step.
    destruct (submits e st).
    + rewrite length_app, Nat.add_1_r, seq_S, !map_app, Hctx, Hcount.
      cbn [List.length map Nat.add]. unfold step_frame. rewrite Hd, Hcount.
      cbn [ef_context input_frame]. rewrite context_number_succ.
      repeat split; assumption.
    + rewrite app_nil_r. repeat split; assumption.
  - rewrite Hw, Hc. repeat split.
  - exact H.
Qed.

Lemma context_number_small (i : nat) :
  Z.of_nat i < UINT_MODULUS - 100 -> context_number i = 100 + Z.of_nat i.
Proof.
  intros H. unfold context_number. apply u32_small. unfold UINT_MODULUS in *. lia.
Qed.

Lemma context_numbers_sorted (n start : nat) :
  Z.of_nat (start + n) <= UINT_MODULUS - 100 ->
  StronglySorted Z.lt (map context_number (seq start n)).
Proof.
  revert start. induction n as [|n IH]; intros start H; simpl.
  - constructor.
  - constructor.
    + apply IH. lia.
    + apply Forall_forall. intros c Hin. apply in_map_iff in Hin.
      destruct Hin as (j & <- & Hj). apply in_seq in Hj.
      rewrite !context_number_small by lia. lia.
Qed.

Lemma sorted_NoDup (l : list Z) : StronglySorted Z.lt l -> NoDup l.
Proof.
  intros H. induction H as [|c l _ IH Hall]; constructor; [|exact IH].
  intros Hin. rewrite Forall_forall in Hall. specialize (Hall c Hin). lia.
Qed.

(** C6, as amended: the contexts attached to the non-drain submissions of
    a session are 100, 101, 102, ... taken modulo 2^32, in submission
    order; so as long as the session has made at most 2^32 - 100 of them
    they are strictly increasing, pairwise distinct and non-zero.  The
    counter is an [unsigned int]: submission number 2^32 - 100 (from 0)
    carries context 0. *)
Theorem frame_contexts_increase_until_wrap (e : Env) (fuel : nat) :
  let contexts := submitted_contexts (events_of (main e fuel)) in
  contexts = map context_number (seq 0 (List.length contexts)) /\
  (Z.of_nat (List.length contexts) <= UINT_MODULUS - 100 ->
   StronglySorted Z.lt contexts /\ NoDup contexts /\ Forall (fun c => c <> 0) contexts).
Proof.
  cbv zeta.
  assert (Heq : submitted_contexts (events_of (main e fuel)) =
                map context_number
                  (seq 0 (List.length (submitted_contexts (events_of (main e fuel)))))).
  { destruct (init_failed e) eqn:Hok.
    - rewrite (main_init_failed e fuel Hok), events_of_tuple.
      pose proof (init_events_init e) as Hi.
      rewrite submitted_contexts_live
        by (apply (count_disjoint is_init_call _ _ Hi); by_kind).
      rewrite (submitted_frames_none is_init_call _ Hi) by by_kind. reflexivity.
    - rewrite (main_contexts e fuel Hok), length_map. apply first_loop_contexts. exact Hok. }
  split; [exact Heq|].
  intros Hlen.
  assert (Hsorted : StronglySorted Z.lt (submitted_contexts (events_of (main e fuel)))).
  { rewrite Heq. apply context_numbers_sorted. exact Hlen. }
  split; [exact Hsorted|]. split; [apply sorted_NoDup; exact Hsorted|].
  rewrite Heq. apply Forall_forall. intros c Hin. apply in_map_iff in Hin.
  destruct Hin as (j & <- & Hj). apply in_seq in Hj.
  rewrite context_number_small by lia. lia.
Qed.

Lemma frame_contexts_increase_until_wrap_witness :
  submitted_contexts (events_of (main env_three_units 5)) = [100; 101; 102] /\
  StronglySorted Z.lt (submitted_contexts (events_of (main env_three_units 5))) /\
  NoDup (submitted_contexts (events_of (main env_three_units 5))) /\
  Forall (fun c => c <> 0) (submitted_contexts (events_of (main env_three_units 5))).
Proof.
  split; [reflexivity|].
  apply (proj2 (frame_contexts_increase_until_wrap env_three_units 5)).
  vm_compute. discriminate.
Defined.

(** The first loop on an input of [n] access units that the engine does
    not end: with [r] units left it submits one frame per iteration, [r]
    at most, and ends on the read after the last unit. *)
Lemma long_loop (e : Env) (n : nat) :
  input_of_length e n ->
  eos_at e n ->
  forall r fuel st,
    drain_mode_enabled (world st) = false ->
    (num_reads (world st) + r = n)%nat ->
    (num_decodes (world st) + r = n)%nat ->
    List.length (submitted_frames (events_of (decode_loop (decode_frame e) fuel st)))
      = Nat.min fuel r /\
    ((r < fuel)%nat ->
     ret_of (decode_loop (decode_frame e) fuel st) = Some RETVAL_EOS /\
     num_decodes (world (state_of (decode_loop (decode_frame e) fuel st))) = n).
Proof.
  intros [Hunits Hlast] [Hne _].
  induction r as [|r IH]; intros fuel st Hd Hr Hdec.
  - rewrite Nat.add_0_r in Hr, Hdec. rewrite Nat.min_0_r.
    destruct fuel as [|fuel]; [split; [reflexivity | lia]|].
    assert (Hs : submits e st = false).
    { unfold submits, no_access_unit. rewrite Hd, Hr.
      destruct (h264_ctx_read_access_unit e n) as [[ok s] en].
      apply Z.leb_le in Hlast. rewrite Hlast. reflexivity. }
    rewrite decode_loop_unfold, (decode_frame_no_unit e st Hs). tuples.
    split.
    + apply length_zero_iff_nil. apply (submitted_frames_none is_read); [|by_kind].
      constructor; [apply read_event_is_read | constructor].
    + intros _. split; [reflexivity|].
      destruct (after_read_world e st) as (_ & _ & -> & _). exact Hdec.
  - destruct fuel as [|fuel]; [split; [reflexivity | lia]|].
    assert (Hk : (num_reads (world st) < n)%nat) by lia.
    assert (Hs : submits e st = true).
    { unfold submits, no_access_unit. rewrite Hd. specialize (Hunits _ Hk).
      destruct (h264_ctx_read_access_unit e (num_reads (world st))) as [[ok s] en].
      destruct Hunits as [_ Hlt]. apply Z.leb_gt in Hlt. rewrite Hlt. reflexivity. }
    assert (Hret : ret_of (decode_frame e st) = RETVAL_OK).
    { rewrite (decode_frame_submits e st Hs), ret_of_tuple.
      unfold step_output_code. rewrite Hne by lia. unfold step_ok, read_ok. rewrite Hd.
      specialize (Hunits _ Hk).
      destruct (h264_ctx_read_access_unit e (num_reads (world st))) as [[ok s] en].
      destruct Hunits as [-> _]. reflexivity. }
    destruct (decode_frame_world e st) as [Hreads Hdecs]. rewrite Hd in Hreads.
    rewrite Hs in Hdecs.
    destruct (IH fuel (state_of (decode_frame e st))) as [I1 I2].
    { rewrite decode_frame_drain_flag. exact Hd. }
    { rewrite Hreads. lia. }
    { rewrite Hdecs. lia. }
    destruct (decode_loop_step e fuel st) as [[_ ->] | [Hret' _]]; [|congruence].
    tuples. rewrite submitted_frames_app, length_app, submitted_frames_step, Hs, I1.
    split; [reflexivity|]. intros Hlt. apply I2. lia.
Qed.

Lemma long_input_env_input (n : nat) : input_of_length (long_input_env n) n.
Proof.
  split.
  - intros k Hk.
    change (h264_ctx_read_access_unit (long_input_env n) k) with (access_units n k).
    unfold access_units. destruct (Nat.ltb_spec k n); [|lia]. split; [reflexivity | lia].
  - change (h264_ctx_read_access_unit (long_input_env n) n) with (access_units n n).
    unfold access_units. rewrite Nat.ltb_irrefl. lia.
Qed.

Lemma long_input_env_eos (n : nat) : eos_at (long_input_env n) n.
Proof.
  split.
  - intros d Hd.
    change (snd (imx_vpu_dec_decode (long_input_env n) d))
      with (if (d <? n)%nat then 0 else 2).
    destruct (Nat.ltb_spec d n); [reflexivity | lia].
  - change (snd (imx_vpu_dec_decode (long_input_env n) n))
      with (if (n <? n)%nat then 0 else 2).
    rewrite Nat.ltb_irrefl. reflexivity.
Qed.

(** The session on the file of [n] access units runs to its end within
    [n + 1] iterations per loop, and its non-drain submissions carry the
    contexts number 0 to [n - 1]. *)
Lemma long_session (n : nat) :
  ret_of (main (long_input_env n) (S n)) = Some 0 /\
  submitted_contexts (events_of (main (long_input_env n) (S n)))
    = map context_number (seq 0 n).
Proof.
  assert (Hok : init_failed (long_input_env n) = false) by reflexivity.
  destruct (init_ok _ Hok) as (_ & _ & Hw & _).
  destruct (long_loop _ n (long_input_env_input n) (long_input_env_eos n)
              n (S n) (after_init (long_input_env n))) as [Hlen Hend].
  { rewrite Hw. reflexivity. }
  { rewrite Hw. reflexivity. }
  { rewrite Hw. reflexivity. }
  change (decode_loop (decode_frame (long_input_env n)) (S n) (after_init (long_input_env n)))
    with (first_loop (long_input_env n) (S n)) in Hlen, Hend.
  destruct Hend as [Hret Hdec]; [lia|].
  split.
  - set (st := enable_drain_mode (state_of (first_loop (long_input_env n) (S n)))).
    assert (Hs : submits (long_input_env n) st = true) by reflexivity.
    assert (H1 : ret_of (decode_loop (decode_frame (long_input_env n)) 1 st)
                 = Some RETVAL_EOS).
    { rewrite decode_loop_unfold, (decode_frame_submits _ st Hs), ret_of_tuple.
      unfold step_output_code.
      change (num_decodes (world st))
        with (num_decodes (world (state_of (first_loop (long_input_env n) (S n))))).
      rewrite Hdec. rewrite (proj2 (long_input_env_eos n)). reflexivity. }
    rewrite main_normal_form, Hok, Hret. unfold drain_loop. fold st.
    rewrite (decode_loop_more_fuel _ 1 (S n)); [|lia|rewrite H1; discriminate].
    rewrite H1. reflexivity.
  - rewrite (main_contexts _ _ Hok), (first_loop_contexts _ _ Hok), Hlen.
    rewrite Nat.min_r by lia. reflexivity.
Qed.

Lemma long_session_reaches_zero (n : nat) :
  (Z.to_nat 4294967196 < n)%nat -> ~ contexts_increasing (long_input_env n) (S n).
Proof.
  intros Hlt [_ Hnz]. rewrite (proj2 (long_session n)) in Hnz.
  rewrite Forall_forall in Hnz. apply (Hnz 0); [|reflexivity].
  apply in_map_iff. exists (Z.to_nat 4294967196). split.
  - unfold context_number. rewrite Z2Nat.id by lia. reflexivity.
  - apply in_seq. lia.
Qed.

(** C6, as stated, fails: the counter is an [unsigned int] that starts at
    100, so on an input file of 2^32 - 99 access units, which the session
    decodes to its end, the submission number 2^32 - 100 carries context
    0, which is neither non-zero nor above its predecessor 2^32 - 1. *)
Lemma context_wraps_to_zero :
  ~ contexts_increasing env_long_input (S wrapping_length).
Proof.
  apply long_session_reaches_zero. unfold wrapping_length. apply Z2Nat.inj_lt; lia.
Qed.

(** * The command line *)

Lemma parse_args_options_spec (opts : list (ascii * string)) :
  forall i o,
    fst (fst (parse_args_options opts i o)) = forallb is_known_option opts /\
    (forallb is_known_option opts = true ->
     snd (fst (parse_args_options opts i o)) =
       match last_optarg "i" opts with Some s => Some s | None => i end /\
     snd (parse_args_options opts i o) =
       match last_optarg "o" opts with Some s => Some s | None => o end).
Proof.
  induction opts as [|[opt optarg] rest IH]; intros i o.
  - split; [reflexivity|]. intros _. split; reflexivity.
  - cbn [parse_args_options forallb last_optarg].
    change (is_known_option (opt, optarg)) with (Ascii.eqb opt "i" || Ascii.eqb opt "o").
    destruct (Ascii.eqb_spec opt "i") as [-> | Hi].
    + cbn. destruct (IH (Some optarg) o) as [I1 I2]. split; [exact I1|].
      intros H. destruct (I2 H) as [-> ->].
      destruct (last_optarg "i" rest), (last_optarg "o" rest); split; reflexivity.
    + destruct (Ascii.eqb_spec opt "o") as [-> | Ho].
      * cbn. destruct (IH i (Some optarg)) as [I1 I2]. split; [exact I1|].
        intros H. destruct (I2 H) as [-> ->].
        destruct (last_optarg "i" rest), (last_optarg "o" rest); split; reflexivity.
      * cbn. split; [reflexivity | discriminate].
Qed.

(** X1: [parse_args] accepts the command line exactly when every option
    getopt reports is [-i] or [-o] and both occur; it then leaves in [infn]
    and [outfn] the argument of the last [-i] and of the last [-o]. *)
Theorem parse_args_accepts (e : Env) :
  fst (parse_args e zero_app_data) =
    forallb is_known_option (getopt e)
    && negb (is_null (last_optarg "i" (getopt e)))
    && negb (is_null (last_optarg "o" (getopt e))) /\
  (fst (parse_args e zero_app_data) = true ->
   infn (snd (parse_args e zero_app_data)) = last_optarg "i" (getopt e) /\
   outfn (snd (parse_args e zero_app_data)) = last_optarg "o" (getopt e)).
Proof.
  unfold parse_args. cbn [infn outfn zero_app_data].
  destruct (parse_args_options_spec (getopt e) None None) as [H1 H2].
  destruct (parse_args_options (getopt e) None None) as [[ok i] o]. cbn [fst snd] in *.
  subst ok. destruct (forallb is_known_option (getopt e)).
  - destruct (H2 eq_refl) as [-> ->].
    destruct (last_optarg "i" (getopt e)), (last_optarg "o" (getopt e));
      cbn; split; try reflexivity; try discriminate.
    intros _. split; reflexivity.
  - cbn. split; [reflexivity | discriminate].
Qed.

Lemma parse_args_accepts_witness :
  fst (parse_args env_input_named_twice zero_app_data) = true /\
  infn (snd (parse_args env_input_named_twice zero_app_data)) = Some "c.h264"%string.
Proof.
  split; [reflexivity|].
  exact (proj1 (proj2 (parse_args_accepts env_input_named_twice) eq_refl)).
Defined.

(** * A failing [init] *)

(** X2: when [init] fails, [main] returns 1 without having called the
    decoder library or its allocator and without calling [shutdown], and
    the files it has closed are exactly the files it had opened: none when
    the arguments are rejected or the input file does not open, and the
    input file, which [init] closes itself, when the output file does not
    open. *)
Theorem failed_init_leaves_nothing_open (e : Env) (fuel : nat) :
  init_succeeds e = false ->
  ret_of (main e fuel) = Some 1 /\
  count is_vpu_call (events_of (main e fuel)) = 0%nat /\
  count is_close (events_of (main e fuel)) = 0%nat /\
  closed_files (events_of (main e fuel)) = opened_files (events_of (main e fuel)) /\
  opened_files (events_of (main e fuel)) =
    (if fst (parse_args e zero_app_data) && fopen_in_ok e then [false] else []).
Proof.
  intros H. pose proof (init_failed_iff e) as Hiff. rewrite H in Hiff.
  rewrite (main_init_failed e fuel Hiff). tuples. split; [reflexivity|].
  unfold init_succeeds in H. unfold init, events_of, initial_state. cbn [app_data].
  destruct (parse_args e zero_app_data) as [parsed a0]. cbn [fst] in *.
  destruct parsed; cbn; [|repeat split].
  destruct (fopen_in_ok e); cbn; [|repeat split].
  destruct (fopen_out_ok e); cbn; [discriminate|repeat split].
Qed.

Lemma failed_init_leaves_nothing_open_witness :
  init_succeeds env_no_output_file = false /\
  opened_files (events_of (main env_no_output_file 1)) = [false] /\
  closed_files (events_of (main env_no_output_file 1)) = [false].
Proof.
  split; [reflexivity|].
  destruct (failed_init_leaves_nothing_open env_no_output_file 1 eq_refl)
    as (_ & _ & _ & H1 & H2).
  split; [exact H2|]. rewrite H1. exact H2.
Defined.

Lemma teardown_once_in_order_witness :
  ret_of (main env_three_units 5) = Some 0 /\
  exists pre,
    count is_teardown_call pre = 0%nat /\
    events_of (main env_three_units 5) =
      pre
      ++ [E_dec_close; E_free false;
          E_dma_buffer_deallocate (Some 1%nat); E_dma_buffer_deallocate (Some 2%nat);
          E_free false; E_dma_buffer_deallocate (Some 0%nat);
          E_dec_unload; E_h264_ctx_cleanup; E_fclose true; E_fclose false].
Proof.
  split; [reflexivity|].
  exact (teardown_once_in_order env_three_units 5 0 eq_refl eq_refl).
Defined.

(** * Properties of every call list of [main] *)

(** A property of call lists that holds of the calls of [init] and is
    kept when the calls of a decode step, of entering drain mode or of
    [shutdown] are appended holds of the calls of [main]. *)
Lemma main_calls_invariant (e : Env) (P : list event -> Prop) :
  P (events_of (init e initial_state)) ->
  (forall st tr, P tr -> P (tr ++ events_of (decode_frame e st))) ->
  (forall tr, P tr -> P (tr ++ [E_dec_enable_drain_mode true])) ->
  (forall st tr, P tr -> P (tr ++ events_of (shutdown st))) ->
  forall fuel, P (events_of (main e fuel)).
Proof.
  intros Hinit Hstep Hdrain Hshut fuel.
  destruct (init_failed e) eqn:Hok.
  - rewrite (main_init_failed e fuel Hok). tuples. exact Hinit.
  - apply (main_invariant e (fun _ tr => P tr)); auto.
Qed.

(** Counting, in the calls of a step, a kind of call that only the pool
    build makes. *)
Lemma count_pool_call_step (p : event -> bool) (e : Env) (st : State) :
  (forall ev, is_read ev = true -> p ev = false) ->
  (forall ev, is_decode ev = true -> p ev = false) ->
  (forall ev, is_output_call ev = true -> p ev = false) ->
  count p (events_of (decode_frame e st)) =
    if submits e st then count p (step_pool_calls e st) else 0%nat.
Proof.
  intros Hr Hd Ho. destruct (submits e st) eqn:Hs.
  - rewrite (decode_frame_submits e st Hs). tuples.
    rewrite count_app, count_cons, count_app.
    rewrite (count_disjoint is_read p _ (step_prefix_reads e st) Hr).
    rewrite (count_disjoint is_output_call p _ (output_picture_calls _ _ _ _) Ho).
    rewrite (Hd (E_dec_decode _ _ _) eq_refl). lia.
  - rewrite (decode_frame_no_unit e st Hs). tuples.
    rewrite count_cons, (Hr _ (read_event_is_read e st)). reflexivity.
Qed.

(** The allocation loop in closed form. *)
Lemma allocate_framebuffers_closed (e : Env) (size alignment : Z) (k : nat) :
  forall (i : Z) (next : nat),
    allocate_framebuffers e size alignment k i next =
      (map (pool_slot e next i) (seq 0 k),
       map (allocation_result e) (seq next k),
       (next + k)%nat,
       flat_map (pool_slot_calls e size alignment next i) (seq 0 k)).
Proof.
  induction k as [|k IH]; intros i next.
  - simpl. rewrite Nat.add_0_r. reflexivity.
  - cbn [allocate_framebuffers]. rewrite IH.
    cbn [seq map flat_map]. rewrite <- (seq_shift k 0).
    assert (Hfm : forall (g : nat -> list event) l,
              flat_map g (map S l) = flat_map (fun j => g (S j)) l).
    { intros g l. induction l as [|a l IHl]; simpl; congruence. }
    rewrite map_map, Hfm.
    assert (Hslot : forall j, pool_slot e next i (S j) = pool_slot e (S next) (i + 1) j).
    { intros j. unfold pool_slot. rewrite Nat.add_succ_r, Nat2Z.inj_succ.
      do 3 f_equal. lia. }
    assert (Hcalls : forall j, pool_slot_calls e size alignment next i (S j)
                               = pool_slot_calls e size alignment (S next) (i + 1) j).
    { intros j. unfold pool_slot_calls. rewrite Nat.add_succ_r, Nat2Z.inj_succ.
      replace (i + Z.succ (Z.of_nat j)) with (i + 1 + Z.of_nat j) by lia. reflexivity. }
    rewrite (map_ext _ _ Hslot), (flat_map_ext _ _ Hcalls).
    assert (H0 : pool_slot e next i 0 =
                 {| fb_dma_buffer := allocation_result e next;
                    fb_context := u32 (8192 + i) |}).
    { unfold pool_slot. rewrite Nat.add_0_r, Z.add_0_r. reflexivity. }
    assert (H1 : pool_slot_calls e size alignment next i 0 =
                 [E_dma_buffer_allocate size alignment (allocation_result e next);
                  E_dec_fill_framebuffer_params i (allocation_result e next)
                    (u32 (8192 + i))]).
    { unfold pool_slot_calls. rewrite Nat.add_0_r, Z.add_0_r. reflexivity. }
    rewrite H0, H1, Nat.add_succ_r. reflexivity.
Qed.

Lemma pool_slot_calls_allocation (e : Env) (size alignment : Z) (first : nat) (i : Z)
    (l : list nat) :
  Forall (fun ev => is_allocation_call ev = true)
    (flat_map (pool_slot_calls e size alignment first i) l).
Proof.
  induction l as [|j l IH]; simpl; repeat constructor. exact IH.
Qed.

(** The pool build in closed form: the state it leaves and its calls. *)
Lemma register_pool_closed (e : Env) (st : State) (d : nat) :
  let info := snd (imx_vpu_dec_get_initial_info e d) in
  let sizes := imx_vpu_dec_calc_framebuffer_sizes e info in
  let num := min_num_required_framebuffers info in
  let first := num_allocs (world st) in
  register_pool e st d =
    ({| app_data := set_pool (app_data st) info sizes num
                      (map (pool_slot e first 0) (seq 0 (Z.to_nat num)))
                      (map (allocation_result e) (seq first (Z.to_nat num)));
        world := {| drain_mode_enabled := drain_mode_enabled (world st);
                    num_reads := num_reads (world st);
                    num_decodes := num_decodes (world st);
                    num_allocs := (first + Z.to_nat num)%nat |} |},
     [E_dec_get_initial_info (fst (imx_vpu_dec_get_initial_info e d)) info;
      E_dec_calc_framebuffer_sizes; E_malloc num; E_malloc num]
     ++ flat_map (pool_slot_calls e (total_size sizes) (framebuffer_alignment info) first 0)
          (seq 0 (Z.to_nat num))
     ++ [E_dec_register_framebuffers (map (pool_slot e first 0) (seq 0 (Z.to_nat num))) num
           (imx_vpu_dec_register_framebuffers e d)]).
Proof.
  unfold register_pool.
  destruct (imx_vpu_dec_get_initial_info e d) as [ret info]. cbn [fst snd].
  rewrite allocate_framebuffers_closed. reflexivity.
Qed.

Lemma count_step_pool_calls (e : Env) (st : State) :
  let n := if has_flag (step_output_code e st)
                (IMX_VPU_DEC_OUTPUT_CODE_INITIAL_INFO_AVAILABLE e)
           then 1%nat else 0%nat in
  count is_register (step_pool_calls e st) = n /\
  count is_get_initial_info (step_pool_calls e st) = n /\
  count is_malloc (step_pool_calls e st) = (2 * n)%nat.
Proof.
  unfold step_pool_calls, initial_info_step. destruct (has_flag _ _).
  - rewrite register_pool_closed. cbn [snd].
    rewrite !count_app, !count_cons.
    rewrite (count_disjoint is_allocation_call is_register _
               (pool_slot_calls_allocation _ _ _ _ _ _)) by by_kind.
    rewrite (count_disjoint is_allocation_call is_get_initial_info _
               (pool_slot_calls_allocation _ _ _ _ _ _)) by by_kind.
    rewrite (count_disjoint is_allocation_call is_malloc _
               (pool_slot_calls_allocation _ _ _ _ _ _)) by by_kind.
    repeat split.
  - repeat split.
Qed.

Lemma count_initial_info_step (e : Env) (st : State) :
  count (is_decode_with (IMX_VPU_DEC_OUTPUT_CODE_INITIAL_INFO_AVAILABLE e))
    (events_of (decode_frame e st)) =
    if submits e st
    then (if has_flag (step_output_code e st)
               (IMX_VPU_DEC_OUTPUT_CODE_INITIAL_INFO_AVAILABLE e)
          then 1%nat else 0%nat)
    else 0%nat.
Proof.
  destruct (submits e st) eqn:Hs.
  - rewrite (decode_frame_submits e st Hs). tuples.
    rewrite count_app, count_cons, count_app.
    rewrite (count_disjoint is_read _ _ (step_prefix_reads e st)) by by_kind.
    rewrite (count_disjoint is_pool_call _ _ (step_pool_calls_pool e st)) by by_kind.
    rewrite (count_disjoint is_output_call (is_decode_with _) _
               (output_picture_calls _ _ _ _)) by by_kind.
    cbn [is_decode_with]. lia.
  - rewrite (decode_frame_no_unit e st Hs). tuples.
    rewrite count_cons, count_nil.
    pose proof (read_event_is_read e st) as H.
    destruct (read_event e st); try discriminate. reflexivity.
Qed.

(** X4: in every session run, the framebuffer pool is registered exactly
    once per INITIAL_INFO_AVAILABLE event, first or later: there are as
    many registration calls, and as many initial-info queries, as decode
    calls whose output code has the flag, and twice as many array
    allocations. *)
Theorem registration_once_per_initial_info (e : Env) (fuel : nat) :
  let n := count (is_decode_with (IMX_VPU_DEC_OUTPUT_CODE_INITIAL_INFO_AVAILABLE e))
             (events_of (main e fuel)) in
  count is_register (events_of (main e fuel)) = n /\
  count is_get_initial_info (events_of (main e fuel)) = n /\
  count is_malloc (events_of (main e fuel)) = (2 * n)%nat.
Proof.
  cbv zeta. apply (main_calls_invariant e (fun tr =>
    count is_register tr
      = count (is_decode_with (IMX_VPU_DEC_OUTPUT_CODE_INITIAL_INFO_AVAILABLE e)) tr /\
    count is_get_initial_info tr
      = count (is_decode_with (IMX_VPU_DEC_OUTPUT_CODE_INITIAL_INFO_AVAILABLE e)) tr /\
    count is_malloc tr
      = (2 * count (is_decode_with (IMX_VPU_DEC_OUTPUT_CODE_INITIAL_INFO_AVAILABLE e)) tr)%nat)).
  - pose proof (init_events_init e) as Hi.
    rewrite (count_disjoint is_init_call is_register _ Hi) by by_kind.
    rewrite (count_disjoint is_init_call is_get_initial_info _ Hi) by by_kind.
    rewrite (count_disjoint is_init_call is_malloc _ Hi) by by_kind.
    rewrite (count_disjoint is_init_call (is_decode_with _) _ Hi) by by_kind.
    repeat split.
  - intros st tr (H1 & H2 & H3). rewrite !count_app, H1, H2, H3.
    rewrite (count_pool_call_step is_register e st) by by_kind.
    rewrite (count_pool_call_step is_get_initial_info e st) by by_kind.
    rewrite (count_pool_call_step is_malloc e st) by by_kind.
    rewrite count_initial_info_step.
    destruct (count_step_pool_calls e st) as (C1 & C2 & C3).
    destruct (submits e st); [rewrite C1, C2, C3|]; repeat split; lia.
  - intros tr (H1 & H2 & H3). rewrite !count_app, H1, H2, H3. cbn. repeat split; lia.
  - intros st tr (H1 & H2 & H3). rewrite !count_app, H1, H2, H3.
    rewrite (count_disjoint is_teardown_call is_register _ (shutdown_calls st)) by by_kind.
    rewrite (count_disjoint is_teardown_call is_get_initial_info _ (shutdown_calls st))
      by by_kind.
    rewrite (count_disjoint is_teardown_call is_malloc _ (shutdown_calls st)) by by_kind.
    rewrite (count_disjoint is_teardown_call (is_decode_with _) _ (shutdown_calls st))
      by by_kind.
    repeat split; lia.
Qed.

(** * The slots of a pool *)

(** X5: a pool build leaves in [AppData] a pool of
    [min_num_required_framebuffers] slots in which slot number j carries
    the context 0x2000 + j (modulo 2^32), whatever the frame id counter
    is, and the DMA buffer that the j-th allocation of the build returned;
    [fb_dmabuffers] holds the same buffers in the same order, and the
    allocations of the build are consecutive calls of the allocator. *)
Theorem pool_slots_are_tagged_in_order (e : Env) (st : State) (output_code : Z) :
  output_code_of (events_of (decode_frame e st)) = Some output_code ->
  has_flag output_code (IMX_VPU_DEC_OUTPUT_CODE_INITIAL_INFO_AVAILABLE e) = true ->
  let num := min_num_required_framebuffers (step_initial_info e st) in
  let a := app_data (state_of (decode_frame e st)) in
  exists fbs,
    framebuffers a = Some fbs /\
    fb_dmabuffers a = Some (map fb_dma_buffer fbs) /\
    num_framebuffers a = num /\
    List.length fbs = Z.to_nat num /\
    map fb_context fbs = map (fun j => u32 (8192 + Z.of_nat j)) (seq 0 (Z.to_nat num)) /\
    map fb_dma_buffer fbs
      = map (allocation_result e) (seq (num_allocs (world st)) (Z.to_nat num)) /\
    num_allocs (world (state_of (decode_frame e st)))
      = (num_allocs (world st) + Z.to_nat num)%nat.
Proof.
  intros Hoc Hinit. cbv zeta.
  rewrite output_code_of_step in Hoc.
  destruct (submits e st) eqn:Hs; [|discriminate]. injection Hoc as <-.
  rewrite (decode_frame_submits e st Hs). tuples.
  unfold step_pool_state, initial_info_step. rewrite Hinit, register_pool_closed.
  cbn [fst app_data world set_pool set_frame_id_counter framebuffers fb_dmabuffers
       num_framebuffers num_allocs].
  assert (Ha : num_allocs (world (step_entry e st)) = num_allocs (world st)).
  { unfold step_entry. destruct (drain_mode_enabled (world st)); [reflexivity|].
    apply after_read_world. }
  rewrite Ha. unfold step_initial_info.
  set (n := Z.to_nat _).
  exists (map (pool_slot e (num_allocs (world st)) 0) (seq 0 n)).
  assert (Hbufs : map fb_dma_buffer (map (pool_slot e (num_allocs (world st)) 0) (seq 0 n))
                  = map (allocation_result e) (seq (num_allocs (world st)) n)).
  { rewrite map_map. generalize (num_allocs (world st)) as first.
    induction n as [|k IH]; intros first; [reflexivity|].
    rewrite !seq_S, !map_app, IH. reflexivity. }
  repeat split.
  - rewrite Hbufs. reflexivity.
  - rewrite length_map, length_seq. reflexivity.
  - rewrite map_map. apply map_ext. intros j. reflexivity.
  - exact Hbufs.
Qed.

Lemma pool_slots_are_tagged_in_order_witness :
  framebuffers
    (app_data (state_of (decode_frame env_three_units (after_init env_three_units))))
  = Some [ {| fb_dma_buffer := Some 1%nat; fb_context := 8192 |};
           {| fb_dma_buffer := Some 2%nat; fb_context := 8193 |} ] /\
  exists fbs,
    framebuffers
      (app_data (state_of (decode_frame env_three_units (after_init env_three_units))))
    = Some fbs /\
    map fb_context fbs = [8192; 8193].
Proof.
  split; [reflexivity|].
  destruct (pool_slots_are_tagged_in_order env_three_units (after_init env_three_units)
              64 eq_refl eq_refl) as (fbs & H1 & _ & _ & _ & H5 & _).
  exists fbs. split; [exact H1 | exact H5].
Defined.

(** * Delivery of a picture *)

Lemma dma_buffer_ptr_eqb_refl (b : dma_buffer_ptr) : dma_buffer_ptr_eqb b b = true.
Proof.
  destruct b; [apply Nat.eqb_refl | reflexivity].
Qed.

Lemma replay_delivery_app (s : delivery) (a b : list event) :
  replay_delivery s (a ++ b) =
    match replay_delivery s a with
    | Some s' => replay_delivery s' b
    | None => None
    end.
Proof.
  revert s. induction a as [|ev a IH]; intros s; [reflexivity|].
  destruct ev; simpl; try apply IH; destruct s; try apply IH; try reflexivity.
  - destruct (dma_buffer_ptr_eqb buffer (fb_dma_buffer fb)); [apply IH | reflexivity].
  - destruct (dma_buffer_ptr_eqb buffer (fb_dma_buffer fb)); [apply IH | reflexivity].
  - destruct (ImxVpuFramebuffer_eqb fb fb0); [apply IH | reflexivity].
Qed.

Lemma replay_delivery_skip (q : event -> bool) (s : delivery) (tr : list event) :
  Forall (fun ev => q ev = true) tr ->
  (forall ev, q ev = true -> is_delivery_call ev = false) ->
  replay_delivery s tr = Some s.
Proof.
  intros Hall Hq. induction Hall as [|ev tr Hev _ IH]; [reflexivity|].
  specialize (Hq ev Hev). destruct ev; simpl in *; try exact IH; discriminate.
Qed.

Lemma replay_delivery_step (e : Env) (st : State) :
  replay_delivery Idle (events_of (decode_frame e st)) = Some Idle.
Proof.
  destruct (submits e st) eqn:Hs.
  - rewrite (decode_frame_submits e st Hs). tuples.
    rewrite replay_delivery_app.
    rewrite (replay_delivery_skip is_read _ _ (step_prefix_reads e st)) by by_kind.
    cbn [replay_delivery]. rewrite replay_delivery_app.
    rewrite (replay_delivery_skip is_pool_call _ _ (step_pool_calls_pool e st)) by by_kind.
    unfold output_picture. destruct (has_flag _ _).
    + destruct (imx_vpu_dec_get_decoded_picture e _) as [ret picture].
      cbn [replay_delivery].
      rewrite dma_buffer_ptr_eqb_refl, ImxVpuFramebuffer_eqb_refl. reflexivity.
    + destruct (has_flag _ _); reflexivity.
  - rewrite (decode_frame_no_unit e st Hs). tuples.
    apply (replay_delivery_skip is_read); [|by_kind].
    constructor; [apply read_event_is_read | constructor].
Qed.

Lemma count_fwrite_step (e : Env) (st : State) :
  count is_fwrite (events_of (decode_frame e st)) =
  count (is_decode_with (IMX_VPU_DEC_OUTPUT_CODE_DECODED_PICTURE_AVAILABLE e))
    (events_of (decode_frame e st)).
Proof.
  destruct (count_picture_calls_step e st) as (<- & _ & _).
  rewrite (count_output_call_step is_fwrite) by by_kind.
  rewrite (count_output_call_step is_get_decoded_picture) by by_kind.
  destruct (submits e st); [|reflexivity].
  unfold output_picture. destruct (has_flag _ _).
  - destruct (imx_vpu_dec_get_decoded_picture e _). reflexivity.
  - destruct (has_flag _ _); reflexivity.
Qed.

(** X6: in every session run the output file is written exactly once per
    DECODED_PICTURE_AVAILABLE event, and every picture is delivered in the
    same order of calls: the picture is fetched while none is in hand, the
    DMA buffer of the slot it names, and no other, is mapped, the output
    is written once, that same buffer is unmapped, and only then that same
    slot is marked displayed; no delivery is left unfinished by a step. *)
Theorem output_written_while_mapped (e : Env) (fuel : nat) :
  replay_delivery Idle (events_of (main e fuel)) = Some Idle /\
  count is_fwrite (events_of (main e fuel)) =
  count (is_decode_with (IMX_VPU_DEC_OUTPUT_CODE_DECODED_PICTURE_AVAILABLE e))
    (events_of (main e fuel)).
Proof.
  apply (main_calls_invariant e (fun tr =>
    replay_delivery Idle tr = Some Idle /\
    count is_fwrite tr =
    count (is_decode_with (IMX_VPU_DEC_OUTPUT_CODE_DECODED_PICTURE_AVAILABLE e)) tr)).
  - pose proof (init_events_init e) as Hi. split.
    + apply (replay_delivery_skip is_init_call _ _ Hi). by_kind.
    + rewrite (count_disjoint is_init_call is_fwrite _ Hi) by by_kind.
      rewrite (count_disjoint is_init_call (is_decode_with _) _ Hi) by by_kind.
      reflexivity.
  - intros st tr [Hr Hc]. split.
    + rewrite replay_delivery_app, Hr. apply replay_delivery_step.
    + rewrite !count_app, Hc, count_fwrite_step. reflexivity.
  - intros tr [Hr Hc]. split.
    + rewrite replay_delivery_app, Hr. reflexivity.
    + rewrite !count_app, Hc. reflexivity.
  - intros st tr [Hr Hc]. split.
    + rewrite replay_delivery_app, Hr.
      apply (replay_delivery_skip is_teardown_call _ _ (shutdown_calls st)). by_kind.
    + rewrite !count_app, Hc.
      rewrite (count_disjoint is_teardown_call is_fwrite _ (shutdown_calls st)) by by_kind.
      rewrite (count_disjoint is_teardown_call (is_decode_with _) _ (shutdown_calls st))
        by by_kind.
      reflexivity.
Qed.

(** * The result of a step *)

Lemma existsb_none (q p : event -> bool) (tr : list event) :
  Forall (fun ev => q ev = true) tr ->
  (forall ev, q ev = true -> p ev = false) ->
  existsb p tr = false.
Proof.
  intros Hall Hq. induction Hall as [|ev tr Hev _ IH]; [reflexivity|].
  simpl. rewrite (Hq ev Hev), IH. reflexivity.
Qed.

(** X7: a decode step, in drain mode or not, returns [RETVAL_EOS] exactly
    when, among its calls, the reader left no access unit or returned 0,
    or the decode call stored an output code with EOS set; otherwise it
    returns [RETVAL_OK].  No other flag and no return code of the engine
    has any influence on the result. *)
Theorem decode_frame_returns_eos_iff (e : Env) (st : State) :
  ret_of (decode_frame e st) =
    if existsb (ends_loop e) (events_of (decode_frame e st))
    then RETVAL_EOS else RETVAL_OK.
Proof.
  destruct (submits e st) eqn:Hs.
  - rewrite (decode_frame_submits e st Hs). tuples.
    rewrite existsb_app. cbn [existsb]. rewrite existsb_app.
    rewrite (existsb_none is_pool_call (ends_loop e) _ (step_pool_calls_pool e st))
      by (unfold ends_loop; by_kind).
    rewrite (existsb_none is_output_call (ends_loop e) _ (output_picture_calls _ _ _ _))
      by (unfold ends_loop; by_kind).
    unfold ends_loop at 2. cbn [is_source_exhausted is_decode_with orb].
    rewrite !orb_false_r.
    unfold step_prefix, step_ok, submits in *.
    destruct (drain_mode_enabled (world st)).
    + cbn [existsb orb]. destruct (has_flag _ _); reflexivity.
    + cbn [orb] in Hs. apply negb_true_iff in Hs.
      unfold no_access_unit, read_event, read_ok in *. cbn [existsb].
      destruct (h264_ctx_read_access_unit e (num_reads (world st))) as [[ok s] en].
      unfold ends_loop. cbn [is_source_exhausted is_decode_with fst].
      rewrite Hs. destruct ok, (has_flag _ _); reflexivity.
  - rewrite (decode_frame_no_unit e st Hs). tuples. cbn [existsb].
    unfold submits in Hs. apply orb_false_elim in Hs. destruct Hs as [_ Hs].
    apply negb_false_iff in Hs. unfold no_access_unit, read_event, ends_loop in *.
    destruct (h264_ctx_read_access_unit e (num_reads (world st))) as [[ok s] en].
    cbn [is_source_exhausted]. rewrite Hs, !orb_true_r. reflexivity.
Qed.

(** * Access units *)

Lemma units_read_app (a b : list event) :
  units_read (a ++ b) = units_read a ++ units_read b.
Proof.
  induction a as [|ev a IH]; [reflexivity|].
  destruct ev; simpl; rewrite ?IH; try reflexivity.
  destruct (au_end <=? au_start); reflexivity.
Qed.

Lemma units_submitted_app (a b : list event) :
  units_submitted (a ++ b) = units_submitted a ++ units_submitted b.
Proof.
  induction a as [|ev a IH]; [reflexivity|].
  destruct ev; simpl; rewrite ?IH; try reflexivity.
  destruct (ef_virtual_address frame); reflexivity.
Qed.

Lemma units_none (q : event -> bool) (tr : list event) :
  Forall (fun ev => q ev = true) tr ->
  (forall ev, q ev = true -> is_read ev = false) ->
  (forall ev, q ev = true -> is_decode ev = false) ->
  units_read tr = [] /\ units_submitted tr = [].
Proof.
  intros Hall Hr Hd. induction Hall as [|ev tr Hev _ [IH1 IH2]]; [split; reflexivity|].
  specialize (Hr ev Hev). specialize (Hd ev Hev).
  destruct ev; simpl in *; try (split; assumption); discriminate.
Qed.

Lemma units_step (e : Env) (st : State) :
  units_submitted (events_of (decode_frame e st)) = units_read (events_of (decode_frame e st)).
Proof.
  destruct (submits e st) eqn:Hs.
  - rewrite (decode_frame_submits e st Hs). tuples.
    rewrite units_read_app, units_submitted_app.
    cbn [units_read units_submitted].
    rewrite units_read_app, units_submitted_app.
    destruct (units_none is_pool_call _ (step_pool_calls_pool e st)) as [-> ->]; try by_kind.
    destruct (units_none is_output_call _ (output_picture_calls e (step_pool_state e st)
                (num_decodes (world st)) (step_output_code e st))) as [-> ->]; try by_kind.
    unfold step_prefix, step_frame, submits in *.
    destruct (drain_mode_enabled (world st)); [reflexivity|].
    cbn [orb] in Hs. apply negb_true_iff in Hs.
    unfold no_access_unit, read_event, after_read in *.
    destruct (h264_ctx_read_access_unit e (num_reads (world st))) as [[ok s] en].
    cbn. rewrite Hs. reflexivity.
  - rewrite (decode_frame_no_unit e st Hs). tuples.
    unfold submits in Hs. apply orb_false_elim in Hs. destruct Hs as [_ Hs].
    apply negb_false_iff in Hs. unfold no_access_unit, read_event in *.
    destruct (h264_ctx_read_access_unit e (num_reads (world st))) as [[ok s] en].
    cbn. rewrite Hs. reflexivity.
Qed.

(** X8: in every session run, every access unit the reader delivers is
    submitted to the decoder exactly once, in the order read, with the
    offset the reader left and the size end - start (modulo 2^32); no
    other frame is submitted with data, and no frame is ever submitted
    with codec data. *)
Theorem every_access_unit_submitted_once (e : Env) (fuel : nat) :
  units_submitted (events_of (main e fuel)) = units_read (events_of (main e fuel)) /\
  Forall (fun frame => ef_codec_data frame = None /\ ef_codec_data_size frame = 0)
    (submitted_frames (events_of (main e fuel))).
Proof.
  apply (main_calls_invariant e (fun tr =>
    units_submitted tr = units_read tr /\
    Forall (fun frame => ef_codec_data frame = None /\ ef_codec_data_size frame = 0)
      (submitted_frames tr))).
  - pose proof (init_events_init e) as Hi.
    destruct (units_none is_init_call _ Hi) as [-> ->]; try by_kind.
    rewrite (submitted_frames_none is_init_call _ Hi) by by_kind.
    split; [reflexivity | constructor].
  - intros st tr [Hu Hf]. split.
    + rewrite units_read_app, units_submitted_app, Hu, units_step. reflexivity.
    + rewrite submitted_frames_app, submitted_frames_step. apply Forall_app.
      split; [exact Hf|]. destruct (submits e st); [|constructor].
      constructor; [|constructor]. unfold step_frame.
      destruct (drain_mode_enabled (world st)); split; reflexivity.
  - intros tr [Hu Hf]. split.
    + rewrite units_read_app, units_submitted_app, Hu. reflexivity.
    + rewrite submitted_frames_app, app_nil_r. exact Hf.
  - intros st tr [Hu Hf].
    destruct (units_none is_teardown_call _ (shutdown_calls st)) as [H1 H2]; try by_kind.
    split.
    + rewrite units_read_app, units_submitted_app, Hu, H1, H2. reflexivity.
    + rewrite submitted_frames_app.
      rewrite (submitted_frames_none is_teardown_call _ (shutdown_calls st)) by by_kind.
      rewrite app_nil_r. exact Hf.
Qed.

(** * DMA buffers *)

Lemma allocated_app (a b : list event) : allocated (a ++ b) = allocated a ++ allocated b.
Proof.
  induction a as [|ev a IH]; [reflexivity|].
  destruct ev; simpl; rewrite ?IH; try reflexivity.
  destruct result; simpl; rewrite ?IH; reflexivity.
Qed.

Lemma deallocated_app (a b : list event) :
  deallocated (a ++ b) = deallocated a ++ deallocated b.
Proof.
  induction a as [|ev a IH]; [reflexivity|].
  destruct ev; simpl; rewrite ?IH; try reflexivity.
  destruct buffer; simpl; rewrite ?IH; reflexivity.
Qed.

Lemma allocated_none (q : event -> bool) (tr : list event) :
  Forall (fun ev => q ev = true) tr ->
  (forall ev, q ev = true -> is_allocate ev = false) ->
  allocated tr = [].
Proof.
  intros Hall Hq. induction Hall as [|ev tr Hev _ IH]; [reflexivity|].
  specialize (Hq ev Hev). destruct ev; simpl in *; try exact IH. discriminate.
Qed.

Lemma deallocated_none (q : event -> bool) (tr : list event) :
  Forall (fun ev => q ev = true) tr ->
  (forall ev, q ev = true -> is_deallocate ev = false) ->
  deallocated tr = [].
Proof.
  intros Hall Hq. induction Hall as [|ev tr Hev _ IH]; [reflexivity|].
  specialize (Hq ev Hev). destruct ev; simpl in *; try exact IH. discriminate.
Qed.

Lemma granted_app (e : Env) (first n m : nat) :
  granted e first (n + m) = granted e first n ++ granted e (first + n) m.
Proof.
  unfold granted. rewrite seq_app, filter_app. reflexivity.
Qed.

Lemma granted_In (e : Env) (first n k : nat) :
  In k (granted e first n) <->
  (first <= k < first + n)%nat /\ dma_buffer_allocate_ok e k = true.
Proof.
  unfold granted. rewrite filter_In, in_seq. reflexivity.
Qed.

Lemma granted_NoDup (e : Env) (first n : nat) : NoDup (granted e first n).
Proof.
  unfold granted. apply NoDup_filter. apply seq_NoDup.
Qed.

Lemma allocated_pool_slot_calls (e : Env) (size alignment : Z) (first : nat) (i : Z)
    (n : nat) :
  allocated (flat_map (pool_slot_calls e size alignment first i) (seq 0 n))
  = granted e first n.
Proof.
  induction n as [|n IH]; [reflexivity|].
  rewrite seq_S, flat_map_app, allocated_app, IH.
  replace (S n) with (n + 1)%nat by lia. rewrite granted_app. f_equal.
  unfold granted, pool_slot_calls, allocation_result. cbn.
  destruct (dma_buffer_allocate_ok e (first + n)); reflexivity.
Qed.

Lemma deallocated_buffers (e : Env) (first n : nat) :
  deallocated (map E_dma_buffer_deallocate (map (allocation_result e) (seq first n)))
  = granted e first n.
Proof.
  revert first. induction n as [|n IH]; intros first; [reflexivity|].
  unfold granted in *. cbn [seq map filter]. unfold allocation_result at 1.
  destruct (dma_buffer_allocate_ok e first); cbn [deallocated]; rewrite IH; reflexivity.
Qed.

(** What a step does to the DMA buffers. *)
Lemma step_buffers (e : Env) (st : State) :
  let st' := state_of (decode_frame e st) in
  let evs := events_of (decode_frame e st) in
  let n := Z.to_nat (min_num_required_framebuffers (step_initial_info e st)) in
  count (is_decode_with (IMX_VPU_DEC_OUTPUT_CODE_INITIAL_INFO_AVAILABLE e)) evs
    = (if reports_initial_info e st then 1%nat else 0%nat) /\
  deallocated evs = [] /\
  if reports_initial_info e st then
    allocated evs = granted e (num_allocs (world st)) n /\
    num_allocs (world st') = (num_allocs (world st) + n)%nat /\
    fb_dmabuffers (app_data st')
      = Some (map (allocation_result e) (seq (num_allocs (world st)) n)) /\
    Z.to_nat (num_framebuffers (app_data st')) = n
  else
    allocated evs = [] /\
    num_allocs (world st') = num_allocs (world st) /\
    fb_dmabuffers (app_data st') = fb_dmabuffers (app_data st) /\
    num_framebuffers (app_data st') = num_framebuffers (app_data st).
Proof.
  cbv zeta. unfold reports_initial_info. rewrite count_initial_info_step.
  assert (Hd : deallocated (events_of (decode_frame e st)) = [])
    by (apply (deallocated_none is_step_call _ (step_calls e st)); by_kind).
  assert (Ha : num_allocs (world (step_entry e st)) = num_allocs (world st)).
  { unfold step_entry. destruct (drain_mode_enabled (world st)); [reflexivity|].
    apply after_read_world. }
  destruct (submits e st) eqn:Hs; cbn [andb].
  - split; [reflexivity|]. split; [exact Hd|].
    rewrite (decode_frame_submits e st Hs). tuples.
    rewrite allocated_app. cbn [allocated]. rewrite allocated_app.
    rewrite (allocated_none is_read _ (step_prefix_reads e st)) by by_kind.
    rewrite (allocated_none is_output_call _ (output_picture_calls _ _ _ _)) by by_kind.
    rewrite app_nil_r. cbn [List.app].
    unfold step_pool_state, step_pool_calls, initial_info_step, step_initial_info.
    destruct (has_flag _ _).
    + rewrite register_pool_closed, Ha. cbn [fst snd].
      rewrite !allocated_app. cbn [allocated]. rewrite app_nil_r.
      rewrite allocated_pool_slot_calls.
      cbn. repeat split.
    + cbn [fst snd allocated]. cbn. rewrite Ha.
      unfold step_entry. destruct (drain_mode_enabled (world st)); [repeat split|].
      destruct (after_read_app e st) as (_ & _ & A3 & A4 & _).
      repeat split; assumption.
  - split; [reflexivity|]. split; [exact Hd|].
    rewrite (decode_frame_no_unit e st Hs). tuples.
    destruct (after_read_world e st) as (_ & _ & _ & W4).
    destruct (after_read_app e st) as (_ & _ & A3 & A4 & _).
    repeat split; try assumption.
    apply (allocated_none is_read); [|by_kind].
    constructor; [apply read_event_is_read | constructor].
Qed.

Lemma buffers_accounted_init (e : Env) :
  init_failed e = false ->
  buffers_accounted e (after_init e) (init_calls e).
Proof.
  intros Hok. destruct (init_ok e Hok) as (_ & _ & Hw & _ & I2 & I3 & I4 & I5 & I6).
  unfold buffers_accounted. rewrite Hw, I2, I3, I4, I5, I6. cbn [num_allocs].
  split; [|split; [|split; [|split; [|split]]]]; try reflexivity.
  - unfold init_calls, granted. cbn [seq filter].
    destruct (dma_buffer_allocate_ok e 0); reflexivity.
  - exists 1%nat. cbn [pool_array Z.to_nat seq map].
    split; [lia|]. split; [cbn; lia|]. split; [reflexivity|].
    split; [intros _; split; reflexivity|].
    intros H. exfalso. revert H.
    rewrite (count_disjoint is_init_call _ _ (init_calls_init e)) by by_kind. discriminate.
Qed.

Lemma buffers_accounted_step (e : Env) (st : State) (tr : list event) :
  buffers_accounted e st tr ->
  buffers_accounted e (state_of (decode_frame e st)) (tr ++ events_of (decode_frame e st)).
Proof.
  intros (Ha & Hd & Hb & Hin & Hout & first & H1 & H2 & Hpool & Hzero & Hone).
  destruct (decode_frame_keeps e st) as (K1 & K2 & K3).
  pose proof (step_buffers e st) as Hstep. cbv zeta in Hstep.
  destruct Hstep as (Hc & Hdealloc & Hstep).
  unfold buffers_accounted.
  rewrite allocated_app, deallocated_app, count_app, Ha, Hd, Hdealloc, K1, K2, K3, Hc.
  destruct (reports_initial_info e st).
  - destruct Hstep as (S1 & S2 & S3 & S4).
    rewrite S1, S2, S3, S4, <- granted_app. cbn [pool_array].
    split; [reflexivity|]. split; [reflexivity|].
    split; [exact Hb|]. split; [exact Hin|]. split; [exact Hout|].
    exists (num_allocs (world st)).
    split; [lia|]. split; [lia|]. split; [reflexivity|].
    split; [intros H; lia|].
    intros H. assert (H0 : count (is_decode_with
      (IMX_VPU_DEC_OUTPUT_CODE_INITIAL_INFO_AVAILABLE e)) tr = 0%nat) by lia.
    destruct (Hzero H0) as [Hz _]. split; lia.
  - destruct Hstep as (S1 & S2 & S3 & S4).
    rewrite S1, S2, S3, S4, app_nil_r, Nat.add_0_r.
    split; [reflexivity|]. split; [reflexivity|].
    split; [exact Hb|]. split; [exact Hin|]. split; [exact Hout|].
    exists first.
    split; [exact H1|]. split; [exact H2|]. split; [exact Hpool|].
    split; [exact Hzero | exact Hone].
Qed.

Lemma buffers_accounted_drain (e : Env) (st : State) (tr : list event) :
  buffers_accounted e st tr ->
  buffers_accounted e (enable_drain_mode st) (tr ++ [E_dec_enable_drain_mode true]).
Proof.
  unfold buffers_accounted.
  rewrite allocated_app, deallocated_app, count_app, !app_nil_r, Nat.add_0_r.
  intros H. exact H.
Qed.

(** The DMA buffers of a session that has returned: [shutdown] gives back
    the pool [AppData] holds and then the bitstream buffer, and nothing
    was given back before. *)
Lemma session_buffers (e : Env) (fuel : nat) (code : Z) :
  init_failed e = false ->
  ret_of (main e fuel) = Some code ->
  exists first n total,
    (1 <= first)%nat /\ (first + n <= total)%nat /\
    allocated (events_of (main e fuel)) = granted e 0 total /\
    deallocated (events_of (main e fuel)) = granted e first n ++ granted e 0 1 /\
    (count (is_decode_with (IMX_VPU_DEC_OUTPUT_CODE_INITIAL_INFO_AVAILABLE e))
       (events_of (main e fuel)) <= 1 ->
     allocated (events_of (main e fuel)) = granted e 0 1 ++ granted e first n)%nat.
Proof.
  intros Hok Hret.
  destruct (main_invariant_at_shutdown e (buffers_accounted e)
              (buffers_accounted_step e) (buffers_accounted_drain e)
              (buffers_accounted_init e Hok) fuel code Hok Hret) as (pre & Hev & HJ).
  destruct HJ as (Ha & Hd & Hb & Hin & Hout & first & H1 & H2 & Hpool & Hzero & Hone).
  set (st := state_of (main e fuel)) in *.
  exists first, (Z.to_nat (num_framebuffers (app_data st))), (num_allocs (world st)).
  assert (Hshut : events_of (shutdown st) =
    [E_dec_close; E_free (is_null (framebuffers (app_data st)))]
    ++ map E_dma_buffer_deallocate
         (map (allocation_result e)
              (seq first (Z.to_nat (num_framebuffers (app_data st)))))
    ++ [E_free (is_null (fb_dmabuffers (app_data st)));
        E_dma_buffer_deallocate (allocation_result e 0);
        E_dec_unload; E_h264_ctx_cleanup; E_fclose true; E_fclose false]).
  { unfold shutdown. tuples. rewrite Hpool, Hb, Hin, Hout.
    rewrite <- (deallocate_framebuffers_all
                  (map (allocation_result e)
                     (seq first (Z.to_nat (num_framebuffers (app_data st)))))).
    rewrite length_map, length_seq. reflexivity. }
  assert (Hda : deallocated (events_of (shutdown st)) =
                granted e first (Z.to_nat (num_framebuffers (app_data st)))
                ++ granted e 0 1).
  { rewrite Hshut. cbn [List.app deallocated]. rewrite deallocated_app, deallocated_buffers.
    f_equal. unfold granted, allocation_result. cbn.
    destruct (dma_buffer_allocate_ok e 0); reflexivity. }
  assert (Haa : allocated (events_of (shutdown st)) = [])
    by (apply (allocated_none is_teardown_call _ (shutdown_calls st)); by_kind).
  rewrite Hev, allocated_app, deallocated_app, count_app, Ha, Hd, Hda, Haa, app_nil_r.
  rewrite (count_disjoint is_teardown_call (is_decode_with _) _ (shutdown_calls st))
    by by_kind.
  repeat split; try assumption.
  intros Hc.
  destruct (count (is_decode_with (IMX_VPU_DEC_OUTPUT_CODE_INITIAL_INFO_AVAILABLE e)) pre)
    as [|[|c]] eqn:Hcount; [| |lia].
  - destruct (Hzero eq_refl) as [-> ->]. cbn [granted seq filter]. rewrite app_nil_r.
    reflexivity.
  - destruct (Hone eq_refl) as [-> ->]. apply granted_app.
Qed.

(** X9: a session that has returned gives no DMA buffer back twice and
    gives back only buffers the allocator handed out to it, all of them in
    [shutdown]. *)
Theorem no_buffer_released_twice (e : Env) (fuel : nat) (code : Z) :
  init_failed e = false ->
  ret_of (main e fuel) = Some code ->
  NoDup (deallocated (events_of (main e fuel))) /\
  incl (deallocated (events_of (main e fuel))) (allocated (events_of (main e fuel))).
Proof.
  intros Hok Hret.
  destruct (session_buffers e fuel code Hok Hret)
    as (first & n & total & H1 & H2 & -> & -> & _).
  split.
  - apply NoDup_app; [apply granted_NoDup | apply granted_NoDup |].
    intros k Hk1 Hk2. apply granted_In in Hk1, Hk2. lia.
  - intros k Hk. apply in_app_or in Hk. apply granted_In.
    destruct Hk as [Hk | Hk]; apply granted_In in Hk; destruct Hk as [Hr Hk];
      (split; [lia | exact Hk]).
Qed.

Lemma no_buffer_released_twice_witness :
  deallocated (events_of (main env_two_initial_infos 3)) = [2%nat; 0%nat] /\
  NoDup (deallocated (events_of (main env_two_initial_infos 3))).
Proof.
  split; [reflexivity|].
  exact (proj1 (no_buffer_released_twice env_two_initial_infos 3 0 eq_refl eq_refl)).
Defined.

(** X10: a session that has returned and in which the engine reported
    initial info at most once has given back every DMA buffer the
    allocator handed out to it, each exactly once: the buffers handed out
    and the buffers given back are the same up to order. *)
Theorem no_buffer_leaked_with_one_pool (e : Env) (fuel : nat) (code : Z) :
  init_failed e = false ->
  ret_of (main e fuel) = Some code ->
  (count (is_decode_with (IMX_VPU_DEC_OUTPUT_CODE_INITIAL_INFO_AVAILABLE e))
     (events_of (main e fuel)) <= 1)%nat ->
  Permutation (allocated (events_of (main e fuel))) (deallocated (events_of (main e fuel))) /\
  NoDup (allocated (events_of (main e fuel))).
Proof.
  intros Hok Hret Hc.
  destruct (session_buffers e fuel code Hok Hret)
    as (first & n & total & H1 & H2 & Ha & -> & Hone).
  split.
  - rewrite (Hone Hc). apply Permutation_app_comm.
  - rewrite Ha. apply granted_NoDup.
Qed.

Lemma no_buffer_leaked_with_one_pool_witness :
  allocated (events_of (main env_three_units 5)) = [0%nat; 1%nat; 2%nat] /\
  Permutation (allocated (events_of (main env_three_units 5)))
              (deallocated (events_of (main env_three_units 5))).
Proof.
  split; [reflexivity|].
  apply (no_buffer_leaked_with_one_pool env_three_units 5 0 eq_refl eq_refl).
  vm_compute. lia.
Defined.

(** * Order of the flag tests *)

(** X12: when one output code carries both INITIAL_INFO_AVAILABLE and
    DECODED_PICTURE_AVAILABLE, the step builds and registers the pool
    first and fetches the picture after; the number of bytes it writes is
    computed from the sizes of that new initial info, not from the sizes
    held before the step. *)
Theorem initial_info_handled_before_picture (e : Env) (st : State) (output_code : Z) :
  output_code_of (events_of (decode_frame e st)) = Some output_code ->
  has_flag output_code (IMX_VPU_DEC_OUTPUT_CODE_INITIAL_INFO_AVAILABLE e) = true ->
  has_flag output_code (IMX_VPU_DEC_OUTPUT_CODE_DECODED_PICTURE_AVAILABLE e) = true ->
  let d := num_decodes (world st) in
  let picture := snd (imx_vpu_dec_get_decoded_picture e d) in
  exists before fbs num,
    count is_ownership_call before = 0%nat /\
    count is_fwrite before = 0%nat /\
    events_of (decode_frame e st) =
      before
      ++ [E_dec_register_framebuffers fbs num (imx_vpu_dec_register_framebuffers e d);
          E_dec_get_decoded_picture (fst (imx_vpu_dec_get_decoded_picture e d)) picture;
          E_dma_buffer_map (fb_dma_buffer (pic_framebuffer picture));
          E_fwrite (output_size (imx_vpu_dec_calc_framebuffer_sizes e
                                   (step_initial_info e st)));
          E_dma_buffer_unmap (fb_dma_buffer (pic_framebuffer picture));
          E_dec_mark_framebuffer_as_displayed (pic_framebuffer picture)
            (imx_vpu_dec_mark_framebuffer_as_displayed e d)].
Proof.
  intros Hoc Hinit Hpic. cbv zeta.
  rewrite output_code_of_step in Hoc.
  destruct (submits e st) eqn:Hs; [|discriminate]. injection Hoc as <-.
  rewrite (decode_frame_submits e st Hs). tuples.
  unfold step_pool_state, step_pool_calls, initial_info_step, output_picture.
  rewrite Hinit, Hpic, register_pool_closed. cbn [fst snd].
  destruct (imx_vpu_dec_get_decoded_picture e (num_decodes (world st))) as [ret picture].
  cbn [fst snd app_data set_pool calculated_sizes].
  set (first := num_allocs (world (step_entry e st))).
  set (info := snd (imx_vpu_dec_get_initial_info e (num_decodes (world (step_entry e st))))).
  assert (Hd : num_decodes (world (step_entry e st)) = num_decodes (world st))
    by apply step_entry_keeps.
  exists (step_prefix e st
          ++ E_dec_decode (step_frame e st) (step_return_code e st) (step_output_code e st)
          :: [E_dec_get_initial_info
                (fst (imx_vpu_dec_get_initial_info e (num_decodes (world st)))) info;
              E_dec_calc_framebuffer_sizes;
              E_malloc (min_num_required_framebuffers info);
              E_malloc (min_num_required_framebuffers info)]
          ++ flat_map (pool_slot_calls e
                         (total_size (imx_vpu_dec_calc_framebuffer_sizes e info))
                         (framebuffer_alignment info) first 0)
               (seq 0 (Z.to_nat (min_num_required_framebuffers info)))),
    (map (pool_slot e first 0) (seq 0 (Z.to_nat (min_num_required_framebuffers info)))),
    (min_num_required_framebuffers info).
  assert (Hcount : forall p,
    (forall ev, is_read ev = true -> p ev = false) ->
    (forall ev, is_decode ev = true -> p ev = false) ->
    (forall ev, is_pool_call ev = true -> p ev = false) ->
    count p (step_prefix e st
          ++ E_dec_decode (step_frame e st) (step_return_code e st) (step_output_code e st)
          :: [E_dec_get_initial_info
                (fst (imx_vpu_dec_get_initial_info e (num_decodes (world st)))) info;
              E_dec_calc_framebuffer_sizes;
              E_malloc (min_num_required_framebuffers info);
              E_malloc (min_num_required_framebuffers info)]
          ++ flat_map (pool_slot_calls e
                         (total_size (imx_vpu_dec_calc_framebuffer_sizes e info))
                         (framebuffer_alignment info) first 0)
               (seq 0 (Z.to_nat (min_num_required_framebuffers info)))) = 0%nat).
  { intros p Hr Hdec Hpool.
    rewrite count_app, count_cons, count_app, !count_cons, count_nil.
    rewrite (count_disjoint is_read p _ (step_prefix_reads e st) Hr).
    rewrite (Hdec (E_dec_decode _ _ _) eq_refl).
    rewrite (Hpool (E_dec_get_initial_info _ _) eq_refl).
    rewrite (Hpool E_dec_calc_framebuffer_sizes eq_refl).
    rewrite (Hpool (E_malloc _) eq_refl).
    apply (count_disjoint is_allocation_call p _ (pool_slot_calls_allocation _ _ _ _ _ _)).
    intros ev Hev. apply Hpool. revert Hev. clear. destruct ev; simpl; congruence. }
  split; [apply Hcount; by_kind|]. split; [apply Hcount; by_kind|].
  unfold step_initial_info, output_size. subst info. rewrite Hd.
  rewrite <- !app_assoc. reflexivity.
Qed.

Lemma initial_info_handled_before_picture_witness :
  count is_register
    (events_of (decode_frame env_info_and_picture (after_init env_info_and_picture)))
  = 1%nat /\
  exists before fbs num,
    events_of (decode_frame env_info_and_picture (after_init env_info_and_picture)) =
      before
      ++ [E_dec_register_framebuffers fbs num IMX_VPU_DEC_RETURN_CODE_OK;
          E_dec_get_decoded_picture IMX_VPU_DEC_RETURN_CODE_OK
            {| pic_framebuffer := {| fb_dma_buffer := Some 1%nat; fb_context := 8192 |};
               pic_context := 100 |};
          E_dma_buffer_map (Some 1%nat);
          E_fwrite 384;
          E_dma_buffer_unmap (Some 1%nat);
          E_dec_mark_framebuffer_as_displayed
            {| fb_dma_buffer := Some 1%nat; fb_context := 8192 |}
            IMX_VPU_DEC_RETURN_CODE_OK].
Proof.
  split; [reflexivity|].
  destruct (initial_info_handled_before_picture env_info_and_picture
              (after_init env_info_and_picture) 68 eq_refl eq_refl eq_refl)
    as (before & fbs & num & _ & _ & H).
  exists before, fbs, num. exact H.
Defined.

(** * Sessions without initial info, concluded *)

(** A step that does not report initial info leaves the pool fields alone
    and makes no call of the pool build. *)
Lemma step_not_reporting (e : Env) (st : State) :
  reports_initial_info e st = false ->
  framebuffers (app_data (state_of (decode_frame e st))) = framebuffers (app_data st) /\
  fb_dmabuffers (app_data (state_of (decode_frame e st))) = fb_dmabuffers (app_data st) /\
  num_framebuffers (app_data (state_of (decode_frame e st)))
    = num_framebuffers (app_data st) /\
  filter is_pool_call (events_of (decode_frame e st)) = [].
Proof.
  unfold reports_initial_info. destruct (submits e st) eqn:Hs; cbn [andb]; intros H.
  - apply step_without_initial_info. exact H.
  - rewrite (decode_frame_no_unit e st Hs). tuples.
    destruct (after_read_app e st) as (_ & A2 & A3 & A4 & _).
    repeat split; try assumption.
    apply (filter_disjoint is_read); [|by_kind].
    constructor; [apply read_event_is_read | constructor].
Qed.

(** C10, as amended: a step that finds no access unit returns end-of-input
    without a decode call.  In a session whose [init] succeeded and that
    has returned without any decode call, drain calls included, reporting
    initial info (a session on an empty input whose engine has nothing to
    report is one), the exit code is 0, the only allocation is that of the
    bitstream buffer, no pool array is allocated and nothing is
    registered; [shutdown] finds the pool fields as [memset] left them
    (null arrays, zero count), and so frees two null arrays, deallocates no
    framebuffer, and releases the bitstream buffer, the one buffer the
    session allocated.  Such a session does return when the input is
    finite and the engine reports EOS once drained.  Exhaustion of the
    source before any initial info is not enough: initial info reported
    by a drain call builds a pool like any other. *)
Theorem session_without_initial_info (e : Env) :
  (forall st,
     drain_mode_enabled (world st) = false ->
     no_access_unit e st = true ->
     ret_of (decode_frame e st) = RETVAL_EOS /\
     count is_decode (events_of (decode_frame e st)) = 0%nat) /\
  (forall fuel code,
     init_failed e = false ->
     ret_of (main e fuel) = Some code ->
     count (is_decode_with (IMX_VPU_DEC_OUTPUT_CODE_INITIAL_INFO_AVAILABLE e))
       (events_of (main e fuel)) = 0%nat ->
     code = 0 /\
     zero_pool (app_data (state_of (main e fuel))) /\
     filter is_pool_call (events_of (main e fuel)) =
       [E_dma_buffer_allocate (dec_bitstream_buffer_size e)
          (dec_bitstream_buffer_alignment e) (bitstream_buffer_of e)] /\
     filter is_deallocate (events_of (main e fuel)) =
       [E_dma_buffer_deallocate (bitstream_buffer_of e)] /\
     exists pre, events_of (main e fuel) = pre ++ shutdown_calls_zero_pool e) /\
  (init_failed e = false -> source_ends e -> engine_drains e ->
   exists fuel, ret_of (main e fuel) = Some 0).
Proof.
  split; [|split].
  - intros st Hd Hnone.
    assert (Hs : submits e st = false) by (unfold submits; rewrite Hd, Hnone; reflexivity).
    rewrite count_decode_step, Hs, (decode_frame_no_unit e st Hs). split; reflexivity.
  - intros fuel code Hok Hret Hnone.
    destruct (main_finished e fuel code Hok Hret) as (Hcode & _).
    split; [exact Hcode|].
    destruct (main_invariant_at_shutdown e
      (fun st tr =>
         bitstream_buffer (app_data st) = bitstream_buffer_of e /\
         fin (app_data st) = true /\ fout (app_data st) = true /\
         filter is_deallocate tr = [] /\
         (count (is_decode_with (IMX_VPU_DEC_OUTPUT_CODE_INITIAL_INFO_AVAILABLE e)) tr
          = 0%nat ->
          zero_pool (app_data st) /\
          filter is_pool_call tr =
            [E_dma_buffer_allocate (dec_bitstream_buffer_size e)
               (dec_bitstream_buffer_alignment e) (bitstream_buffer_of e)])))
      with (fuel := fuel) (code := code) as (pre & Hev & HJ); try assumption.
    + intros st tr (Hbuf & Hin & Hout & Hdealloc & Hpool).
      destruct (decode_frame_keeps e st) as (K1 & K2 & K3).
      rewrite K1, K2, K3, !filter_app, Hdealloc.
      rewrite (filter_disjoint is_step_call is_deallocate _ (step_calls e st)) by by_kind.
      split; [exact Hbuf|]. split; [exact Hin|]. split; [exact Hout|].
      split; [reflexivity|]. intros H.
      rewrite count_app in H.
      destruct (step_buffers e st) as (Hc & _). cbv zeta in Hc. rewrite Hc in H.
      destruct (reports_initial_info e st) eqn:Hrep; [lia|].
      destruct (step_not_reporting e st Hrep) as (S1 & S2 & S3 & S4).
      destruct Hpool as [(Hf & Hb & Hn) Hp]; [lia|].
      split.
      * unfold zero_pool. rewrite S1, S2, S3. repeat split; assumption.
      * rewrite S4, Hp. reflexivity.
    + intros st tr (Hbuf & Hin & Hout & Hdealloc & Hpool).
      rewrite !filter_app, Hdealloc.
      split; [exact Hbuf|]. split; [exact Hin|]. split; [exact Hout|].
      split; [reflexivity|]. intros H.
      rewrite count_app in H.
      destruct Hpool as [Hz Hp]; [lia|].
      split; [exact Hz|]. rewrite Hp. reflexivity.
    + destruct (init_ok e Hok) as (_ & _ & _ & I1 & I2 & I3 & I4 & I5 & I6).
      repeat split; assumption.
    + destruct HJ as (Hbuf & Hin & Hout & Hdealloc & Hpool).
      rewrite Hev, count_app in Hnone.
      destruct Hpool as [Hzero Hp]; [lia|].
      rewrite (shutdown_zero_pool e _ Hzero Hbuf Hin Hout) in Hev.
      split; [exact Hzero|]. rewrite Hev, !filter_app, Hp, Hdealloc.
      repeat split. exists pre. reflexivity.
  - apply main_terminates.
Qed.

Lemma session_without_initial_info_witness :
  count (is_decode_with (IMX_VPU_DEC_OUTPUT_CODE_INITIAL_INFO_AVAILABLE env_empty_input))
    (events_of (main env_empty_input 3)) = 0%nat /\
  zero_pool (app_data (state_of (main env_empty_input 3))) /\
  exists fuel, ret_of (main env_empty_input fuel) = Some 0.
Proof.
  assert (Hs : source_ends env_empty_input) by (exists 0%nat; simpl; lia).
  assert (Hd : engine_drains env_empty_input) by (intros d; exists 1%nat;
    replace (d + 1)%nat with (S d) by lia; reflexivity).
  destruct (session_without_initial_info env_empty_input) as (_ & H2 & H3).
  split; [reflexivity|]. split.
  - exact (proj1 (proj2 (H2 3%nat 0 eq_refl eq_refl eq_refl))).
  - exact (H3 eq_refl Hs Hd).
Defined.

(** C10, as stated, fails: the one access unit of the input is answered
    with an empty output code, the source is exhausted with no initial
    info reported so far, and the engine reports initial info on the
    first drain call: the step builds and registers a pool of two
    framebuffers, which [shutdown] finds in [AppData]. *)
Lemma pool_built_in_drain_mode :
  ~ no_pool_when_exhausted_first env_initial_info_in_drain 3.
Proof.
  intros H. destruct (H eq_refl eq_refl) as [Hreg _]. vm_compute in Hreg. discriminate.
Qed.
